(** * HBase log and metrics cleaning tools: a shallow embedding

    This development embeds [hbase_tools_simplified.py] in Rocq and checks
    the statements of its specification against it.

    Conventions of the embedding.
    - Text is [string], a sequence of characters with code points below
      256; the character tests of Python ([\d], [\s], [str.isspace],
      [str.lower]) are those of Python on these characters.
    - A [datetime] is the number of microseconds since 0001-01-01 00:00:00
      on the naive local time line, so that Python's comparison of naive
      datetimes is the order of [Z].
    - Python [int] is [Z] (or [nat] for counts).  A number of the
      metrics document is the rational of [Q] that it denotes.  The
      means of the trend, its products with 1.1 and 0.9, its magnitude
      and the standard deviation of a node are binary64 floats, rounded
      as Python rounds them ([Binary64]); the statistics that are only
      reported, and the rates, are exact rationals.
    - A [dict] is an association list in insertion order ([ODict]), as
      iteration order of dictionaries is observable in the results.
    - Functions that touch the outside (directory walk, file reads, the
      clock) run in a small monad [IO] that records what they did. *)

From Stdlib Require Import List String Ascii Bool Arith ZArith QArith Qabs Lia
  Lqa Permutation Sorted Floats.
Import ListNotations.

Close Scope Q_scope.
Close Scope Z_scope.
Open Scope string_scope.
Open Scope list_scope.
Open Scope nat_scope.

(* ================================================================== *)
(** * Python strings *)

Module PyStr.

Definition code (a : ascii) : nat := nat_of_ascii a.

Definition is_digit (a : ascii) : bool :=
  (48 <=? code a) && (code a <=? 57).

(** [str.isspace], and [\s] of [re]: tab, LF, VT, FF, CR, FS..US, space,
    NEL (133) and the no-break space (160). *)
Definition is_space (a : ascii) : bool :=
  ((9 <=? code a) && (code a <=? 13))
  || ((28 <=? code a) && (code a <=? 32))
  || (code a =? 133) || (code a =? 160).

(** The capital letters below 256: A..Z and, but for the multiplication
    sign (215), 192..222. *)
Definition lower_char (a : ascii) : ascii :=
  if ((65 <=? code a) && (code a <=? 90))
     || ((192 <=? code a) && (code a <=? 222) && negb (code a =? 215))
  then ascii_of_nat (code a + 32)
  else a.

(** [s.lower()] *)
Fixpoint lower (s : string) : string :=
  match s with
  | EmptyString => EmptyString
  | String a s' => String (lower_char a) (lower s')
  end.

(** [s.startswith(p)] *)
Fixpoint startswith (p s : string) : bool :=
  match p, s with
  | EmptyString, _ => true
  | String _ _, EmptyString => false
  | String a p', String b s' => Ascii.eqb a b && startswith p' s'
  end.

(** [needle in hay] *)
Fixpoint contains (needle hay : string) : bool :=
  startswith needle hay
  || match hay with
     | EmptyString => false
     | String _ hay' => contains needle hay'
     end.

(** [any(k in s for k in keys)] *)
Definition contains_any (keys : list string) (s : string) : bool :=
  existsb (fun k => contains k s) keys.

Fixpoint drop (n : nat) (s : string) : string :=
  match n, s with
  | O, _ => s
  | S _, EmptyString => EmptyString
  | S n', String _ s' => drop n' s'
  end.

(** [s.endswith(suffix)] *)
Definition endswith (suffix s : string) : bool :=
  (String.length suffix <=? String.length s)
  && String.eqb (drop (String.length s - String.length suffix) s) suffix.

Definition endswith_any (suffixes : list string) (s : string) : bool :=
  existsb (fun x => endswith x s) suffixes.

Fixpoint lstrip (s : string) : string :=
  match s with
  | String a s' => if is_space a then lstrip s' else s
  | EmptyString => EmptyString
  end.

Fixpoint rev_acc (s acc : string) : string :=
  match s with
  | EmptyString => acc
  | String a s' => rev_acc s' (String a acc)
  end.

Definition rev (s : string) : string := rev_acc s EmptyString.

(** [s.strip()] *)
Definition strip (s : string) : string := rev (lstrip (rev (lstrip s))).

(** [s.replace(old, empty)] for a non-empty [old]: the occurrences are
    removed from left to right, without overlap.  [fuel] bounds the
    number of characters looked at and is the length of [s]. *)
Fixpoint remove_fuel (fuel : nat) (old s : string) : string :=
  match fuel with
  | O => s
  | S fuel' =>
      match s with
      | EmptyString => EmptyString
      | String a s' =>
          if startswith old s
          then remove_fuel fuel' old (drop (String.length old) s)
          else String a (remove_fuel fuel' old s')
      end
  end.

Definition remove (old s : string) : string :=
  remove_fuel (String.length s) old s.

(** [os.path.basename(p)]: what follows the last ['/']. *)
Fixpoint basename_acc (s cur : string) : string :=
  match s with
  | EmptyString => rev cur
  | String a s' =>
      if Ascii.eqb a "/"%char then basename_acc s' EmptyString
      else basename_acc s' (String a cur)
  end.

Definition basename (p : string) : string := basename_acc p EmptyString.

(** [os.path.join(root, name)] for a relative [name]. *)
Definition path_join (root name : string) : string :=
  if orb (String.eqb root EmptyString) (endswith "/" root)
  then String.append root name
  else String.append root (String.append "/" name).

(** The number that a string of decimal digits writes. *)
Fixpoint int_acc (s : string) (acc : Z) : Z :=
  match s with
  | EmptyString => acc
  | String a s' => int_acc s' (10 * acc + Z.of_nat (code a - 48))%Z
  end.

(** [sys.int_info.default_max_str_digits] *)
Definition MAX_STR_DIGITS : nat := 4300.

(** [int(s)] for a string of decimal digits, which is what the tools
    pass to it: the text that [\d+] matched.  [None] is the
    [ValueError] that CPython (3.11 and later) raises for a numeral of
    more than 4300 digits. *)
Definition int (s : string) : option Z :=
  if MAX_STR_DIGITS <? String.length s then None
  else Some (int_acc s 0%Z).

(** [x in l] for a list of strings *)
Definition mem (x : string) (l : list string) : bool :=
  existsb (String.eqb x) l.

End PyStr.

(* ================================================================== *)
(** * The fragment of [re] the tools use

    Every pattern of the source is a sequence of single characters,
    character classes, repetitions of one class (greedy [c*], [c+] or lazy
    [c*?]) and capturing groups that do not nest.  [search] is the
    leftmost match of a backtracking matcher, as [re.search] is. *)

Module Re.

Inductive cls : Type :=
| Chr (a : ascii)        (* the character itself *)
| Digit                  (* \d *)
| Dot                    (* . : anything but a newline *)
| DigitOrDot             (* [\d\.] *)
| NotCommaSpace.         (* [^,\s] *)

Definition cls_match (c : cls) (a : ascii) : bool :=
  match c with
  | Chr b => Ascii.eqb a b
  | Digit => PyStr.is_digit a
  | Dot => negb (Ascii.eqb a "010"%char)
  | DigitOrDot => PyStr.is_digit a || Ascii.eqb a "."%char
  | NotCommaSpace => negb (Ascii.eqb a ","%char || PyStr.is_space a)
  end.

Inductive atom : Type :=
| One (c : cls)
| Rep (c : cls) (lo : nat) (greedy : bool)   (* c{lo,} or c{lo,}? *)
| GOpen
| GClose.

Definition regex := list atom.

(** A literal piece of text. *)
Fixpoint lit (s : string) : regex :=
  match s with
  | EmptyString => []
  | String a s' => One (Chr a) :: lit s'
  end.

(** [c{n}] *)
Definition times (n : nat) (c : cls) : regex := repeat (One c) n.

Definition plus (c : cls) : regex := [Rep c 1 true].
Definition star (c : cls) : regex := [Rep c 0 true].
Definition lazy_star (c : cls) : regex := [Rep c 0 false].
Definition group (r : regex) : regex := GOpen :: r ++ [GClose].

(** Matcher state: the characters taken so far (latest first), how
    many had been taken when the current group opened, and the groups
    closed so far (latest first). *)
Record mstate : Type := MState {
  taken : list ascii;
  mark : nat;
  closed : list string
}.

Definition init : mstate := MState [] 0 [].

Definition take (a : ascii) (st : mstate) : mstate :=
  MState (a :: taken st) (mark st) (closed st).

Definition open_group (st : mstate) : mstate :=
  MState (taken st) (List.length (taken st)) (closed st).

Definition text_of (l : list ascii) : string :=
  string_of_list_ascii (List.rev l).

Definition close_group (st : mstate) : mstate :=
  MState (taken st) (mark st)
         (text_of (firstn (List.length (taken st) - mark st) (taken st))
            :: closed st).

Fixpoint match_here (p : regex) : string -> mstate -> option mstate :=
  match p with
  | [] => fun _ st => Some st
  | One c :: p' =>
      fun s st =>
        match s with
        | String a s' =>
            if cls_match c a then match_here p' s' (take a st) else None
        | EmptyString => None
        end
  | Rep c lo greedy :: p' =>
      let k := match_here p' in
      fun s st =>
        (fix rep (s : string) (n : nat) (st : mstate) {struct s}
           : option mstate :=
           let stop := fun _ : unit => if lo <=? n then k s st else None in
           match s with
           | String a s' =>
               if cls_match c a then
                 if greedy then
                   match rep s' (S n) (take a st) with
                   | Some r => Some r
                   | None => stop tt
                   end
                 else
                   match stop tt with
                   | Some r => Some r
                   | None => rep s' (S n) (take a st)
                   end
               else stop tt
           | EmptyString => stop tt
           end) s 0 st
  | GOpen :: p' => fun s st => match_here p' s (open_group st)
  | GClose :: p' => fun s st => match_here p' s (close_group st)
  end.

(** What a match object gives: [group()] and [group(1)], [group(2)]... *)
Record found : Type := Found {
  whole : string;
  groups : list string
}.

Definition found_of (st : mstate) : found :=
  Found (text_of (taken st)) (List.rev (closed st)).

(** [re.search(p, s)] *)
Fixpoint search (p : regex) (s : string) : option found :=
  match match_here p s init with
  | Some st => Some (found_of st)
  | None =>
      match s with
      | String _ s' => search p s'
      | EmptyString => None
      end
  end.

Definition matches (p : regex) (s : string) : bool :=
  match search p s with Some _ => true | None => false end.

(** [m.group(i)] for [i >= 1] *)
Definition group_n (i : nat) (m : found) : string :=
  nth (i - 1) (groups m) EmptyString.

(** [int(m.group(1))] for the match [m] of [re.search(p, s)], when there
    is one; the inner [None] is the [ValueError] of [int]. *)
Definition search_int (p : regex) (s : string) : option (option Z) :=
  match search p s with
  | Some m => Some (PyStr.int (group_n 1 m))
  | None => None
  end.

End Re.

(* ================================================================== *)
(** * Naive datetimes

    The arithmetic is that of the proleptic Gregorian calendar of Python's
    [datetime]: [ymd2ord] and [ord2ymd] are the day-number conversions of
    the library, years run from 1 to 9999. *)

Module Datetime.
Local Open Scope Z_scope.

(** Microseconds since 0001-01-01 00:00:00. *)
Definition datetime := Z.

Definition US_PER_SECOND : Z := 1000000.
Definition US_PER_HOUR : Z := 3600 * US_PER_SECOND.
Definition US_PER_DAY : Z := 24 * US_PER_HOUR.
Definition MAX_ORDINAL : Z := 3652059.     (* 9999-12-31 *)

Definition in_range (t : Z) : bool :=
  (0 <=? t) && (t <? MAX_ORDINAL * US_PER_DAY).

Definition is_leap (y : Z) : bool :=
  (y mod 4 =? 0) && (negb (y mod 100 =? 0) || (y mod 400 =? 0)).

Definition days_before_year (y : Z) : Z :=
  let p := y - 1 in p * 365 + p / 4 - p / 100 + p / 400.

Definition DAYS_IN_MONTH : list Z :=
  [31; 28; 31; 30; 31; 30; 31; 31; 30; 31; 30; 31].

Definition DAYS_BEFORE_MONTH : list Z :=
  [0; 31; 59; 90; 120; 151; 181; 212; 243; 273; 304; 334].

Definition days_in_month (y m : Z) : Z :=
  if (m =? 2) && is_leap y then 29
  else nth (Z.to_nat (m - 1)) DAYS_IN_MONTH 0.

Definition days_before_month (y m : Z) : Z :=
  nth (Z.to_nat (m - 1)) DAYS_BEFORE_MONTH 0
  + (if (2 <? m) && is_leap y then 1 else 0).

Definition ymd2ord (y m d : Z) : Z :=
  days_before_year y + days_before_month y m + d.

Definition DI400Y : Z := days_before_year 401.
Definition DI100Y : Z := days_before_year 101.
Definition DI4Y : Z := days_before_year 5.

Definition ord2ymd (ordinal : Z) : Z * Z * Z :=
  let n := ordinal - 1 in
  let n400 := n / DI400Y in
  let n := n mod DI400Y in
  let year := n400 * 400 + 1 in
  let n100 := n / DI100Y in
  let n := n mod DI100Y in
  let n4 := n / DI4Y in
  let n := n mod DI4Y in
  let n1 := n / 365 in
  let n := n mod 365 in
  let year := year + n100 * 100 + n4 * 4 + n1 in
  if (n1 =? 4) || (n100 =? 4) then (year - 1, 12, 31)
  else
    let leapyear := (n1 =? 3) && (negb (n4 =? 24) || (n100 =? 3)) in
    let month := Z.shiftr (n + 50) 5 in
    let preceding :=
      nth (Z.to_nat (month - 1)) DAYS_BEFORE_MONTH 0
      + (if (2 <? month) && leapyear then 1 else 0) in
    if n <? preceding then
      let month := month - 1 in
      let preceding :=
        preceding
        - (nth (Z.to_nat (month - 1)) DAYS_IN_MONTH 0
           + (if (month =? 2) && leapyear then 1 else 0)) in
      (year, month, n - preceding + 1)
    else (year, month, n - preceding + 1).

(** [datetime(y, m, d, H, M, S)]; [None] is the [ValueError] of a field
    out of range. *)
Definition of_fields (y m d H M S : Z) : option datetime :=
  if (1 <=? y) && (y <=? 9999) && (1 <=? m) && (m <=? 12)
     && (1 <=? d) && (d <=? days_in_month y m)
     && (0 <=? H) && (H <=? 23) && (0 <=? M) && (M <=? 59)
     && (0 <=? S) && (S <=? 59)
  then Some ((ymd2ord y m d - 1) * US_PER_DAY
             + ((H * 60 + M) * 60 + S) * US_PER_SECOND)
  else None.

(** [\d{4}-\d{2}-\d{2} \d{2}:\d{2}:\d{2}] *)
Definition STAMP_SHAPE : Re.regex :=
  (Re.times 4 Re.Digit ++ Re.lit "-" ++ Re.times 2 Re.Digit ++ Re.lit "-"
   ++ Re.times 2 Re.Digit ++ Re.lit " " ++ Re.times 2 Re.Digit
   ++ Re.lit ":" ++ Re.times 2 Re.Digit ++ Re.lit ":"
   ++ Re.times 2 Re.Digit)%list.

(** ** [datetime.strptime(s, "%Y-%m-%d %H:%M:%S")]

    The library turns the format into the regular expression
    [(\d\d\d\d)-(1[0-2]|0[1-9]|[1-9])-(3[0-1]|[1-2]\d|0[1-9]|[1-9]| [1-9])\s+(2[0-3]|[0-1]\d|\d):([0-5]\d|\d):(6[0-1]|[0-5]\d|\d)],
    matches it at the head of the text, refuses text that the match
    leaves over, and builds the datetime from the numbers read.  A
    [reading] gives, for the head of a text, the ways in which a piece of
    the expression can match it, in the order in which the backtracking
    matcher tries them: the number read and the text that follows. *)
Definition reading : Type := string -> list (Z * string).

(** One digit from [lo] to [hi]. *)
Definition digit_in (lo hi : nat) : reading :=
  fun s =>
    match s with
    | String a r =>
        let c := PyStr.code a in
        if (48 + lo <=? c)%nat && (c <=? 48 + hi)%nat
        then [(Z.of_nat (c - 48), r)] else []
    | EmptyString => []
    end.

(** [p] followed by one digit from [lo] to [hi]. *)
Definition then_digit (p : reading) (lo hi : nat) : reading :=
  fun s =>
    flat_map (fun x => map (fun y => (10 * fst x + fst y, snd y))
                           (digit_in lo hi (snd x)))
             (p s).

(** [p|q] *)
Definition or_else (p q : reading) : reading := fun s => (p s ++ q s)%list.

(** A space, then [p]. *)
Definition blank_then (p : reading) : reading :=
  fun s =>
    match s with
    | String a r => if Ascii.eqb a " "%char then p r else []
    | EmptyString => []
    end.

Definition YEAR : reading :=
  then_digit (then_digit (then_digit (digit_in 0 9) 0 9) 0 9) 0 9.
Definition MONTH : reading :=
  or_else (then_digit (digit_in 1 1) 0 2)
    (or_else (then_digit (digit_in 0 0) 1 9) (digit_in 1 9)).
Definition DAY : reading :=
  or_else (then_digit (digit_in 3 3) 0 1)
    (or_else (then_digit (digit_in 1 2) 0 9)
       (or_else (then_digit (digit_in 0 0) 1 9)
          (or_else (digit_in 1 9) (blank_then (digit_in 1 9))))).
Definition HOUR : reading :=
  or_else (then_digit (digit_in 2 2) 0 3)
    (or_else (then_digit (digit_in 0 1) 0 9) (digit_in 0 9)).
Definition MINUTE : reading :=
  or_else (then_digit (digit_in 0 5) 0 9) (digit_in 0 9).
Definition SECOND : reading :=
  or_else (then_digit (digit_in 6 6) 0 1)
    (or_else (then_digit (digit_in 0 5) 0 9) (digit_in 0 9)).

(** The character [c]: the text that follows it. *)
Definition after (c : ascii) (s : string) : list string :=
  match s with
  | String a r => if Ascii.eqb a c then [r] else []
  | EmptyString => []
  end.

(** [\s+], greedy: the texts that can follow it, the longest match
    first. *)
Fixpoint blanks (s : string) : list string :=
  match s with
  | String a r => if PyStr.is_space a then (blanks r ++ [r])%list else []
  | EmptyString => []
  end.

(** The matches of the whole expression at the head of [s], in the order
    of the matcher: the six numbers and the text left over. *)
Definition stamp_readings (s : string)
  : list ((Z * Z * Z * Z * Z * Z) * string) :=
  flat_map (fun year =>
  flat_map (fun r1 =>
  flat_map (fun month =>
  flat_map (fun r2 =>
  flat_map (fun day =>
  flat_map (fun r3 =>
  flat_map (fun hh =>
  flat_map (fun r4 =>
  flat_map (fun mm =>
  flat_map (fun r5 =>
  map (fun ss => ((fst year, fst month, fst day, fst hh, fst mm, fst ss),
                  snd ss))
      (SECOND r5))
    (after ":" (snd mm)))
    (MINUTE r4))
    (after ":" (snd hh)))
    (HOUR r3))
    (blanks (snd day)))
    (DAY r2))
    (after "-" (snd month)))
    (MONTH r1))
    (after "-" (snd year)))
    (YEAR s).

(** [datetime.strptime(s, "%Y-%m-%d %H:%M:%S")]; [None] is
    [ValueError]: no match, text left over by the first match, or
    numbers that are not a date and a time of day. *)
Definition strptime (s : string) : option datetime :=
  match stamp_readings s with
  | (fields, rest) :: _ =>
      match rest with
      | EmptyString =>
          let '(year, month, day, hh, mm, ss) := fields in
          of_fields year month day hh mm ss
      | String _ _ => None
      end
  | [] => None
  end.

(** [t + timedelta(microseconds=delta)]; [None] is [OverflowError]. *)
Definition add (t : datetime) (delta : Z) : option datetime :=
  if in_range (t + delta) then Some (t + delta) else None.

Definition hours (h : Z) : Z := h * US_PER_HOUR.
Definition days (d : Z) : Z := d * US_PER_DAY.

(** [t.date()] as a day number. *)
Definition date (t : datetime) : Z := t / US_PER_DAY + 1.

Definition hour (t : datetime) : Z := (t mod US_PER_DAY) / US_PER_HOUR.
Definition minute (t : datetime) : Z :=
  ((t mod US_PER_DAY) / (60 * US_PER_SECOND)) mod 60.
Definition second (t : datetime) : Z :=
  ((t mod US_PER_DAY) / US_PER_SECOND) mod 60.

Definition digit_char (d : Z) : ascii := ascii_of_nat (48 + Z.to_nat d).

Definition pad2 (n : Z) : string :=
  String (digit_char (n / 10 mod 10))
    (String (digit_char (n mod 10)) EmptyString).

Definition pad4 (n : Z) : string :=
  String.append (pad2 (n / 100)) (pad2 n).

(** [d.strftime("%Y-%m-%d")] of a day number (the year on four
    digits). *)
Definition strftime_date (ordinal : Z) : string :=
  let '(y, m, d) := ord2ymd ordinal in
  String.append (pad4 y)
    (String.append "-" (String.append (pad2 m) (String.append "-" (pad2 d)))).

(** [t.strftime("%Y-%m-%d %H:%M:%S")] *)
Definition strftime (t : datetime) : string :=
  String.append (strftime_date (date t))
    (String.append " "
       (String.append (pad2 (hour t))
          (String.append ":"
             (String.append (pad2 (minute t))
                (String.append ":" (pad2 (second t))))))).

(** [t.strftime("%H:00")] *)
Definition strftime_hour (t : datetime) : string :=
  String.append (pad2 (hour t)) ":00".

End Datetime.

(* ================================================================== *)
(** * Dictionaries in insertion order *)

Module ODict.

Definition t (V : Type) : Type := list (string * V).

Section Ops.
Context {V : Type}.

(** [d.get(k)] *)
Fixpoint get (k : string) (d : t V) : option V :=
  match d with
  | [] => None
  | (k', v) :: d' => if String.eqb k k' then Some v else get k d'
  end.

(** [d[k] = v]: a key that is present keeps its place, a new key
    goes last. *)
Fixpoint set (k : string) (v : V) (d : t V) : t V :=
  match d with
  | [] => [(k, v)]
  | (k', v') :: d' =>
      if String.eqb k k' then (k, v) :: d' else (k', v') :: set k v d'
  end.

Definition keys (d : t V) : list string := map fst d.

Definition mem (k : string) (d : t V) : bool :=
  match get k d with Some _ => true | None => false end.

(** No key twice: what every Python dictionary satisfies. *)
Definition wf (d : t V) : Prop := NoDup (keys d).
End Ops.

(** [d[k] = d.get(k, 0) + 1] *)
Definition incr (k : string) (d : t nat) : t nat :=
  set k (match get k d with Some n => n | None => 0 end + 1) d.

End ODict.

(* ================================================================== *)
(** * Numbers: [max], [min], [statistics.mean] and friends *)

Module Num.

Definition Qltb (x y : Q) : bool := negb (Qle_bool y x).

(** [max(l)] of a non-empty list of integers *)
Definition max_Z (l : list Z) : Z :=
  match l with
  | [] => 0%Z
  | x :: l' => fold_left Z.max l' x
  end.

Definition sum_Z (l : list Z) : Z := fold_left Z.add l 0%Z.

(** [statistics.mean(l)] of integers: the exact quotient *)
Definition mean_Z (l : list Z) : Q :=
  Qmake (sum_Z l) 1 / inject_Z (Z.of_nat (List.length l)).

(** Python's [max] and [min] keep the first of equal candidates. *)
Definition Qmax' (x y : Q) : Q := if Qltb x y then y else x.
Definition Qmin' (x y : Q) : Q := if Qltb y x then y else x.

Definition max_Q (l : list Q) : Q :=
  match l with
  | [] => 0%Q
  | x :: l' => fold_left Qmax' l' x
  end.

Definition min_Q (l : list Q) : Q :=
  match l with
  | [] => 0%Q
  | x :: l' => fold_left Qmin' l' x
  end.

Definition sum_Q (l : list Q) : Q := fold_left Qplus l 0%Q.

Definition mean_Q (l : list Q) : Q :=
  (sum_Q l / inject_Z (Z.of_nat (List.length l)))%Q.

(** Insertion into a list sorted by [leb], before the first element
    that [x] may precede: with [x] taken from the front of the input
    this is a stable sort. *)
Fixpoint insert_by {A : Type} (leb : A -> A -> bool) (x : A) (l : list A)
  : list A :=
  match l with
  | [] => [x]
  | y :: l' => if leb x y then x :: l else y :: insert_by leb x l'
  end.

(** [sorted(l, key=...)]: stable. *)
Fixpoint sort_by {A : Type} (leb : A -> A -> bool) (l : list A) : list A :=
  match l with
  | [] => []
  | x :: l' => insert_by leb x (sort_by leb l')
  end.

(** [statistics.median(l)] *)
Definition median_Q (l : list Q) : Q :=
  let s := sort_by Qle_bool l in
  let n := List.length s in
  if Nat.even n
  then ((nth (n / 2 - 1) s 0 + nth (n / 2) s 0) / 2)%Q
  else nth (n / 2) s 0%Q.

(** The square of [statistics.stdev(l)], the sample variance, for at
    least two values.  The standard deviation itself is not rational;
    the tools only compare it with a constant. *)
Definition variance_Q (l : list Q) : Q :=
  let m := mean_Q l in
  (sum_Q (map (fun x => (x - m) * (x - m)) l)
   / inject_Z (Z.of_nat (List.length l) - 1))%Q.

End Num.

(* ================================================================== *)
(** * Binary64 arithmetic

    The means, the standard deviation and the products with 1.1 and
    0.9 are floats in the tools.  [statistics] computes a mean and a
    variance exactly, as fractions, and rounds once; the products and
    the quotient of the trend are operations of IEEE binary64, which
    are those of [PrimFloat]. *)

Module Binary64.
Local Open Scope Z_scope.

(** [m * 2 ^ e] as a float: exact for [0 <= m <= 2 ^ 53] and
    [-1074 <= e], up to the largest float; infinite beyond. *)
Definition scaled (m e : Z) : float :=
  Z.ldexp (PrimFloat.of_uint63 (Uint63.of_Z m)) e.

(** [n / (d * 2 ^ e)] as a quotient of integers and its remainder. *)
Definition quotient (n d e : Z) : Z * Z * Z :=
  let num := if 0 <=? e then n else n * 2 ^ (- e) in
  let den := if 0 <=? e then d * 2 ^ e else d in
  (num / den, num mod den, den).

(** [a / b] for integers [a] and [0 < b]: the float nearest to the
    quotient, the even one of two that are as near.  The exponent [e]
    leaves 53 bits to the quotient, fewer at the bottom of the range. *)
Definition true_div (a b : Z) : float :=
  let n := Z.abs a in
  if n =? 0 then 0%float
  else
    let e0 := Z.log2 n - Z.log2 b - 52 in
    let '(m0, _, _) := quotient n b e0 in
    let e := Z.max (if m0 <? 2 ^ 52 then e0 - 1 else e0) (-1074) in
    let '(m, r, den) := quotient n b e in
    let up := (den <? 2 * r) || ((den =? 2 * r) && Z.odd m) in
    let f := scaled (if up then m + 1 else m) e in
    if a <? 0 then (- f)%float else f.

(** [float(q)] of a fraction *)
Definition of_Q (q : Q) : float := true_div (Qnum q) (Zpos (Qden q)).

(** The rational that a finite float is. *)
Definition to_Q (f : float) : option Q :=
  match Prim2SF f with
  | S754_zero _ => Some 0%Q
  | S754_finite s m e =>
      let n := if s then Zneg m else Zpos m in
      Some (if 0 <=? e then inject_Z (n * 2 ^ e)
            else Qmake n (Z.to_pos (2 ^ (- e))))
  | S754_infinity _ | S754_nan => None
  end.

(** The number that a float literal of the examples denotes. *)
Definition exact (f : float) : Q :=
  match to_Q f with Some q => q | None => 0%Q end.

(** A number of the metrics document as the model takes it: one that
    binary64 holds exactly, and of magnitude at most [2 ^ 52], so that
    an integer and the float of the same value behave alike. *)
Definition ordinaryb (v : Q) : bool :=
  match to_Q (of_Q v) with
  | Some q => Qeq_bool q v && Qle_bool (Qabs v) (inject_Z (2 ^ 52))
  | None => false
  end.

Definition ordinary (v : Q) : Prop := ordinaryb v = true.

(** [int.bit_length] of a natural number *)
Definition bit_length (n : Z) : Z := if n =? 0 then 0 else Z.log2 n + 1.

Definition _sqrt_bit_width : Z := 109.

(** [statistics._integer_sqrt_of_frac_rto] *)
Definition _integer_sqrt_of_frac_rto (n m : Z) : Z :=
  let a := Z.sqrt (n / m) in
  Z.lor a (if a * a * m =? n then 0 else 1).

(** [statistics._float_sqrt_of_frac] *)
Definition _float_sqrt_of_frac (n m : Z) : float :=
  let q := (bit_length n - bit_length m - _sqrt_bit_width) / 2 in
  if 0 <=? q
  then true_div (Z.shiftl (_integer_sqrt_of_frac_rto n (Z.shiftl m (2 * q))) q)
                1
  else true_div (_integer_sqrt_of_frac_rto (Z.shiftl n (- 2 * q)) m)
                (Z.shiftl 1 (- q)).

(** [statistics.mean(l)]: the exact mean, rounded once. *)
Definition mean (l : list Q) : float := of_Q (Num.mean_Q l).

(** [statistics.stdev(l)], for at least two values: the square root of
    the exact sample variance, a fraction in lowest terms, rounded
    once. *)
Definition stdev (l : list Q) : float :=
  let mss := Qred (Num.variance_Q l) in
  _float_sqrt_of_frac (Qnum mss) (Zpos (Qden mss)).

Definition of_count (n : nat) : float :=
  PrimFloat.of_uint63 (Uint63.of_Z (Z.of_nat n)).

(** [len(errors) / total_entries * 100 > 5] *)
Definition error_rate_exceeds (n_errors n_entries : nat) : bool :=
  (5 <? of_count n_errors / of_count n_entries * 100)%float.

(** [high_usage_node_count > len(node_analysis) * 0.3] *)
Definition high_usage_exceeds (n_high n_nodes : nat) : bool :=
  (of_count n_nodes * 0x1.3333333333333p-2 <? of_count n_high)%float.

End Binary64.

(* ================================================================== *)
(** * The outside world and the monad of effects *)

(** The metrics document, as [json.load] returns it. *)
Record field : Type := Field {
  ftype : string;          (* field['type'] *)
  fvalues : list Q         (* field['values'] *)
}.

Record series : Type := Series {
  sname : string;          (* series['name'] *)
  sfields : list field     (* series['fields'] *)
}.

Record document : Type := Document {
  dseries : option (list series)   (* data['series'], when present *)
}.

Record World : Type := {
  (** [os.path.exists] *)
  path_exists : string -> bool;
  (** [os.walk]: each directory with its file names, in the order of
      enumeration *)
  walk : string -> list (string * list string);
  (** the lines a file yields and whether reading ended normally
      ([false]: opening or decoding raised, after these lines) *)
  read_lines : string -> list string * bool;
  (** [datetime.now()] *)
  now : Datetime.datetime;
  (** [json.load] of a file; [None] when it raises *)
  json_load : string -> option document;
  (** [datetime.fromtimestamp]; [None] when it raises *)
  fromtimestamp : Q -> option Datetime.datetime;
  (** the order in which [list(s)] lists a set of strings, given in
      insertion order *)
  list_of_set : list string -> list string
}.

Inductive exn : Type := ValueError | OverflowError.

Inductive io_event : Type :=
| Exists (p : string)
| Walk (p : string)
| Open (p : string)
| Load (p : string)
| Clock.

Definition trace : Type := list io_event.

Definition IO (A : Type) : Type := trace -> (exn + A) * trace.

Definition ret {A : Type} (a : A) : IO A := fun tr => (inr a, tr).

Definition raise {A : Type} (e : exn) : IO A := fun tr => (inl e, tr).

Definition bind {A B : Type} (m : IO A) (f : A -> IO B) : IO B :=
  fun tr =>
    match m tr with
    | (inl e, tr') => (inl e, tr')
    | (inr a, tr') => f a tr'
    end.

Definition emit (e : io_event) : IO unit := fun tr => (inr tt, tr ++ [e]).

Definition or_raise {A : Type} (e : exn) (o : option A) : IO A :=
  match o with Some a => ret a | None => raise e end.

Notation "x <- m ;; k" := (bind m (fun x => k))
  (at level 61, m at next level, right associativity).
Notation "m ;;; k" := (bind m (fun _ => k))
  (at level 61, right associativity).

(** Running a call from an empty record of effects. *)
Definition run {A : Type} (m : IO A) : (exn + A) * trace := m [].

(* ================================================================== *)
(** * Log analysis: the data *)

Import Datetime.

(** The events of [_parse_log_line], each with the keys its dictionary
    carries besides [type], [timestamp], [node] and [line]. *)
Inductive event_kind : Type :=
| handler_usage (value : Z)
| wal_slow_sync (value : Z)
| wal_rolling
| wal_size (value : Z)
| gc_pause (value : Z)
| gc_event
| heap_usage (used total : Z)
| memory_warning
| compaction_start
| compaction_complete (value : Z)
| major_compaction
| region_split
| split_complete
| flush_start
| flush_complete (value : Z)
| queue_size (value : Z)
| queue_full
| network_timeout
| connection_reset
| table_create
| table_delete
| table_access (table : string)
| balancer_start
| region_move
| client_connection (client_ip : string)
| client_disconnect
| slow_query (value : Z)
| response_time (value : Z).

(** [event['type']] *)
Definition type_name (k : event_kind) : string :=
  match k with
  | handler_usage _ => "handler_usage"
  | wal_slow_sync _ => "wal_slow_sync"
  | wal_rolling => "wal_rolling"
  | wal_size _ => "wal_size"
  | gc_pause _ => "gc_pause"
  | gc_event => "gc_event"
  | heap_usage _ _ => "heap_usage"
  | memory_warning => "memory_warning"
  | compaction_start => "compaction_start"
  | compaction_complete _ => "compaction_complete"
  | major_compaction => "major_compaction"
  | region_split => "region_split"
  | split_complete => "split_complete"
  | flush_start => "flush_start"
  | flush_complete _ => "flush_complete"
  | queue_size _ => "queue_size"
  | queue_full => "queue_full"
  | network_timeout => "network_timeout"
  | connection_reset => "connection_reset"
  | table_create => "table_create"
  | table_delete => "table_delete"
  | table_access _ => "table_access"
  | balancer_start => "balancer_start"
  | region_move => "region_move"
  | client_connection _ => "client_connection"
  | client_disconnect => "client_disconnect"
  | slow_query _ => "slow_query"
  | response_time _ => "response_time"
  end.

Record event : Type := Event {
  e_kind : event_kind;
  e_timestamp : datetime;
  e_node : string;
  e_line : string
}.

Inductive error_kind : Type :=
| E_timeout | E_memory | E_network | E_io | E_permission | E_configuration
| E_data | E_resource | E_fatal | E_error | E_warning | E_exception
| E_unknown.

(** [error['type']] *)
Definition error_name (k : error_kind) : string :=
  match k with
  | E_timeout => "timeout"
  | E_memory => "memory"
  | E_network => "network"
  | E_io => "io"
  | E_permission => "permission"
  | E_configuration => "configuration"
  | E_data => "data"
  | E_resource => "resource"
  | E_fatal => "fatal"
  | E_error => "error"
  | E_warning => "warning"
  | E_exception => "exception"
  | E_unknown => "unknown"
  end.

Record error_record : Type := ErrorRecord {
  err_timestamp : datetime;
  err_node : string;
  err_type : error_kind;
  err_line : string
}.

Record log_data : Type := LogData {
  total_entries : nat;
  events : list event;
  errors : list error_record;
  nodes : list string        (* a set while parsing, a list afterwards *)
}.

Record time_window : Type := TimeWindow {
  tw_start : datetime;       (* ['start'] *)
  tw_end : datetime;         (* ['end'] *)
  start_str : string;
  end_str : string
}.

(** Truth value of an optional string argument: [None] and the empty
    string are false. *)
Definition given (o : option string) : option string :=
  match o with
  | Some EmptyString => None
  | other => other
  end.

(** [not focus_areas or topic in focus_areas] *)
Definition enabled (focus_areas : option (list string)) (topic : string)
  : bool :=
  match focus_areas with
  | None => true
  | Some [] => true
  | Some l => PyStr.mem topic l
  end.

(* ================================================================== *)
(** * Log analysis: parsing *)

(** [_classify_error] *)
Definition _classify_error (line : string) : error_kind :=
  let line_lower := PyStr.lower line in
  if PyStr.contains "timed out" line || PyStr.contains "timeout" line_lower
  then E_timeout
  else if PyStr.contains "outofmemoryerror" line_lower
          || PyStr.contains "out of memory" line_lower
  then E_memory
  else if PyStr.contains_any ["connection"; "socket"; "network"] line_lower
  then E_network
  else if PyStr.contains_any ["ioexception"; "disk"; "file"] line_lower
  then E_io
  else if PyStr.contains_any ["permission"; "access denied"; "unauthorized"]
            line_lower
  then E_permission
  else if PyStr.contains_any ["configuration"; "config"; "property"]
            line_lower
  then E_configuration
  else if PyStr.contains_any ["corrupt"; "checksum"; "data"] line_lower
  then E_data
  else if PyStr.contains_any ["resource"; "quota"; "limit"] line_lower
  then E_resource
  else if PyStr.contains "FATAL" line then E_fatal
  else if PyStr.contains "ERROR" line then E_error
  else if PyStr.contains "WARN" line then E_warning
  else if PyStr.contains "Exception" line then E_exception
  else E_unknown.

Module Pat.
Import Re.

Definition number : regex := group (plus Digit).

Definition HANDLER : regex := lit "handler=" ++ number.
Definition SLOW_SYNC : regex := lit "Slow sync cost: " ++ number ++ lit " ms".
Definition WAL_SIZE : regex := lit "WAL" ++ star Dot ++ lit "size=" ++ number.
Definition GC_PAUSE : regex := lit "GC pause " ++ number ++ lit "ms".
Definition HEAP : regex :=
  lit "heap" ++ lazy_star Dot ++ number ++ lit "M/" ++ number ++ lit "M".
Definition COMPACTION : regex :=
  lit "Completed compaction" ++ lazy_star Dot ++ number ++ lit "ms".
Definition FLUSHED : regex :=
  lit "Flushed" ++ lazy_star Dot ++ number ++ lit "ms".
Definition QUEUE : regex := lit "queue=" ++ number.
Definition TABLE : regex := lit "table=" ++ group (plus NotCommaSpace).
Definition CLIENT : regex :=
  lit "connection: " ++ group (plus DigitOrDot) ++ lit ":" ++ plus Digit.
Definition SLOW_QUERY : regex :=
  lit "Slow query" ++ lazy_star Dot ++ number ++ lit "ms".
Definition RESPONSE : regex :=
  lit "response time" ++ lazy_star Dot ++ number ++ lit "ms".

(** [(\d{4}-\d{2}-\d{2} \d{2}:\d{2}:\d{2}),\d{3}] *)
Definition TIMESTAMP : regex :=
  group Datetime.STAMP_SHAPE ++ lit "," ++ times 3 Digit.

(** [\d{4}-\d{2}-\d{2}] and [\d{4}-\d{2}-\d{2}-\d{2}] *)
Definition DATE : regex :=
  times 4 Digit ++ lit "-" ++ times 2 Digit ++ lit "-" ++ times 2 Digit.
Definition DATE_HOUR : regex := DATE ++ lit "-" ++ times 2 Digit.

(** [ip-\d+-\d+-\d+-\d+] *)
Definition NODE : regex :=
  lit "ip-" ++ plus Digit ++ lit "-" ++ plus Digit ++ lit "-"
  ++ plus Digit ++ lit "-" ++ plus Digit.
End Pat.

(** What a test of [_parse_log_line] appends to [events]; [None] when
    it raises, which it does, before appending, when [int] does. *)
Definition outcome : Type := option (list event_kind).

(** One event when [b] holds. *)
Definition when (b : bool) (k : event_kind) : outcome :=
  Some (if b then [k] else []).

(** One event carrying [int(m.group(1))] when the pattern is found. *)
Definition valued (p : Re.regex) (k : Z -> event_kind) (line : string)
  : outcome :=
  match Re.search_int p line with
  | Some (Some v) => Some [k v]
  | Some None => None
  | None => Some []
  end.

(** One event carrying [m.group(1)] when the pattern is found. *)
Definition named (p : Re.regex) (k : string -> event_kind) (line : string)
  : outcome :=
  match Re.search p line with
  | Some m => Some [k (Re.group_n 1 m)]
  | None => Some []
  end.

Definition heap_events (line : string) : outcome :=
  match Re.search Pat.HEAP line with
  | Some m =>
      match PyStr.int (Re.group_n 1 m) with
      | Some used_heap =>
          match PyStr.int (Re.group_n 2 m) with
          | Some total_heap => Some [heap_usage used_heap total_heap]
          | None => None
          end
      | None => None
      end
  | None => Some []
  end.

(** A step of [_parse_log_line]: a test that may append an event, or
    the test of the [errors] topic, which may append an error record. *)
Inductive step : Type :=
| Detect (test : string -> outcome)
| RecordError.

(** The steps of [_parse_log_line], each with its topic, in the order of
    the source. *)
Definition steps : list (string * step) :=
  let has := PyStr.contains in
  [ ("handler", Detect (valued Pat.HANDLER handler_usage));
    ("wal", Detect (valued Pat.SLOW_SYNC wal_slow_sync));
    ("wal", Detect (fun line =>
       when (has "Rolling" line && has "WAL" line) wal_rolling));
    ("wal", Detect (valued Pat.WAL_SIZE wal_size));
    ("gc", Detect (valued Pat.GC_PAUSE gc_pause));
    ("gc", Detect (fun line =>
       when (has "GC" line
             && PyStr.contains_any ["ParNew"; "CMS"; "G1"; "Full GC"] line)
         gc_event));
    ("memory", Detect heap_events);
    ("memory", Detect (fun line =>
       when (has "OutOfMemoryError" line
             || has "low memory" (PyStr.lower line)) memory_warning));
    ("compaction", Detect (fun line =>
       when (has "Starting compaction" line) compaction_start));
    ("compaction", Detect (valued Pat.COMPACTION compaction_complete));
    ("compaction", Detect (fun line =>
       when (has "major compaction" (PyStr.lower line)) major_compaction));
    ("split", Detect (fun line =>
       when (has "Splitting" line && has "region" (PyStr.lower line))
         region_split));
    ("split", Detect (fun line =>
       when (has "Split" line && has "completed" (PyStr.lower line))
         split_complete));
    ("flush", Detect (fun line => when (has "Flushing" line) flush_start));
    ("flush", Detect (valued Pat.FLUSHED flush_complete));
    ("queue", Detect (valued Pat.QUEUE queue_size));
    ("queue", Detect (fun line =>
       when (has "queue full" (PyStr.lower line)
             || has "queue overflow" (PyStr.lower line)) queue_full));
    ("network", Detect (fun line =>
       when (has "SocketTimeoutException" line
             || has "Connection timeout" line) network_timeout));
    ("network", Detect (fun line =>
       when (has "Connection reset" line || has "Connection refused" line)
         connection_reset));
    ("table", Detect (fun line =>
       when (has "Creating table" line) table_create));
    ("table", Detect (fun line =>
       when (has "Deleting table" line) table_delete));
    ("table", Detect (named Pat.TABLE table_access));
    ("balancer", Detect (fun line =>
       when (has "Balancer" line && has "start" (PyStr.lower line))
         balancer_start));
    ("balancer", Detect (fun line =>
       when (has "Moving region" line) region_move));
    ("errors", RecordError);
    ("clients", Detect (named Pat.CLIENT client_connection));
    ("clients", Detect (fun line =>
       when (has "client disconnect" (PyStr.lower line)
             || has "connection closed" (PyStr.lower line))
         client_disconnect));
    ("performance", Detect (valued Pat.SLOW_QUERY slow_query));
    ("performance", Detect (valued Pat.RESPONSE response_time)) ].

(** The test of the [errors] topic. *)
Definition error_matched (line : string) : bool :=
  PyStr.contains_any ["ERROR"; "Exception"; "timed out"; "FATAL"; "WARN"] line.

(** What one call of [_parse_log_line] does to [log_data]: the events
    and the kinds of error it appends, and whether it ends by raising. *)
Record parse_effect : Type := ParseEffect {
  new_events : list event_kind;
  new_errors : list error_kind;
  raised : bool
}.

(** The steps run in order; the first that raises ends the call, and
    what was appended before stays. *)
Fixpoint run_steps (focus_areas : option (list string)) (line : string)
  (l : list (string * step)) : parse_effect :=
  match l with
  | [] => ParseEffect [] [] false
  | (topic, s) :: l' =>
      if enabled focus_areas topic then
        match s with
        | Detect test =>
            match test line with
            | Some evs =>
                let later := run_steps focus_areas line l' in
                ParseEffect (evs ++ new_events later) (new_errors later)
                            (raised later)
            | None => ParseEffect [] [] true
            end
        | RecordError =>
            let later := run_steps focus_areas line l' in
            if error_matched line
            then ParseEffect (new_events later)
                   (_classify_error line :: new_errors later) (raised later)
            else later
        end
      else run_steps focus_areas line l'
  end.

Definition parse_effect_of (focus_areas : option (list string))
  (line : string) : parse_effect :=
  run_steps focus_areas line steps.

(** [_parse_log_line]: [log_data] as the call leaves it, whether it
    returns or raises. *)
Definition _parse_log_line (line : string) (log_time : datetime)
  (node_name : string) (ld : log_data) (focus_areas : option (list string))
  : log_data :=
  let done := parse_effect_of focus_areas line in
  {| total_entries := total_entries ld;
     events :=
       events ld
       ++ map (fun k => Event k log_time node_name (PyStr.strip line))
            (new_events done);
     errors :=
       errors ld
       ++ map (fun k => ErrorRecord log_time node_name k (PyStr.strip line))
            (new_errors done);
     nodes := nodes ld |}.

(** The call of [_parse_log_line] raises [ValueError]. *)
Definition parse_raises (focus_areas : option (list string)) (line : string)
  : bool :=
  raised (parse_effect_of focus_areas line).

(** What an enabled step appends to [events] when it does not raise. *)
Definition step_events (focus_areas : option (list string)) (line : string)
  (s : string * step) : list event_kind :=
  if enabled focus_areas (fst s) then
    match snd s with
    | Detect test => match test line with Some evs => evs | None => [] end
    | RecordError => []
    end
  else [].

(** The events of the tests of a line that do not raise, for the topics
    of the focus: what [_parse_log_line] appends to [events] when it
    returns. *)
Definition line_events (focus_areas : option (list string)) (line : string)
  : list event_kind :=
  flat_map (step_events focus_areas line) steps.

(** An enabled step raises. *)
Definition step_raises (focus_areas : option (list string)) (line : string)
  (s : string * step) : bool :=
  enabled focus_areas (fst s)
  && match snd s with
     | Detect test => match test line with Some _ => false | None => true end
     | RecordError => false
     end.

(* ================================================================== *)
(** * Log analysis: files and the time window *)

Section LogFiles.
Variable w : World.

Definition os_path_exists (p : string) : IO bool :=
  emit (Exists p) ;;; ret (path_exists w p).

Definition is_log_name (file : string) : bool :=
  PyStr.endswith_any [".log"; ".out"; ".gz"] file
  || Re.matches Pat.DATE_HOUR file.

(** [_discover_log_files] *)
Definition _discover_log_files (log_dir : string) : IO (list string) :=
  present <- os_path_exists log_dir ;;
  if negb present then ret []
  else
    emit (Walk log_dir) ;;;
    ret (flat_map
           (fun d => map (PyStr.path_join (fst d))
                         (filter is_log_name (snd d)))
           (walk w log_dir)).

Definition window (start_dt end_dt : datetime) : time_window :=
  {| tw_start := start_dt; tw_end := end_dt;
     start_str := strftime start_dt; end_str := strftime end_dt |}.

(** [_parse_time_window] *)
Definition _parse_time_window (start_time end_time : option string)
  : IO time_window :=
  match given start_time, given end_time with
  | Some s, Some e =>
      start_dt <- or_raise ValueError (strptime s) ;;
      end_dt <- or_raise ValueError (strptime e) ;;
      ret (window start_dt end_dt)
  | Some s, None =>
      start_dt <- or_raise ValueError (strptime s) ;;
      end_dt <- or_raise OverflowError (add start_dt (hours 1)) ;;
      ret (window start_dt end_dt)
  | None, _ =>
      emit Clock ;;;
      let end_dt := now w in
      start_dt <- or_raise OverflowError (add end_dt (- hours 1)%Z) ;;
      ret (window start_dt end_dt)
  end.

(** [_extract_target_dates]: the days from that of [start] to that of
    [end].  Stepping past the last day of the calendar raises. *)
Definition _extract_target_dates (tw : time_window) : IO (list string) :=
  let start_date := date (tw_start tw) in
  let end_date := date (tw_end tw) in
  if (start_date <=? end_date)%Z && (end_date =? MAX_ORDINAL)%Z
  then raise OverflowError
  else
    ret (map (fun i => strftime_date (start_date + Z.of_nat i)%Z)
             (seq 0 (Z.to_nat (end_date - start_date + 1)))).

(** [_is_file_relevant_for_dates] *)
Definition _is_file_relevant_for_dates (file_path : string)
  (target_dates : list string) : bool :=
  let filename := PyStr.basename file_path in
  if existsb (fun d => PyStr.contains d filename) target_dates then true
  else if PyStr.endswith ".log" filename
          && negb (Re.matches Pat.DATE filename) then true
  else if PyStr.endswith ".out" filename
  then existsb (fun d => PyStr.contains d filename) target_dates
  else false.

(** [_extract_node_name] *)
Definition _extract_node_name (file_path : string) : string :=
  let filename := PyStr.basename file_path in
  match Re.search Pat.NODE filename with
  | Some m => Re.whole m
  | None => PyStr.remove ".out" (PyStr.remove ".log" filename)
  end.

(** [_filter_relevant_files] *)
Definition _filter_relevant_files (log_files : list string)
  (tw : time_window) (target_nodes : option (list string))
  : IO (list string) :=
  target_dates <- _extract_target_dates tw ;;
  let date_filtered_files :=
    filter (fun f => _is_file_relevant_for_dates f target_dates) log_files in
  ret (match target_nodes with
       | Some (n :: ns) =>
           filter (fun f => PyStr.mem (_extract_node_name f) (n :: ns))
                  date_filtered_files
       | _ => date_filtered_files
       end).

(** [s.add(x)] on a set kept in insertion order *)
Definition set_add (x : string) (s : list string) : list string :=
  if PyStr.mem x s then s else s ++ [x].

(** [time_window['start'] <= log_time <= time_window['end']] *)
Definition in_window (tw : time_window) (t : datetime) : bool :=
  (tw_start tw <=? t)%Z && (t <=? tw_end tw)%Z.

(** The timestamp of a line: the first text of the stamp shape, if it
    reads as a date. *)
Definition line_time (line : string) : option datetime :=
  match Re.search Pat.TIMESTAMP line with
  | Some m => strptime (Re.group_n 1 m)
  | None => None
  end.

(** [log_data['total_entries'] += 1] *)
Definition count_entry (ld : log_data) : log_data :=
  {| total_entries := total_entries ld + 1;
     events := events ld; errors := errors ld; nodes := nodes ld |}.

(** The body of the loop over the lines of one file: [log_data] as it
    leaves it, whether it completes or raises. *)
Definition parse_line (tw : time_window)
  (focus_areas : option (list string)) (node_name : string)
  (ld : log_data) (line : string) : log_data :=
  match line_time line with
  | None => ld
  | Some log_time =>
      if in_window tw log_time then
        _parse_log_line line log_time node_name (count_entry ld) focus_areas
      else ld
  end.

(** [log_data['nodes'].add(node_name)] *)
Definition add_node (node_name : string) (ld : log_data) : log_data :=
  {| total_entries := total_entries ld; events := events ld;
     errors := errors ld; nodes := set_add node_name (nodes ld) |}.

(** The call of [_parse_log_line] on a line of the file raises: the
    line is in the window and its parse raises. *)
Definition line_raises (tw : time_window)
  (focus_areas : option (list string)) (line : string) : bool :=
  match line_time line with
  | Some log_time => in_window tw log_time && parse_raises focus_areas line
  | None => false
  end.

(** The loop over the lines of a file, inside [try]: an exception of
    the body ends it, and what the file has added so far stays. *)
Fixpoint parse_lines (tw : time_window)
  (focus_areas : option (list string)) (node_name : string)
  (lines : list string) (ld : log_data) : log_data :=
  match lines with
  | [] => ld
  | line :: rest =>
      let ld' := parse_line tw focus_areas node_name ld line in
      if line_raises tw focus_areas line then ld'
      else parse_lines tw focus_areas node_name rest ld'
  end.

(** What one file adds to [log_data]: its node, then its lines as far
    as they are read and parsed; a failure of the read or of a parse is
    caught, and what was added before it stays. *)
Definition parse_file_lines (tw : time_window)
  (focus_areas : option (list string)) (ld : log_data) (log_file : string)
  : log_data :=
  let node_name := _extract_node_name log_file in
  parse_lines tw focus_areas node_name
              (fst (read_lines w log_file)) (add_node node_name ld).

(** The body of the loop over the files. *)
Definition parse_file (tw : time_window)
  (focus_areas : option (list string)) (ld : log_data) (log_file : string)
  : IO log_data :=
  emit (Open log_file) ;;;
  ret (parse_file_lines tw focus_areas ld log_file).

Fixpoint parse_files (tw : time_window)
  (focus_areas : option (list string)) (log_files : list string)
  (ld : log_data) : IO log_data :=
  match log_files with
  | [] => ret ld
  | f :: fs =>
      ld' <- parse_file tw focus_areas ld f ;;
      parse_files tw focus_areas fs ld'
  end.

(** [_parse_log_files] *)
Definition _parse_log_files (log_files : list string) (tw : time_window)
  (focus_areas : option (list string)) : IO log_data :=
  ld <- parse_files tw focus_areas log_files (LogData 0 [] [] []) ;;
  ret {| total_entries := total_entries ld; events := events ld;
         errors := errors ld; nodes := list_of_set w (nodes ld) |}.

End LogFiles.

(* ================================================================== *)
(** * Log analysis: statistics and anomalies *)

Inductive severity : Type := medium | high | critical.

(** The two anomaly dictionaries of [_analyze_parsed_logs].  The
    [description] text is a rendering of the other keys and is left
    out. *)
Inductive log_anomaly : Type :=
| LogHandlerSaturation (node : string) (sev : severity) (max_value : Z)
    (avg_value : Q)
| LogHighErrorRate (sev : severity) (error_count : nat) (error_rate : Q).




(** The [wal_performance] issue, of severity [high]. *)
Record performance_issue : Type := WalPerformance {
  slow_sync_count : nat;
  avg_sync_time : Q
}.

(** What [_summarize_events] and [_summarize_errors] add to [total] and
    [types] when there is something to summarize. *)
Record summary_detail : Type := SummaryDetail {
  by_node : ODict.t (ODict.t nat);
  time_distribution : ODict.t nat;     (* events only *)
  top_types : list (string * nat)
}.

Record type_summary : Type := TypeSummary {
  total : nat;
  types : ODict.t nat;
  detail : option summary_detail
}.

(** The numbers that [_generate_analysis_summary] joins into one line
    of text. *)
Record digest : Type := Digest {
  d_entries : nat;
  d_nodes : nat;
  d_anomalies : nat;
  d_issues : nat;
  d_errors : nat
}.

Record log_analysis : Type := LogAnalysis {
  events_summary : type_summary;
  anomalies : list log_anomaly;
  performance_issues : list performance_issue;
  error_summary : type_summary;
  handler_stats : ODict.t (list Z);
  summary : digest
}.

(** [event['value']] of a handler event *)
Definition handler_value (e : event) : option Z :=
  match e_kind e with
  | handler_usage v => Some v
  | _ => None
  end.

Definition wal_value (e : event) : option Z :=
  match e_kind e with
  | wal_slow_sync v => Some v
  | _ => None
  end.

Definition is_some {A : Type} (o : option A) : bool :=
  match o with Some _ => true | None => false end.

(** The grouping loop: [handler_stats[node].append(event['value'])]. *)
Definition add_handler (stats : ODict.t (list Z)) (e : event)
  : ODict.t (list Z) :=
  match handler_value e with
  | Some v =>
      let node := e_node e in
      let stats := if ODict.mem node stats then stats
                   else ODict.set node [] stats in
      match ODict.get node stats with
      | Some values => ODict.set node (values ++ [v]) stats
      | None => stats
      end
  | None => stats
  end.

Definition group_handlers (evs : list event) : ODict.t (list Z) :=
  fold_left add_handler (filter (fun e => is_some (handler_value e)) evs) [].

(** The body of the loop over [handler_stats.items()]. *)
Definition handler_anomaly (entry : string * list Z) : list log_anomaly :=
  let (node, values) := entry in
  match values with
  | [] => []
  | _ :: _ =>
      let max_handler := Num.max_Z values in
      let avg_handler := Num.mean_Z values in
      if (58 <=? max_handler)%Z then
        [LogHandlerSaturation node
           (if (60 <=? max_handler)%Z then critical else high)
           max_handler avg_handler]
      else []
  end.

Definition wal_issues (evs : list event) : list performance_issue :=
  let wal_events := filter (fun e => is_some (wal_value e)) evs in
  match wal_events with
  | [] => []
  | _ :: _ =>
      let slow_syncs := List.length wal_events in
      let avg :=
        Num.mean_Z (flat_map (fun e => match wal_value e with
                                       | Some v => [v]
                                       | None => []
                                       end) wal_events) in
      if Num.Qltb 100 avg then [WalPerformance slow_syncs avg] else []
  end.

(** [len(errors) / total_entries * 100 if total_entries > 0 else 0] *)
Definition error_rate_of (n_errors n_entries : nat) : Q :=
  if 0 <? n_entries
  then (inject_Z (Z.of_nat n_errors) / inject_Z (Z.of_nat n_entries) * 100)%Q
  else 0%Q.

Definition error_rate_anomaly (ld : log_data) : list log_anomaly :=
  match errors ld with
  | [] => []
  | _ :: _ =>
      let n := List.length (errors ld) in
      let rate := error_rate_of n (total_entries ld) in
      if Num.Qltb 5 rate then [LogHighErrorRate high n rate] else []
  end.

(** [sorted(d.items(), key=lambda x: x[1], reverse=True)[:n]] *)
Definition top (n : nat) (d : ODict.t nat) : list (string * nat) :=
  firstn n (Num.sort_by (fun x y => snd y <=? snd x) d).

Definition count_in (node type : string) (d : ODict.t (ODict.t nat))
  : ODict.t (ODict.t nat) :=
  let d := if ODict.mem node d then d else ODict.set node [] d in
  match ODict.get node d with
  | Some per_type => ODict.set node (ODict.incr type per_type) d
  | None => d
  end.

(** [_summarize_events] *)
Definition _summarize_events (evs : list event) : type_summary :=
  match evs with
  | [] => TypeSummary 0 [] None
  | _ :: _ =>
      let event_types :=
        fold_left (fun d e => ODict.incr (type_name (e_kind e)) d) evs [] in
      let node_stats :=
        fold_left (fun d e => count_in (e_node e) (type_name (e_kind e)) d)
                  evs [] in
      let hours :=
        fold_left (fun d e => ODict.incr (strftime_hour (e_timestamp e)) d)
                  evs [] in
      TypeSummary (List.length evs) event_types
        (Some (SummaryDetail node_stats hours (top 5 event_types)))
  end.

(** [_summarize_errors] *)
Definition _summarize_errors (errs : list error_record) : type_summary :=
  match errs with
  | [] => TypeSummary 0 [] None
  | _ :: _ =>
      let error_types :=
        fold_left (fun d e => ODict.incr (error_name (err_type e)) d) errs []
      in
      let node_stats :=
        fold_left (fun d e => count_in (err_node e) (error_name (err_type e)) d)
                  errs [] in
      TypeSummary (List.length errs) error_types
        (Some (SummaryDetail node_stats [] (top 3 error_types)))
  end.

(** [_generate_analysis_summary] *)
Definition _generate_analysis_summary (ld : log_data)
  (anoms : list log_anomaly) (issues : list performance_issue) : digest :=
  Digest (total_entries ld) (List.length (nodes ld)) (List.length anoms)
         (List.length issues) (List.length (errors ld)).

(** [_analyze_parsed_logs] *)
Definition _analyze_parsed_logs (ld : log_data) : log_analysis :=
  let stats := group_handlers (events ld) in
  let anoms := flat_map handler_anomaly stats ++ error_rate_anomaly ld in
  let issues := wal_issues (events ld) in
  {| events_summary := _summarize_events (events ld);
     anomalies := anoms;
     performance_issues := issues;
     error_summary := _summarize_errors (errors ld);
     handler_stats := stats;
     summary := _generate_analysis_summary ld anoms issues |}.

(** The result document of [analyze_hbase_logs]. *)
Record log_result : Type := LogResult {
  analysis_window : time_window;
  files_processed : nat;
  r_total_entries : nat;
  r_events_summary : type_summary;
  r_anomalies : list log_anomaly;
  r_performance_issues : list performance_issue;
  r_error_summary : type_summary;
  r_summary : digest
}.

(** [analyze_hbase_logs] *)
Definition analyze_hbase_logs (w : World) (log_dir : string)
  (start_time end_time : option string) (focus_areas : option (list string))
  (target_nodes : option (list string)) : IO log_result :=
  log_files <- _discover_log_files w log_dir ;;
  tw <- _parse_time_window w start_time end_time ;;
  relevant_files <- _filter_relevant_files log_files tw target_nodes ;;
  ld <- _parse_log_files w relevant_files tw focus_areas ;;
  let analysis_result := _analyze_parsed_logs ld in
  ret {| analysis_window := tw;
         files_processed := List.length relevant_files;
         r_total_entries := total_entries ld;
         r_events_summary := events_summary analysis_result;
         r_anomalies := anomalies analysis_result;
         r_performance_issues := performance_issues analysis_result;
         r_error_summary := error_summary analysis_result;
         r_summary := summary analysis_result |}.

(* ================================================================== *)
(** * Metrics: loading *)

(** The dictionary [_filter_metrics_by_time] returns. *)
Record node_data : Type := NodeData {
  timestamps : list datetime;
  values : list Q;
  count : nat
}.

Record time_range : Type := TimeRange {
  range_start : string;      (* ['start'] *)
  range_end : string;        (* ['end'] *)
  range_hours : Z            (* ['hours'] *)
}.

(** [metrics_data]; the empty dictionary returned for a missing
    directory is [no_metrics]. *)
Record metrics_data : Type := MetricsData {
  md_nodes : list string;
  handler_metrics : ODict.t node_data;
  md_time_range : option time_range
}.

Definition no_metrics : metrics_data := MetricsData [] [] None.

Section MetricsLoader.
Variable w : World.

(** [_extract_node_from_series_name] *)
Definition _extract_node_from_series_name (series_name : string)
  : option string :=
  option_map Re.whole (Re.search Pat.NODE series_name).

(** The loop of [_filter_metrics_by_time] over the paired arrays; it
    stops at the end of the shorter one.  [None]: a timestamp could
    not be converted. *)
Fixpoint filter_points (ts vs : list Q) (start_time end_time : datetime)
  (kept_t : list datetime) (kept_v : list Q)
  : option (list datetime * list Q) :=
  match ts, vs with
  | timestamp_ms :: ts', v :: vs' =>
      match fromtimestamp w (timestamp_ms / 1000)%Q with
      | None => None
      | Some timestamp_dt =>
          if (start_time <=? timestamp_dt)%Z && (timestamp_dt <=? end_time)%Z
          then filter_points ts' vs' start_time end_time
                 (kept_t ++ [timestamp_dt]) (kept_v ++ [v])
          else filter_points ts' vs' start_time end_time kept_t kept_v
      end
  | _, _ => Some (kept_t, kept_v)
  end.

(** [_filter_metrics_by_time] *)
Definition _filter_metrics_by_time (ts vs : list Q)
  (start_time end_time : datetime) : option node_data :=
  match filter_points ts vs start_time end_time [] [] with
  | Some (kept_t, kept_v) =>
      Some (NodeData kept_t kept_v (List.length kept_v))
  | None => None
  end.

(** The last field of a given type, as the loop over the fields
    leaves it. *)
Definition last_field (type : string) (fields : list field)
  : option field :=
  find (fun f => String.eqb (ftype f) type) (List.rev fields).

(** The body of the loop over the series; [None] when it raises. *)
Definition load_one (start_time end_time : datetime) (md : metrics_data)
  (s : series) : option metrics_data :=
  match _extract_node_from_series_name (sname s) with
  | None => Some md
  | Some node_name =>
      match last_field "time" (sfields s), last_field "number" (sfields s)
      with
      | Some time_field, Some value_field =>
          match _filter_metrics_by_time (fvalues time_field)
                  (fvalues value_field) start_time end_time with
          | None => None
          | Some filtered_data =>
              match timestamps filtered_data with
              | [] => Some md
              | _ :: _ =>
                  Some {| md_nodes := md_nodes md ++ [node_name];
                          handler_metrics :=
                            ODict.set node_name filtered_data
                                      (handler_metrics md);
                          md_time_range := md_time_range md |}
              end
          end
      | _, _ => Some md
      end
  end.

(** The loop over the series inside [try]: an exception ends it and
    what was loaded so far is kept. *)
Fixpoint load_series (l : list series) (start_time end_time : datetime)
  (md : metrics_data) : metrics_data :=
  match l with
  | [] => md
  | s :: l' =>
      match load_one start_time end_time md s with
      | Some md' => load_series l' start_time end_time md'
      | None => md
      end
  end.

(** The time range of [_load_metrics_data]: forward from the target
    when there is one, the last three days otherwise. *)
Definition metrics_bounds (target_time : option string) (hours_range : Z)
  : IO (datetime * datetime) :=
  match given target_time with
  | Some t =>
      start_time <- or_raise ValueError (strptime t) ;;
      end_time <- or_raise OverflowError (add start_time (hours hours_range)) ;;
      ret (start_time, end_time)
  | None =>
      emit Clock ;;;
      let end_time := now w in
      start_time <- or_raise OverflowError (add end_time (- days 3)%Z) ;;
      ret (start_time, end_time)
  end.

(** What the loader holds once the range is fixed and the document
    has been read: the part of [_load_metrics_data] after the
    range. *)
Definition load_document (metrics_dir : string) (target_time : option string)
  (hours_range : Z) (start_time end_time : datetime) : IO metrics_data :=
  let md :=
    {| md_nodes := []; handler_metrics := [];
       md_time_range :=
         Some {| range_start := strftime start_time;
                 range_end := strftime end_time;
                 range_hours := if is_some (given target_time)
                                then hours_range else 72%Z |} |} in
  let download_file := PyStr.path_join metrics_dir "download.json" in
  present <- os_path_exists w download_file ;;
  if present then
    emit (Load download_file) ;;;
    ret (match json_load w download_file with
         | Some data =>
             match dseries data with
             | Some l => load_series l start_time end_time md
             | None => md
             end
         | None => md
         end)
  else ret md.

(** [_load_metrics_data] *)
Definition _load_metrics_data (metrics_dir : string)
  (target_time : option string) (hours_range : Z) : IO metrics_data :=
  present <- os_path_exists w metrics_dir ;;
  if negb present then ret no_metrics
  else
    bounds <- metrics_bounds target_time hours_range ;;
    load_document metrics_dir target_time hours_range
                  (fst bounds) (snd bounds).

End MetricsLoader.

(* ================================================================== *)
(** * Metrics: statistics, anomalies, trend *)

Record usage_point : Type := UsagePoint {
  up_timestamp : datetime;
  up_value : Q;
  up_index : nat
}.

Record saturation_point : Type := SaturationPoint {
  sp_timestamp : datetime;
  sp_value : Q;
  sp_severity : severity
}.

(** The per-node dictionary [stats]; [ns_std] is its [std] entry, and
    [std_squared] the exact sample variance of which it is the rounded
    square root. *)
Record node_stats : Type := NodeStats {
  ns_max : Q;
  ns_min : Q;
  ns_mean : Q;
  ns_median : Q;
  std_squared : Q;
  ns_std : float;
  ns_count : nat;
  ns_timestamps : list datetime;
  ns_values : list Q;
  high_usage_points : list usage_point;
  high_usage_count : nat;
  saturation_points : list saturation_point;
  saturation_count : nat
}.

Record cluster_stats : Type := ClusterStats {
  total_nodes : nat;
  cluster_max : Q;
  cluster_mean : Q;
  cluster_std_squared : Q;
  total_data_points : nat
}.

Record performance_stats : Type := PerformanceStats {
  high_usage_nodes : list string;
  saturated_nodes : list string;
  high_usage_node_count : nat;
  saturated_node_count : nat
}.

(** [analysis]; an entry left as the empty dictionary is [None]. *)
Record metrics_analysis : Type := MetricsAnalysis {
  node_analysis : ODict.t node_stats;
  cluster_summary : option cluster_stats;
  performance_metrics : option performance_stats
}.

(** The sample variance of more than one value, else 0. *)
Definition std_squared_of (l : list Q) : Q :=
  if 1 <? List.length l then Num.variance_Q l else 0%Q.

(** [statistics.stdev(l) if len(l) > 1 else 0] *)
Definition std_of (l : list Q) : float :=
  if 1 <? List.length l then Binary64.stdev l else 0%float.

(** [enumerate(zip(timestamps, values))] *)
Definition indexed_points (d : node_data) : list (nat * (datetime * Q)) :=
  let pts := combine (timestamps d) (values d) in
  combine (seq 0 (List.length pts)) pts.

Definition high_usage_of (d : node_data) : list usage_point :=
  flat_map (fun p => let '(i, (ts, val)) := p in
                     if Qle_bool 50 val then [UsagePoint ts val i] else [])
           (indexed_points d).

Definition saturation_of (d : node_data) : list saturation_point :=
  flat_map (fun p => let '(_, (ts, val)) := p in
                     if Qle_bool 58 val
                     then [SaturationPoint ts val
                             (if Qle_bool 60 val then critical else high)]
                     else [])
           (indexed_points d).

Definition stats_of (d : node_data) : node_stats :=
  let vs := values d in
  let hp := high_usage_of d in
  let sp := saturation_of d in
  {| ns_max := Num.max_Q vs; ns_min := Num.min_Q vs;
     ns_mean := Num.mean_Q vs; ns_median := Num.median_Q vs;
     std_squared := std_squared_of vs; ns_std := std_of vs;
     ns_count := List.length vs;
     ns_timestamps := timestamps d; ns_values := vs;
     high_usage_points := hp; high_usage_count := List.length hp;
     saturation_points := sp; saturation_count := List.length sp |}.

(** The loop over [handler_metrics.items()]: nodes without values are
    skipped. *)
Definition analyze_nodes (hm : ODict.t node_data) : ODict.t node_stats :=
  fold_left (fun acc e =>
               match values (snd e) with
               | [] => acc
               | _ :: _ => ODict.set (fst e) (stats_of (snd e)) acc
               end) hm [].

Definition pooled_values (hm : ODict.t node_data) : list Q :=
  flat_map (fun e => values (snd e)) hm.

(** [_analyze_metrics_comprehensive]; [metric_types] is not used. *)
Definition _analyze_metrics_comprehensive (md : metrics_data)
  (metric_types : option (list string)) : metrics_analysis :=
  match handler_metrics md with
  | [] => MetricsAnalysis [] None None
  | _ :: _ =>
      let stats := analyze_nodes (handler_metrics md) in
      let all_values := pooled_values (handler_metrics md) in
      let high_nodes :=
        map fst (filter (fun e => 0 <? high_usage_count (snd e)) stats) in
      let saturated :=
        map fst (filter (fun e => 0 <? saturation_count (snd e)) stats) in
      {| node_analysis := stats;
         cluster_summary :=
           match all_values with
           | [] => None
           | _ :: _ =>
               Some {| total_nodes := List.length stats;
                       cluster_max := Num.max_Q all_values;
                       cluster_mean := Num.mean_Q all_values;
                       cluster_std_squared := std_squared_of all_values;
                       total_data_points := List.length all_values |}
           end;
         performance_metrics :=
           Some {| high_usage_nodes := high_nodes;
                   saturated_nodes := saturated;
                   high_usage_node_count := List.length high_nodes;
                   saturated_node_count := List.length saturated |} |}
  end.

(** The anomaly dictionaries of the metrics side, without their
    [description]. *)
Inductive metric_anomaly : Type :=
| HandlerSaturation (node : string) (sev : severity) (max_value : Q)
    (n : nat) (ts : list datetime) (vs : list Q)
| HighHandlerUsage (node : string) (max_value mean_value : Q) (n : nat)
    (ts : list datetime) (vs : list Q)
| HandlerVolatility (node : string) (std_value : float) (max_value : Q)
| ClusterSaturation (affected_nodes : list string) (node_count : nat)
| ClusterHighUsage (affected_nodes : list string) (node_count : nat).

Definition ma_type (a : metric_anomaly) : string :=
  match a with
  | HandlerSaturation _ _ _ _ _ _ => "handler_saturation"
  | HighHandlerUsage _ _ _ _ _ _ => "high_handler_usage"
  | HandlerVolatility _ _ _ => "handler_volatility"
  | ClusterSaturation _ _ => "cluster_saturation"
  | ClusterHighUsage _ _ => "cluster_high_usage"
  end.

Definition ma_severity (a : metric_anomaly) : severity :=
  match a with
  | HandlerSaturation _ sev _ _ _ _ => sev
  | HighHandlerUsage _ _ _ _ _ _ => medium
  | HandlerVolatility _ _ _ => medium
  | ClusterSaturation _ _ => critical
  | ClusterHighUsage _ _ => high
  end.

Definition ma_node (a : metric_anomaly) : option string :=
  match a with
  | HandlerSaturation node _ _ _ _ _ => Some node
  | HighHandlerUsage node _ _ _ _ _ => Some node
  | HandlerVolatility node _ _ => Some node
  | ClusterSaturation _ _ => None
  | ClusterHighUsage _ _ => None
  end.

(** The body of the loop over [node_analysis.items()]. *)
Definition node_anomalies (entry : string * node_stats)
  : list metric_anomaly :=
  let (node_name, stats) := entry in
  (if 0 <? saturation_count stats then
     [HandlerSaturation node_name
        (if Qle_bool 60 (ns_max stats) then critical else high)
        (ns_max stats) (saturation_count stats)
        (map sp_timestamp (saturation_points stats))
        (map sp_value (saturation_points stats))]
   else if 5 <? high_usage_count stats then
     [HighHandlerUsage node_name (ns_max stats) (ns_mean stats)
        (high_usage_count stats)
        (map up_timestamp (high_usage_points stats))
        (map up_value (high_usage_points stats))]
   else [])
  ++ (if (15 <? ns_std stats)%float && Num.Qltb 30 (ns_max stats)
      then [HandlerVolatility node_name (ns_std stats) (ns_max stats)]
      else []).

(** The cluster rules: [saturated_node_count > 1], else
    [high_usage_node_count > len(node_analysis) * 0.3]. *)
Definition cluster_anomalies (a : metrics_analysis) : list metric_anomaly :=
  let n_saturated :=
    match performance_metrics a with
    | Some pm => saturated_node_count pm
    | None => 0
    end in
  let n_high :=
    match performance_metrics a with
    | Some pm => high_usage_node_count pm
    | None => 0
    end in
  let limit :=
    (inject_Z (Z.of_nat (List.length (node_analysis a))) * (3 # 10))%Q in
  match performance_metrics a with
  | Some pm =>
      if 1 <? n_saturated
      then [ClusterSaturation (saturated_nodes pm) (saturated_node_count pm)]
      else if Num.Qltb limit (inject_Z (Z.of_nat n_high))
      then [ClusterHighUsage (high_usage_nodes pm) (high_usage_node_count pm)]
      else []
  | None => []
  end.

(** [_detect_metrics_anomalies_comprehensive] *)
Definition _detect_metrics_anomalies_comprehensive (md : metrics_data)
  (a : metrics_analysis) : list metric_anomaly :=
  flat_map node_anomalies (node_analysis a) ++ cluster_anomalies a.

Record bottleneck : Type := Bottleneck {
  b_type : string;
  b_severity : severity;
  affected_components : list string;
  impact : string
}.

Definition severity_eqb (a b : severity) : bool :=
  match a, b with
  | medium, medium | high, high | critical, critical => true
  | _, _ => false
  end.

(** [a.get('node', 'cluster')] *)
Definition component (a : metric_anomaly) : string :=
  match ma_node a with Some n => n | None => "cluster" end.

(** [_identify_performance_bottlenecks] *)
Definition _identify_performance_bottlenecks (a : metrics_analysis)
  (anoms : list metric_anomaly) : list bottleneck :=
  let critical_anomalies :=
    filter (fun x => severity_eqb (ma_severity x) critical) anoms in
  let high_anomalies :=
    filter (fun x => severity_eqb (ma_severity x) high) anoms in
  (match critical_anomalies with
   | [] => []
   | _ :: _ => [Bottleneck "handler_capacity" critical
                  (map component critical_anomalies)
                  "severe_performance_degradation"]
   end)
  ++ (match high_anomalies with
      | [] => []
      | _ :: _ => [Bottleneck "resource_pressure" high
                     (map component high_anomalies)
                     "performance_degradation"]
      end).

Inductive direction : Type := increasing | decreasing | stable.

Record trend : Type := Trend {
  overall_trend : direction;
  first_half_avg : float;
  second_half_avg : float;
  trend_magnitude : float
}.

(** The pooled pairs, [zip(all_timestamps, all_values)]. *)
Definition pooled_pairs (hm : ODict.t node_data) : list (datetime * Q) :=
  combine (flat_map (fun e => timestamps (snd e)) hm)
          (flat_map (fun e => values (snd e)) hm).

(** [time_value_pairs.sort(key=lambda x: x[0])] and the values read off *)
Definition sorted_values (hm : ODict.t node_data) : list Q :=
  map snd (Num.sort_by (fun x y => (fst x <=? fst y)%Z) (pooled_pairs hm)).

(** The floats that the literals [1.1] and [0.9] denote. *)
Definition RISE : float := 0x1.199999999999ap+0%float.
Definition FALL : float := 0x1.ccccccccccccdp-1%float.

(** ['increasing' if second_avg > first_avg * 1.1 else 'decreasing' if
    second_avg < first_avg * 0.9 else 'stable'] *)
Definition trend_direction (first_avg second_avg : float) : direction :=
  if (first_avg * RISE <? second_avg)%float then increasing
  else if (second_avg <? first_avg * FALL)%float then decreasing
  else stable.

(** [abs(second_avg - first_avg) / first_avg if first_avg > 0 else 0] *)
Definition magnitude (first_avg second_avg : float) : float :=
  if (0 <? first_avg)%float
  then (PrimFloat.abs (second_avg - first_avg) / first_avg)%float
  else 0%float.

(** [_analyze_performance_trends]; the empty dictionary is [None]. *)
Definition _analyze_performance_trends (md : metrics_data) : option trend :=
  match handler_metrics md with
  | [] => None
  | _ :: _ =>
      match pooled_values (handler_metrics md) with
      | [] => None
      | _ :: _ =>
          let sv := sorted_values (handler_metrics md) in
          if 10 <=? List.length sv then
            let first_half := firstn (List.length sv / 2) sv in
            let second_half := skipn (List.length sv / 2) sv in
            let first_avg := Binary64.mean first_half in
            let second_avg := Binary64.mean second_half in
            Some {| overall_trend := trend_direction first_avg second_avg;
                    first_half_avg := first_avg;
                    second_half_avg := second_avg;
                    trend_magnitude := magnitude first_avg second_avg |}
          else None
      end
  end.

(** The parts that [_generate_metrics_summary] joins into one line; no
    part at all stands for its text for missing data. *)
Inductive summary_part : Type :=
| PartNodes (n : nat)
| PartClusterMax (x : Q)
| PartClusterMean (x : Q)
| PartCritical (n : nat)
| PartHigh (n : nat)
| PartMedium (n : nat)
| PartSaturated (n : nat)
| PartHighUsage (n : nat).

Definition positive_part (f : nat -> summary_part) (n : nat)
  : list summary_part :=
  if 0 <? n then [f n] else [].

Definition count_severity (s : severity) (anoms : list metric_anomaly) : nat :=
  List.length (filter (fun x => severity_eqb (ma_severity x) s) anoms).

(** [_generate_metrics_summary] *)
Definition _generate_metrics_summary (a : metrics_analysis)
  (anoms : list metric_anomaly) : list summary_part :=
  (match cluster_summary a with
   | Some c => [PartNodes (total_nodes c); PartClusterMax (cluster_max c);
                PartClusterMean (cluster_mean c)]
   | None => []
   end)
  ++ positive_part PartCritical (count_severity critical anoms)
  ++ positive_part PartHigh (count_severity high anoms)
  ++ positive_part PartMedium (count_severity medium anoms)
  ++ (match performance_metrics a with
      | Some pm =>
          positive_part PartSaturated (saturated_node_count pm)
          ++ positive_part PartHighUsage (high_usage_node_count pm)
      | None => []
      end).

(** The result document of [analyze_hbase_metrics]. *)
Record metrics_result : Type := MetricsResult {
  m_target_time : option string;       (* analysis_window.target_time *)
  m_hours_range : Z;                   (* analysis_window.hours_range *)
  metrics_summary : metrics_analysis;
  m_anomalies : list metric_anomaly;
  performance_bottlenecks : list bottleneck;
  trends : option trend;
  m_summary : list summary_part
}.

(** [analyze_hbase_metrics] *)
Definition analyze_hbase_metrics (w : World) (metrics_dir : string)
  (target_time : option string) (hours_range : Z)
  (metric_types : option (list string)) : IO metrics_result :=
  md <- _load_metrics_data w metrics_dir target_time hours_range ;;
  let metrics_analysis := _analyze_metrics_comprehensive md metric_types in
  let anoms := _detect_metrics_anomalies_comprehensive md metrics_analysis in
  let bottlenecks := _identify_performance_bottlenecks metrics_analysis anoms in
  ret {| m_target_time := target_time;
         m_hours_range := hours_range;
         metrics_summary := metrics_analysis;
         m_anomalies := anoms;
         performance_bottlenecks := bottlenecks;
         trends := _analyze_performance_trends md;
         m_summary := _generate_metrics_summary metrics_analysis anoms |}.

(* ================================================================== *)
(** * The error classes as a priority chain

    The order of the specification, each class with the test the source
    makes for it. *)

Definition priority_chain : list (error_kind * (string -> bool)) :=
  let low := PyStr.lower in
  [ (E_timeout, fun l => PyStr.contains "timed out" l
                         || PyStr.contains "timeout" (low l));
    (E_memory, fun l => PyStr.contains "outofmemoryerror" (low l)
                        || PyStr.contains "out of memory" (low l));
    (E_network, fun l =>
       PyStr.contains_any ["connection"; "socket"; "network"] (low l));
    (E_io, fun l => PyStr.contains_any ["ioexception"; "disk"; "file"] (low l));
    (E_permission, fun l =>
       PyStr.contains_any ["permission"; "access denied"; "unauthorized"]
         (low l));
    (E_configuration, fun l =>
       PyStr.contains_any ["configuration"; "config"; "property"] (low l));
    (E_data, fun l =>
       PyStr.contains_any ["corrupt"; "checksum"; "data"] (low l));
    (E_resource, fun l =>
       PyStr.contains_any ["resource"; "quota"; "limit"] (low l));
    (E_fatal, PyStr.contains "FATAL");
    (E_error, PyStr.contains "ERROR");
    (E_warning, PyStr.contains "WARN");
    (E_exception, PyStr.contains "Exception") ].

(** The first class of a chain whose test accepts the line. *)
Fixpoint first_match (chain : list (error_kind * (string -> bool)))
  (line : string) : error_kind :=
  match chain with
  | [] => E_unknown
  | (k, test) :: rest => if test line then k else first_match rest line
  end.

(** [k] is the first class of the chain that matches [line]. *)
Definition first_in_chain (chain : list (error_kind * (string -> bool)))
  (line : string) (k : error_kind) : Prop :=
  exists before test after,
    chain = before ++ (k, test) :: after
    /\ test line = true
    /\ Forall (fun e => snd e line = false) before.

Definition none_in_chain (chain : list (error_kind * (string -> bool)))
  (line : string) : Prop :=
  Forall (fun e => snd e line = false) chain.

(* ================================================================== *)
(** * Notions of the specification, stated on the data *)

(** The handler values observed for a node, in the order of the events. *)
Definition node_handler_values (evs : list event) (node : string) : list Z :=
  flat_map (fun e => if String.eqb (e_node e) node
                     then match handler_value e with
                          | Some v => [v]
                          | None => []
                          end
                     else []) evs.



(** [t] lies in the window, both bounds included. *)
Definition within (start_time end_time t : datetime) : Prop :=
  (start_time <= t <= end_time)%Z.

(** Every event and error record of [ld] lies in the window. *)
Definition retained_within (tw : time_window) (ld : log_data) : Prop :=
  Forall (fun e => within (tw_start tw) (tw_end tw) (e_timestamp e))
         (events ld)
  /\ Forall (fun e => within (tw_start tw) (tw_end tw) (err_timestamp e))
            (errors ld).

(** The metric points of the paired arrays that fall in the window,
    converted, in their order. *)
Definition points_within (w : World) (ts vs : list Q)
  (start_time end_time : datetime) : list (datetime * Q) :=
  flat_map (fun p =>
              match fromtimestamp w (fst p / 1000)%Q with
              | Some t =>
                  if (start_time <=? t)%Z && (t <=? end_time)%Z
                  then [(t, snd p)] else []
              | None => []
              end)
           (combine ts vs).

(** The nodes that the metric analysis keeps: those with a value. *)
Definition analyzed (hm : ODict.t node_data) : ODict.t node_data :=
  filter (fun e => match values (snd e) with [] => false | _ :: _ => true end)
         hm.





(** Order of pairs by time. *)
Definition time_le (x y : datetime * Q) : Prop := (fst x <= fst y)%Z.

(** Every node entry of [md] is the result of filtering a pair of
    arrays with the window [start_time, end_time]. *)
Definition loaded_within (w : World) (start_time end_time : datetime)
  (md : metrics_data) : Prop :=
  forall node d, In (node, d) (handler_metrics md) ->
    exists ts vs, _filter_metrics_by_time w ts vs start_time end_time = Some d.

(** Two worlds with the same files, listed in the same order, and the
    same conversion of timestamps; their clocks and the order in which
    they list a set may differ. *)
Definition same_files (w1 w2 : World) : Prop :=
  (forall p, path_exists w1 p = path_exists w2 p)
  /\ (forall p, walk w1 p = walk w2 p)
  /\ (forall p, read_lines w1 p = read_lines w2 p)
  /\ (forall p, json_load w1 p = json_load w2 p)
  /\ (forall x, fromtimestamp w1 x = fromtimestamp w2 x).

(** Listing a set gives its elements, in some order. *)
Definition lists_sets (w : World) : Prop :=
  forall l, NoDup l -> Permutation (list_of_set w l) l.

(** Two worlds with the same files and clock whose directory [root] is
    enumerated in two different orders. *)
Definition same_files_but_order (w1 w2 : World) : Prop :=
  (forall p, path_exists w1 p = path_exists w2 p)
  /\ (forall p, read_lines w1 p = read_lines w2 p)
  /\ now w1 = now w2
  /\ exists root names1 names2,
       walk w1 root = [(root, names1)]
       /\ walk w2 root = [(root, names2)]
       /\ Permutation names1 names2
       /\ names1 <> names2.

(* ================================================================== *)
(** * Concrete worlds for the examples *)

Module Scenario.
Local Open Scope Z_scope.

(** [fromtimestamp] of a machine on UTC, for whole microseconds. *)
Definition utc_fromtimestamp (x : Q) : option datetime :=
  Some ((ymd2ord 1970 1 1 - 1) * US_PER_DAY
        + Qnum x * US_PER_SECOND / Z.pos (Qden x)).

(** A world with one directory [root] holding [names] in that order of
    enumeration, the given file contents, clock and metrics document. *)
Definition world (root : string) (names : list string)
  (contents : ODict.t (list string)) (clock : datetime)
  (doc : option document) : World :=
  {| path_exists := fun p =>
       String.eqb p root || ODict.mem p contents
       || (is_some doc && String.eqb p (PyStr.path_join root "download.json"));
     walk := fun p => if String.eqb p root then [(root, names)] else [];
     read_lines := fun p =>
       match ODict.get p contents with
       | Some lines => (lines, true)
       | None => ([], false)
       end;
     now := clock;
     json_load := fun p =>
       if String.eqb p (PyStr.path_join root "download.json") then doc
       else None;
     fromtimestamp := utc_fromtimestamp;
     list_of_set := fun l => l |}.

Definition stamp (s : string) : datetime :=
  match strptime s with Some t => t | None => 0 end.

Definition noon : datetime := Eval vm_compute in stamp "2025-09-12 12:00:00".
Definition one_pm : datetime := Eval vm_compute in stamp "2025-09-12 13:00:00".

Definition file_1 : string := "rs-ip-10-0-0-1.log".
Definition file_2 : string := "rs-ip-10-0-0-2.log".

Definition line_a : string :=
  "2025-09-12 12:00:00,000 INFO handler=59 queue=3 Flushing, Moving region r
".
Definition line_b : string :=
  "2025-09-12 13:00:00,000 INFO Creating table after Starting compaction
".
Definition line_late : string :=
  "2025-09-12 13:00:01,000 INFO handler=61
".

Definition contents : ODict.t (list string) :=
  [ ("hbase_log/rs-ip-10-0-0-1.log", [line_a; line_late]);
    ("hbase_log/rs-ip-10-0-0-2.log", [line_b]) ].

(** A numeral of 4301 digits, one more than [int] converts, and a line
    of half past twelve that holds it after [queue=]. *)
Definition long_numeral : string :=
  string_of_list_ascii (repeat "9"%char 4301).
Definition line_long : string :=
  String.append "2025-09-12 12:30:00,000 WARN handler=58 queue="
    (String.append long_numeral " Slow query took 5ms
").

(** The files of [contents], the first with [line_long] before a line
    of one o'clock. *)
Definition contents_long : ODict.t (list string) :=
  [ ("hbase_log/rs-ip-10-0-0-1.log", [line_a; line_long; line_b]);
    ("hbase_log/rs-ip-10-0-0-2.log", [line_b]) ].

Definition world_long : World :=
  world "hbase_log" [file_1; file_2] contents_long noon None.

(** The same directory enumerated in two orders. *)
Definition world_12 : World :=
  world "hbase_log" [file_1; file_2] contents noon None.
Definition world_21 : World :=
  world "hbase_log" [file_2; file_1] contents noon None.

(** The top event types of a run. *)
Definition top_of (r : (exn + log_result) * trace) : list string :=
  match fst r with
  | inr res =>
      match detail (r_events_summary res) with
      | Some d => map fst (top_types d)
      | None => []
      end
  | inl _ => []
  end.

End Scenario.

(** Ten points of value -10 on one node, a minute apart. *)
Definition Scenario_flat_negative : metrics_data :=
  MetricsData ["ip-10-0-0-3"]
    [("ip-10-0-0-3",
      NodeData (map (fun i => (Scenario.noon + 60000000 * Z.of_nat i)%Z)
                    (seq 0 10))
               (repeat (-10)%Q 10) 10)]
    None.

(** Ten points on one node: five of 26, then 23, 23, 23, 24, 24. *)
Definition Scenario_falling : metrics_data :=
  MetricsData ["ip-10-0-0-4"]
    [("ip-10-0-0-4",
      NodeData (map (fun i => (Scenario.noon + 60000000 * Z.of_nat i)%Z)
                    (seq 0 10))
               [26; 26; 26; 26; 26; 23; 23; 23; 24; 24]%Q 10)]
    None.

(** Twelve rising points on one node: 1, 1, 2, 2, ..., 6, 6. *)
Definition Scenario_rising : metrics_data :=
  MetricsData ["ip-10-0-0-2"]
    [("ip-10-0-0-2",
      NodeData (map (fun i => (Scenario.noon + 60000000 * Z.of_nat i)%Z)
                    (seq 0 12))
               (map (fun i => inject_Z (Z.of_nat (1 + i / 2))) (seq 0 12))
               12)]
    None.

Module MetricsScenario.
Local Open Scope Z_scope.

(** Epoch milliseconds of a datetime of the UTC machine. *)
Definition epoch_ms (t : datetime) : Q :=
  inject_Z ((t - (ymd2ord 1970 1 1 - 1) * US_PER_DAY) / 1000).

Definition minutes_after (t : datetime) (i : nat) : datetime :=
  t + 60 * US_PER_SECOND * Z.of_nat i.

(** One series for [ip-10-0-0-2]: twelve points a minute apart from
    noon, of values 1, 1, 2, 2, ..., 6, 6. *)
Definition rising_series : series :=
  Series "Total: ip-10-0-0-2"
    [ Field "time"
        (map (fun i => epoch_ms (minutes_after Scenario.noon i)) (seq 0 12));
      Field "number"
        (map (fun i => inject_Z (Z.of_nat (1 + i / 2))) (seq 0 12)) ].

Definition metrics_world : World :=
  Scenario.world "hbase_metrics" ["download.json"] [] Scenario.one_pm
    (Some (Document (Some [rising_series]))).

End MetricsScenario.

(** The explicit window of the examples and the two calls compared. *)
Definition Scenario_call (w : World) : (exn + log_result) * trace :=
  run (analyze_hbase_logs w "hbase_log" (Some "2025-09-12 12:00:00")
         (Some "2025-09-12 13:00:00") None None).

(** The world [Scenario.world_12] an hour later, on an interpreter that
    lists sets in the opposite order. *)
Definition Scenario_world_12_later : World :=
  {| path_exists := path_exists Scenario.world_12;
     walk := walk Scenario.world_12;
     read_lines := read_lines Scenario.world_12;
     now := Scenario.one_pm;
     json_load := json_load Scenario.world_12;
     fromtimestamp := fromtimestamp Scenario.world_12;
     list_of_set := @List.rev string |}.

(** The scenarios of the specification. *)
Module SpecScenario.

Definition log_name : string := "hbase-regionserver-ip-10-0-0-1.log".
Definition log_path : string := "hbase_log/hbase-regionserver-ip-10-0-0-1.log".

(** A: [handler=59] then [handler=61] on one node. *)
Definition world_A : World :=
  Scenario.world "hbase_log" [log_name]
    [(log_path,
      ["2025-09-12 12:10:00,000 INFO RpcServer handler=59
";
       "2025-09-12 12:20:00,000 INFO RpcServer handler=61
"])]
    Scenario.one_pm None.

(** B: ten error lines and ninety other lines. *)
Definition world_B : World :=
  Scenario.world "hbase_log" [log_name]
    [(log_path,
      repeat "2025-09-12 12:10:00,000 ERROR region is offline
" 10
      ++ repeat "2025-09-12 12:20:00,000 INFO all good
" 90)]
    Scenario.one_pm None.

(** D: no directory at all. *)
Definition world_D : World :=
  {| path_exists := fun _ => false;
     walk := fun _ => [];
     read_lines := fun _ => ([], false);
     now := Scenario.one_pm;
     json_load := fun _ => None;
     fromtimestamp := Scenario.utc_fromtimestamp;
     list_of_set := fun l => l |}.

Definition log_call (w : World) : (exn + log_result) * trace :=
  run (analyze_hbase_logs w "hbase_log" None None None None).

Definition metrics_call (w : World) : (exn + metrics_result) * trace :=
  run (analyze_hbase_metrics w "hbase_metrics" (Some "2025-09-12 12:00:00")
         1 None).

End SpecScenario.

(* ================================================================== *)
(** * Further notions: counts, subsequences *)

(** How many elements of [l] have the key [k]. *)
Definition count_key {A : Type} (key : A -> string) (k : string)
  (l : list A) : nat :=
  List.length (filter (fun e => String.eqb (key e) k) l).

(** A count as a dictionary holds it: absent rather than zero. *)
Definition positive (n : nat) : option nat :=
  match n with O => None | S _ => Some n end.

(** [d[k1][k2]] when both keys are present. *)
Definition get2 (k1 k2 : string) (d : ODict.t (ODict.t nat)) : option nat :=
  match ODict.get k1 d with
  | Some per_key => ODict.get k2 per_key
  | None => None
  end.

(** The sum of the counts of a dictionary. *)
Definition sum_counts (d : ODict.t nat) : nat :=
  fold_right (fun e acc => snd e + acc) 0 d.

(** [l1] is [l2] with some elements left out, the order kept. *)
Inductive subseq {A : Type} : list A -> list A -> Prop :=
| subseq_nil : subseq [] []
| subseq_skip x l1 l2 : subseq l1 l2 -> subseq l1 (x :: l2)
| subseq_keep x l1 l2 : subseq l1 l2 -> subseq (x :: l1) (x :: l2).

(** The counts of a list of pairs do not increase along the list. *)
Definition by_count_desc (x y : string * nat) : Prop := snd y <= snd x.

(** How many elements of [l] have the two keys [k1] and [k2]. *)
Definition count_keys2 {A : Type} (outer inner : A -> string)
  (k1 k2 : string) (l : list A) : nat :=
  List.length (filter (fun e => String.eqb (outer e) k1
                                && String.eqb (inner e) k2) l).

Definition event_type (e : event) : string := type_name (e_kind e).
Definition event_hour (e : event) : string := strftime_hour (e_timestamp e).
Definition error_type (e : error_record) : string := error_name (err_type e).

(** [t] is the list of the [n] largest counts of [d]: as many entries
    as there are, up to [n]; by decreasing count; taken from [d]; no
    entry left out has a larger count; entries of equal count come in
    the order of [d]. *)
Definition is_top (n : nat) (d t : list (string * nat)) : Prop :=
  List.length t = Nat.min n (List.length d)
  /\ Sorted by_count_desc t
  /\ (forall x, In x t -> In x d)
  /\ (forall x, In x d -> In x t \/ forall y, In y t -> snd x <= snd y)
  /\ (forall c, exists rest,
        filter (fun e => snd e =? c) t ++ rest
        = filter (fun e => snd e =? c) d).

(** The topic under which [_parse_log_line] produces an event. *)
Definition topic_of (k : event_kind) : string :=
  match k with
  | handler_usage _ => "handler"
  | wal_slow_sync _ | wal_rolling | wal_size _ => "wal"
  | gc_pause _ | gc_event => "gc"
  | heap_usage _ _ | memory_warning => "memory"
  | compaction_start | compaction_complete _ | major_compaction => "compaction"
  | region_split | split_complete => "split"
  | flush_start | flush_complete _ => "flush"
  | queue_size _ | queue_full => "queue"
  | network_timeout | connection_reset => "network"
  | table_create | table_delete | table_access _ => "table"
  | balancer_start | region_move => "balancer"
  | client_connection _ | client_disconnect => "clients"
  | slow_query _ | response_time _ => "performance"
  end.

(** The numbers an event carries. *)
Definition numbers_of (k : event_kind) : list Z :=
  match k with
  | handler_usage v | wal_slow_sync v | wal_size v | gc_pause v
  | compaction_complete v | flush_complete v | queue_size v
  | slow_query v | response_time v => [v]
  | heap_usage used total => [used; total]
  | _ => []
  end.

(** A line is retained: it carries a timestamp inside the window. *)
Definition retained (tw : time_window) (line : string) : bool :=
  match line_time line with
  | Some t => in_window tw t
  | None => false
  end.

(** The lines of a file that the parser reaches: those read, up to and
    including the first retained line whose parse raises. *)
Fixpoint reached (tw : time_window) (focus_areas : option (list string))
  (lines : list string) : list string :=
  match lines with
  | [] => []
  | line :: rest =>
      line :: (if retained tw line && parse_raises focus_areas line
               then [] else reached tw focus_areas rest)
  end.

(** The lines that the parser reaches in a file, and in the files. *)
Definition reached_in (w : World) (tw : time_window)
  (focus_areas : option (list string)) (file : string) : list string :=
  reached tw focus_areas (fst (read_lines w file)).

Definition reached_lines (w : World) (tw : time_window)
  (focus_areas : option (list string)) (files : list string) : list string :=
  flat_map (reached_in w tw focus_areas) files.

(** No numeral that a test of the line converts is too long for
    [int]. *)
Definition converts (focus_areas : option (list string)) (line : string)
  : Prop :=
  parse_raises focus_areas line = false.

(** The events and the error records that one line of the file of
    [node_name] contributes. *)
Definition events_of_line (tw : time_window)
  (focus_areas : option (list string)) (node_name line : string)
  : list event :=
  match line_time line with
  | Some t =>
      if in_window tw t
      then map (fun k => Event k t node_name (PyStr.strip line))
               (new_events (parse_effect_of focus_areas line))
      else []
  | None => []
  end.

Definition errors_of_line (tw : time_window)
  (focus_areas : option (list string)) (node_name line : string)
  : list error_record :=
  match line_time line with
  | Some t =>
      if in_window tw t
      then map (fun k => ErrorRecord t node_name k (PyStr.strip line))
               (new_errors (parse_effect_of focus_areas line))
      else []
  | None => []
  end.

(** What the lines reached in each file contribute, file after file. *)
Definition per_file {B : Type} (w : World) (tw : time_window)
  (focus_areas : option (list string))
  (f : string -> string -> list B) (files : list string) : list B :=
  flat_map (fun file =>
              flat_map (f (_extract_node_name file))
                       (reached_in w tw focus_areas file))
           files.

(** [day] is one of the days from that of the start of the window to
    that of its end. *)
Definition day_in_window (tw : time_window) (day : Z) : Prop :=
  (date (tw_start tw) <= day <= date (tw_end tw))%Z.

(** The name of a file carries the date of a day of the window. *)
Definition names_day_of (tw : time_window) (filename : string) : Prop :=
  exists day, day_in_window tw day
              /\ PyStr.contains (strftime_date day) filename = true.

(** A current log: a name that ends in [.log] and holds no date. *)
Definition undated_log (filename : string) : bool :=
  PyStr.endswith ".log" filename && negb (Re.matches Pat.DATE filename).

(** The node filter: a missing or empty list of nodes lets every file
    pass. *)
Definition passes_node_filter (target_nodes : option (list string))
  (file_path : string) : Prop :=
  match target_nodes with
  | Some (n :: ns) => In (_extract_node_name file_path) (n :: ns)
  | _ => True
  end.

(** A file that the walk of [log_dir] lists and whose name is that of a
    log. *)
Definition discovered (w : World) (log_dir file_path : string) : Prop :=
  exists root names name,
    In (root, names) (walk w log_dir) /\ In name names
    /\ is_log_name name = true /\ file_path = PyStr.path_join root name.

Definition opens_file (ev : io_event) : bool :=
  match ev with Open _ => true | _ => false end.

(** The arrays of a node entry are parallel and not empty, and [count]
    is their length. *)
Definition parallel (d : node_data) : Prop :=
  timestamps d <> []
  /\ List.length (timestamps d) = List.length (values d)
  /\ count d = List.length (values d).

(** Some series of the document at [download_file] names the node. *)
Definition named_by_series (w : World) (download_file node : string) : Prop :=
  exists data l s,
    json_load w download_file = Some data /\ dseries data = Some l
    /\ In s l /\ _extract_node_from_series_name (sname s) = Some node.

(** What the loader keeps of a document: one entry for a node, each with
    parallel non-empty arrays, and [nodes] lists the nodes that have an
    entry. *)
Definition well_loaded (md : metrics_data) : Prop :=
  ODict.wf (handler_metrics md)
  /\ (forall node d, In (node, d) (handler_metrics md) -> parallel d)
  /\ (forall node, In node (md_nodes md)
                   <-> In node (ODict.keys (handler_metrics md))).



(** A file name as a directory listing gives it: no separator in it. *)
Fixpoint plain_name (s : string) : bool :=
  match s with
  | EmptyString => true
  | String a s' => negb (Ascii.eqb a "/"%char) && plain_name s'
  end.

(** The node that a series names with its arrays of times and of
    numbers: [None] for a series that the loader passes over, for want
    of a node name or of one of the two fields. *)
Definition series_arrays (sr : series) : option (string * list Q * list Q) :=
  match _extract_node_from_series_name (sname sr),
        last_field "time" (sfields sr), last_field "number" (sfields sr)
  with
  | Some node, Some time_field, Some value_field =>
      Some (node, fvalues time_field, fvalues value_field)
  | _, _, _ => None
  end.

(** One of the paired timestamps of the series cannot be converted. *)
Definition unconvertible (w : World) (sr : series) : bool :=
  match series_arrays sr with
  | Some (_, ts, vs) =>
      existsb (fun p => negb (is_some (fromtimestamp w (fst p / 1000)%Q)))
              (combine ts vs)
  | None => false
  end.

(** The series that the loader gets to: those before the first with a
    timestamp that cannot be converted. *)
Fixpoint read_series (w : World) (l : list series) : list series :=
  match l with
  | [] => []
  | sr :: l' => if unconvertible w sr then [] else sr :: read_series w l'
  end.

(** What a series contributes for a window: its node with its points
    inside the window, when it has any. *)
Definition contribution (w : World) (start_time end_time : datetime)
  (sr : series) : list (string * list (datetime * Q)) :=
  match series_arrays sr with
  | Some (node, ts, vs) =>
      match points_within w ts vs start_time end_time with
      | [] => []
      | p :: pts => [(node, p :: pts)]
      end
  | None => []
  end.

Definition contributions (w : World) (start_time end_time : datetime)
  (l : list series) : list (string * list (datetime * Q)) :=
  flat_map (contribution w start_time end_time) (read_series w l).

(** The dictionary of a node that holds the points [pts]. *)
Definition data_of (pts : list (datetime * Q)) : node_data :=
  NodeData (map fst pts) (map snd pts) (List.length pts).

(** The series of [download.json] in the directory: none when the file
    is missing or cannot be loaded, or holds no [series]. *)
Definition document_series (w : World) (metrics_dir : string) : list series :=
  let download_file := PyStr.path_join metrics_dir "download.json" in
  if path_exists w download_file then
    match json_load w download_file with
    | Some data => match dseries data with Some l => l | None => [] end
    | None => []
    end
  else [].

(** [md] holds the document of the directory for the window
    [start_time, end_time]: its time range is the window with [h] for
    [hours]; its nodes are those of the contributions, one for each, in
    their order; and its dictionary is the one obtained by assigning to
    each node, in that order, the points of its contribution. *)
Definition holds_window (w : World) (metrics_dir : string)
  (start_time end_time : datetime) (h : Z) (md : metrics_data) : Prop :=
  let c := contributions w start_time end_time
                         (document_series w metrics_dir) in
  md_time_range md
  = Some (TimeRange (strftime start_time) (strftime end_time) h)
  /\ md_nodes md = map fst c
  /\ handler_metrics md
     = fold_left (fun d x => ODict.set (fst x) (data_of (snd x)) d) c [].

(** What the loader does after it has found the directory: it tests
    for [download.json] and loads it if it is there. *)
Definition document_reads (w : World) (metrics_dir : string) : trace :=
  let download_file := PyStr.path_join metrics_dir "download.json" in
  Exists download_file
  :: (if path_exists w download_file then [Load download_file] else []).

(** The number of steps of a list that record an error. *)
Definition records (l : list (string * step)) : nat :=
  List.length (filter (fun s => match snd s with
                                | RecordError => true
                                | Detect _ => false
                                end) l).

(* ================================================================== *)
(** * Checks of the embedding on small inputs *)

Module ReTests.
Import Re.

Example search_handler :
  search_int (lit "handler=" ++ group (plus Digit)) "x handler= handler=59,q"
  = Some (Some 59%Z).
Proof. reflexivity. Qed.

Example search_heap :
  option_map groups
    (search (lit "heap" ++ lazy_star Dot ++ group (plus Digit) ++ lit "M/"
               ++ group (plus Digit) ++ lit "M") "heap used 123M/4096M")
  = Some ["123"; "4096"].
Proof. reflexivity. Qed.

Example search_greedy :
  search_int (lit "WAL" ++ star Dot ++ lit "size=" ++ group (plus Digit))
             "WAL size=1 size=22"
  = Some (Some 22%Z).
Proof. reflexivity. Qed.

Example strip_line : PyStr.strip "  a b
" = "a b".
Proof. reflexivity. Qed.

Example node_stem :
  PyStr.remove ".out" (PyStr.remove ".log" (PyStr.basename "d/e/gc.log.out"))
  = "gc".
Proof. reflexivity. Qed.
End ReTests.

Module DatetimeTests.
Import Datetime.

Example epoch_day : ymd2ord 1970 1 1 = 719163%Z.
Proof. reflexivity. Qed.

Example last_day : ymd2ord 9999 12 31 = MAX_ORDINAL.
Proof. reflexivity. Qed.

Example parse_print :
  option_map strftime (strptime "2024-02-29 23:59:07")
  = Some "2024-02-29 23:59:07".
Proof. vm_compute. reflexivity. Qed.

Example parse_bad_day : strptime "2025-02-29 00:00:00" = None.
Proof. vm_compute. reflexivity. Qed.

Example parse_trailing : strptime "2025-02-28 00:00:00,123" = None.
Proof. vm_compute. reflexivity. Qed.

Example parse_words : strptime "yesterday" = None.
Proof. vm_compute. reflexivity. Qed.

Example hour_key :
  option_map strftime_hour (strptime "2025-09-12 16:42:10") = Some "16:00".
Proof. vm_compute. reflexivity. Qed.

(** Fields without their zero, a day after a space, any run of white
    space between the date and the time. *)
Example parse_unpadded :
  option_map strftime (strptime "2025-9-12 16:00:00")
  = Some "2025-09-12 16:00:00"
  /\ option_map strftime (strptime "2025-01-1 7:5:3")
     = Some "2025-01-01 07:05:03"
  /\ option_map strftime (strptime "2025-09- 2 16:00:00")
     = Some "2025-09-02 16:00:00"
  /\ option_map strftime
       (strptime (String.append "2025-09-12 "
                    (String "009" (String "160" "16:0:0"))))
     = Some "2025-09-12 16:00:00".
Proof. vm_compute. repeat split. Qed.

(** What the expression does not match, what the first match leaves
    over, and numbers that are no date. *)
Example parse_refused :
  strptime " 2025-09-12 16:00:00" = None
  /\ strptime "2025-09-12 16:00:00 " = None
  /\ strptime "2025-1-012 00:00:00" = None
  /\ strptime "2025-09-12 24:00:00" = None
  /\ strptime "2025-09-12 16:00:60" = None
  /\ strptime "2025-09-12 16:00:075" = None
  /\ strptime "0000-09-12 00:00:00" = None
  /\ strptime "2025-13-12 00:00:00" = None
  /\ strptime "25-09-12 00:00:00" = None.
Proof. vm_compute. repeat split. Qed.
End DatetimeTests.

Module ParseTests.
Definition line1 : string :=
  "2025-09-12 16:00:01,123 INFO handler=59, queue=3 Flushing table=t1,x
".
Example events_of_line1 :
  line_events None line1
  = [handler_usage 59; flush_start; queue_size 3; table_access "t1"].
Proof. vm_compute. reflexivity. Qed.

Example focus_of_line1 :
  line_events (Some ["queue"; "wal"]) line1 = [queue_size 3].
Proof. vm_compute. reflexivity. Qed.

Example classify_both :
  _classify_error "WARN call timed out: Connection reset" = E_timeout.
Proof. vm_compute. reflexivity. Qed.

(** [int] converts 4300 digits and raises on 4301. *)
Example int_limit :
  PyStr.int Scenario.long_numeral = None
  /\ PyStr.int (String.append "00" "59") = Some 59%Z
  /\ is_some (PyStr.int (string_of_list_ascii (repeat "9"%char 4300))) = true.
Proof. repeat split; vm_compute; reflexivity. Qed.

(** A line whose [queue=] numeral is too long: the handler event made
    before the failure stays, the error record that would follow is
    not made, and the rest of the file is not read; the next file is.
    With a focus that leaves [queue] out, nothing raises. *)
Example parse_stops_at_the_long_numeral :
  let files := ["hbase_log/rs-ip-10-0-0-1.log";
                "hbase_log/rs-ip-10-0-0-2.log"] in
  let tw := window Scenario.noon Scenario.one_pm in
  parse_raises None Scenario.line_long = true
  /\ (exists ld tr,
        _parse_log_files Scenario.world_long files tw None [] = (inr ld, tr)
        /\ total_entries ld = 3
        /\ map (fun e => (e_kind e, e_node e)) (events ld)
           = [(handler_usage 59, "ip-10-0-0-1"); (flush_start, "ip-10-0-0-1");
              (queue_size 3, "ip-10-0-0-1"); (region_move, "ip-10-0-0-1");
              (handler_usage 58, "ip-10-0-0-1");
              (compaction_start, "ip-10-0-0-2");
              (table_create, "ip-10-0-0-2")]
        /\ errors ld = [])
  /\ (exists ld tr,
        _parse_log_files Scenario.world_long files tw
          (Some ["handler"; "errors"]) [] = (inr ld, tr)
        /\ total_entries ld = 4
        /\ map e_kind (events ld) = [handler_usage 59; handler_usage 58]
        /\ map err_type (errors ld) = [E_warning]).
Proof.
  intros files tw. split; [vm_compute; reflexivity|].
  split; eexists _, _; repeat split; vm_compute; reflexivity.
Qed.
End ParseTests.

Module SpecScenarioTests.
Import SpecScenario.

(** Scenario A: exactly one [handler_saturation] anomaly, critical, with
    [max_value = 61]; the file is opened after the directory walk and
    the reading of the clock. *)
Example scenario_A :
  exists r avg,
    log_call world_A
    = (inr r, [Exists "hbase_log"; Walk "hbase_log"; Clock; Open log_path])
    /\ r_anomalies r
       = [LogHandlerSaturation "ip-10-0-0-1" critical 61 avg]
    /\ (avg == 60)%Q
    /\ files_processed r = 1 /\ r_total_entries r = 2.
Proof.
  eexists _, _. split; [vm_compute; reflexivity|].
  split; [reflexivity|]. repeat split; reflexivity.
Qed.

(** Scenario B: a [high_error_rate] anomaly with rate 10. *)
Example scenario_B :
  exists r rate,
    fst (log_call world_B) = inr r
    /\ r_total_entries r = 100
    /\ r_anomalies r = [LogHighErrorRate high 10 rate]
    /\ (rate == 10)%Q
    /\ option_map top_types (detail (r_error_summary r))
       = Some [("error", 10)].
Proof.
  eexists _, _. split; [vm_compute; reflexivity|].
  repeat split; reflexivity.
Qed.

(** Scenario C: twelve rising points, the trend is [increasing]. *)
Example scenario_C :
  exists r,
    metrics_call MetricsScenario.metrics_world
    = (inr r, [Exists "hbase_metrics"; Exists "hbase_metrics/download.json";
               Load "hbase_metrics/download.json"])
    /\ option_map overall_trend (trends r) = Some increasing
    /\ ODict.keys (node_analysis (metrics_summary r)) = ["ip-10-0-0-2"]
    /\ m_anomalies r = [].
Proof.
  eexists. split; [vm_compute; reflexivity|].
  repeat split; reflexivity.
Qed.

(** Scenario D: a missing directory gives an empty result and no
    exception. *)
Example scenario_D :
  exists r m,
    fst (log_call world_D) = inr r
    /\ files_processed r = 0 /\ r_total_entries r = 0
    /\ r_anomalies r = [] /\ r_performance_issues r = []
    /\ fst (metrics_call world_D) = inr m
    /\ m_anomalies m = [] /\ node_analysis (metrics_summary m) = []
    /\ trends m = None.
Proof.
  eexists _, _. split; [vm_compute; reflexivity|].
  repeat split; reflexivity.
Qed.

End SpecScenarioTests.

Module Binary64Tests.
Import Binary64.

(** At exactly 5% the rate is not above 5; just above, it is. *)
Example rate_at_threshold :
  error_rate_exceeds 1 20 = false /\ error_rate_exceeds 5 100 = false
  /\ error_rate_exceeds 50 1000 = false /\ error_rate_exceeds 51 1000 = true
  /\ error_rate_exceeds 10 100 = true.
Proof. repeat split; vm_compute; reflexivity. Qed.

(** At exactly 30% of the nodes the count does not exceed the limit. *)
Example high_usage_at_threshold :
  high_usage_exceeds 3 10 = false /\ high_usage_exceeds 4 10 = true
  /\ high_usage_exceeds 6 20 = false /\ high_usage_exceeds 1 3 = true.
Proof. repeat split; vm_compute; reflexivity. Qed.

(** Integer division and [float] of a fraction round to the nearest
    float, to the even one at a tie, down to the smallest floats. *)
Example division_rounds_to_nearest :
  true_div 1 10 = 0x1.999999999999ap-4%float
  /\ true_div 234 10 = 0x1.7666666666666p+4%float
  /\ true_div (-1) 3 = (-0x1.5555555555555p-2)%float
  /\ true_div (2 ^ 53 + 1) 1 = 0x1p+53%float
  /\ true_div (2 ^ 53 + 3) 1 = 0x1.0000000000002p+53%float
  /\ true_div 3 (2 ^ 1076) = 0x0.0000000000001p-1022%float
  /\ true_div 1 (2 ^ 1075) = 0%float.
Proof. repeat split; vm_compute; reflexivity. Qed.

(** [statistics.stdev([0.1, 15.1, 30.1])] is exactly 15.0, and
    [statistics.stdev([1, 2, 4])] is 1.5275252316519468. *)
Example stdev_rounds_once :
  stdev (map exact [0x1.999999999999ap-4; 0x1.e333333333333p+3;
                    0x1.e19999999999ap+4]%float) = 15%float
  /\ stdev [1; 2; 4]%Q = 0x1.870be4c1c28b2p+0%float
  /\ stdev [3; 3]%Q = 0%float.
Proof. repeat split; vm_compute; reflexivity. Qed.

(** The constant series of -10 rises by the first test; from 26 to a
    mean of 23.4 the series falls, as the product of 26 and 0.9 is
    23.400000000000002; from 7 to a mean of 7.7 it is stable, as the
    product of 7 and 1.1 is 7.700000000000001. *)
Example trend_at_the_thresholds :
  trend_direction (-10) (-10) = increasing
  /\ trend_direction 10 10 = stable
  /\ mean [23; 23; 23; 24; 24]%Q = 0x1.7666666666666p+4%float
  /\ (26 * FALL)%float = 0x1.7666666666667p+4%float
  /\ option_map overall_trend (_analyze_performance_trends Scenario_falling)
     = Some decreasing
  /\ trend_direction 7 (of_Q (77 # 10)) = stable
  /\ magnitude 7 (of_Q (77 # 10)) = 0x1.999999999999bp-4%float.
Proof. repeat split; vm_compute; reflexivity. Qed.

(** The floats 0.1, 15.1 and 30.1 have a sample variance above 225 and
    a standard deviation of 15.0: the node is not reported as
    volatile.  With 30.2 for 30.1 it is. *)
Example volatility_at_the_threshold :
  let vs := map exact [0x1.999999999999ap-4; 0x1.e333333333333p+3;
                       0x1.e19999999999ap+4]%float in
  let d := NodeData [0; 1; 2]%Z vs 3 in
  (225 < std_squared (stats_of d))%Q
  /\ ns_std (stats_of d) = 15%float
  /\ node_anomalies ("n", stats_of d) = []
  /\ map ma_type
       (node_anomalies
          ("n", stats_of (NodeData [0; 1; 2]%Z
                            (map exact [0x1.999999999999ap-4;
                                        0x1.e333333333333p+3;
                                        0x1.e333333333333p+4]%float) 3)))
     = ["handler_volatility"].
Proof. repeat split; vm_compute; reflexivity. Qed.

(** A number with a finite binary expansion of at most 53 bits is
    ordinary; a tenth is not a float. *)
Example ordinary_numbers :
  ordinaryb 59 = true /\ ordinaryb (47 # 2) = true
  /\ ordinaryb (exact 0x1.999999999999ap-4) = true
  /\ ordinaryb (1 # 10) = false
  /\ ordinaryb (inject_Z (2 ^ 52 + 1)) = false.
Proof. repeat split; vm_compute; reflexivity. Qed.

End Binary64Tests.

(* ================================================================== *)
(** * Error classification *)

Lemma first_match_spec chain line k :
  first_match chain line = k <->
  first_in_chain chain line k \/ (k = E_unknown /\ none_in_chain chain line).
Proof.
  unfold first_in_chain, none_in_chain.
  induction chain as [|[k0 test0] rest IH]; simpl.
  - split.
    + intros <-. right. split; [reflexivity | constructor].
    + intros [(before & test & after & Heq & _) | [-> _]]; [|reflexivity].
      destruct before; discriminate.
  - destruct (test0 line) eqn:Ht.
    + split.
      * intros <-. left. exists [], test0, rest. repeat split; auto.
      * intros [(before & test & after & Heq & Hm & Hb) | [_ Hn]].
        -- destruct before as [|b before]; simpl in Heq.
           ++ now inversion Heq.
           ++ inversion Heq; subst. inversion Hb; subst. simpl in *.
              congruence.
        -- inversion Hn; subst. simpl in *. congruence.
    + rewrite IH. split.
      * intros [(before & test & after & Heq & Hm & Hb) | [-> Hn]].
        -- left. exists ((k0, test0) :: before), test, after.
           subst rest. repeat split; auto.
        -- right. split; auto.
      * intros [(before & test & after & Heq & Hm & Hb) | [-> Hn]].
        -- destruct before as [|b before]; simpl in Heq.
           ++ inversion Heq; subst. congruence.
           ++ inversion Heq; subst. inversion Hb; subst.
              left. exists before, test, after. auto.
        -- right. split; auto. now inversion Hn.
Qed.

Lemma classify_is_first_match line :
  _classify_error line = first_match priority_chain line.
Proof.
  unfold _classify_error, priority_chain, first_match.
  repeat match goal with
         | |- (if ?c then _ else _) = (if ?c then _ else _) =>
             destruct c; [reflexivity|]
         end.
  reflexivity.
Qed.

(** C8. [_classify_error] returns the first class of the priority chain
    timeout, memory, network, io, permission, configuration, data,
    resource, FATAL, ERROR, WARN, Exception whose test accepts the line,
    and [unknown] when none does; a line with both [timed out] and
    [Connection] is a timeout, not a network error. *)
Theorem classify_error_priority_chain :
  map fst priority_chain
  = [E_timeout; E_memory; E_network; E_io; E_permission; E_configuration;
     E_data; E_resource; E_fatal; E_error; E_warning; E_exception]
  /\ (forall line k,
        _classify_error line = k <->
        first_in_chain priority_chain line k
        \/ (k = E_unknown /\ none_in_chain priority_chain line))
  /\ (forall line,
        PyStr.contains "timed out" line = true ->
        PyStr.contains "Connection" line = true ->
        _classify_error line = E_timeout
        /\ _classify_error line <> E_network).
Proof.
  split; [reflexivity|]. split.
  - intros line k. rewrite classify_is_first_match. apply first_match_spec.
  - intros line Ht _. unfold _classify_error. rewrite Ht. simpl.
    split; [reflexivity | discriminate].
Qed.

Lemma classify_error_priority_chain_witness :
  let line := "WARN call timed out: Connection reset by peer" in
  PyStr.contains "timed out" line = true
  /\ PyStr.contains "Connection" line = true
  /\ _classify_error line = E_timeout.
Proof.
  intro line. split; [reflexivity|]. split; [reflexivity|].
  apply (proj2 (proj2 classify_error_priority_chain) line); reflexivity.
Defined.

(* ================================================================== *)
(** * Facts on dictionaries *)

Module ODictFacts.
Import ODict.

Section Facts.
Context {V : Type}.
Implicit Types (d : t V) (k : string) (v : V).

Lemma get_set_same k v d : get k (set k v d) = Some v.
Proof.
  induction d as [|[k' v'] d IH]; simpl.
  - now rewrite String.eqb_refl.
  - destruct (String.eqb k k') eqn:E; simpl; rewrite ?E, ?String.eqb_refl;
      auto.
Qed.

Lemma get_set_other k k' v d : k <> k' -> get k' (set k v d) = get k' d.
Proof.
  intros Hne. induction d as [|[k0 v0] d IH]; simpl.
  - destruct (String.eqb k' k) eqn:E; auto.
    apply String.eqb_eq in E. congruence.
  - destruct (String.eqb k k0) eqn:E; simpl.
    + apply String.eqb_eq in E. subst k0.
      destruct (String.eqb k' k) eqn:E'; auto.
      apply String.eqb_eq in E'. congruence.
    + now rewrite IH.
Qed.

Lemma get_none_not_in k d : get k d = None -> ~ In k (keys d).
Proof.
  induction d as [|[k' v'] d IH]; simpl; auto.
  destruct (String.eqb k k') eqn:E; [discriminate|].
  intros H [->|Hin]; [|now apply IH].
  now rewrite String.eqb_refl in E.
Qed.

Lemma get_some_in k v d : get k d = Some v -> In (k, v) d.
Proof.
  induction d as [|[k' v'] d IH]; simpl; [discriminate|].
  destruct (String.eqb k k') eqn:E.
  - apply String.eqb_eq in E. intros [= ->]. left. now subst.
  - auto.
Qed.

Lemma in_get k v d : wf d -> In (k, v) d -> get k d = Some v.
Proof.
  unfold wf. induction d as [|[k' v'] d IH]; simpl; [tauto|].
  intros Hnd [Heq|Hin]; inversion Hnd; subst.
  - inversion Heq; subst. now rewrite String.eqb_refl.
  - destruct (String.eqb k k') eqn:E; [|auto].
    apply String.eqb_eq in E. subst k'.
    exfalso. apply H1. change k with (fst (k, v)). now apply in_map.
Qed.

Lemma keys_set k v d :
  keys (set k v d) = if mem k d then keys d else keys d ++ [k].
Proof.
  unfold mem. induction d as [|[k' v'] d IH]; simpl; auto.
  destruct (String.eqb k k') eqn:E; simpl.
  - apply String.eqb_eq in E. now subst.
  - rewrite IH. now destruct (get k d).
Qed.

Lemma wf_set k v d : wf d -> wf (set k v d).
Proof.
  unfold wf. rewrite keys_set. unfold mem.
  destruct (get k d) eqn:E; auto.
  intros Hnd. apply NoDup_app; auto.
  - constructor; [intros []|constructor].
  - intros x Hx [<-|[]]. now apply (get_none_not_in _ _ E).
Qed.

Lemma wf_nil : wf (@nil (string * V)).
Proof. constructor. Qed.

End Facts.
End ODictFacts.

(* ================================================================== *)
(** * Handler saturation in the logs *)

Section HandlerGroups.
Import ODict ODictFacts.

Lemma add_handler_get node stats e :
  get node (add_handler stats e)
  = match (if String.eqb (e_node e) node then handler_value e else None) with
    | Some v =>
        Some (match get node stats with Some vs => vs | None => [] end ++ [v])
    | None => get node stats
    end.
Proof.
  unfold add_handler. destruct (handler_value e) as [v|] eqn:Hv.
  2: now destruct (String.eqb (e_node e) node).
  unfold mem. cbv zeta.
  destruct (String.eqb (e_node e) node) eqn:E.
  - apply String.eqb_eq in E. subst node.
    destruct (get (e_node e) stats) as [vs|] eqn:G.
    + rewrite G. apply get_set_same.
    + rewrite get_set_same. apply get_set_same.
  - assert (Hne : e_node e <> node)
      by (intros Heq; rewrite Heq, String.eqb_refl in E; discriminate).
    destruct (get (e_node e) stats) as [vs|] eqn:G.
    + rewrite G. now apply get_set_other.
    + rewrite get_set_same. now rewrite !get_set_other.
Qed.

Lemma add_handler_wf stats e : wf stats -> wf (add_handler stats e).
Proof.
  intros Hwf. unfold add_handler.
  destruct (handler_value e); auto. unfold mem. cbv zeta.
  destruct (get (e_node e) stats) eqn:G.
  - rewrite G. now apply wf_set.
  - rewrite get_set_same. now apply wf_set, wf_set.
Qed.

Lemma fold_add_handler_get node l : forall stats,
  get node (fold_left add_handler l stats)
  = match get node stats, node_handler_values l node with
    | None, [] => None
    | None, vs => Some vs
    | Some a, vs => Some (a ++ vs)
    end.
Proof.
  induction l as [|e l IH]; intros stats; simpl.
  - destruct (get node stats); now rewrite ?app_nil_r.
  - rewrite IH, add_handler_get.
    destruct (String.eqb (e_node e) node); simpl.
    + destruct (handler_value e) as [v|]; simpl.
      * destruct (get node stats); simpl; now rewrite <- ?app_assoc.
      * reflexivity.
    + reflexivity.
Qed.

Lemma fold_add_handler_wf l : forall stats,
  wf stats -> wf (fold_left add_handler l stats).
Proof.
  induction l; simpl; auto using add_handler_wf.
Qed.

Lemma node_handler_values_filter evs node :
  node_handler_values (filter (fun e => is_some (handler_value e)) evs) node
  = node_handler_values evs node.
Proof.
  induction evs as [|e evs IH]; simpl; auto.
  destruct (handler_value e) eqn:Hv; simpl.
  - now rewrite Hv, IH.
  - rewrite IH. now destruct (String.eqb (e_node e) node).
Qed.

Lemma group_handlers_get evs node :
  get node (group_handlers evs)
  = match node_handler_values evs node with
    | [] => None
    | vs => Some vs
    end.
Proof.
  unfold group_handlers.
  now rewrite fold_add_handler_get, node_handler_values_filter.
Qed.

Lemma group_handlers_wf evs : wf (group_handlers evs).
Proof. apply fold_add_handler_wf, wf_nil. Qed.

(** The entries of [handler_stats] are the nodes with a handler event,
    each with its values. *)
Lemma group_handlers_entries evs node vs :
  In (node, vs) (group_handlers evs)
  <-> vs <> [] /\ node_handler_values evs node = vs.
Proof.
  split.
  - intros Hin. apply in_get in Hin; [|apply group_handlers_wf].
    rewrite group_handlers_get in Hin.
    destruct (node_handler_values evs node); [discriminate|].
    inversion Hin; subst. split; [discriminate | reflexivity].
  - intros [Hne <-]. apply get_some_in. rewrite group_handlers_get.
    now destruct (node_handler_values evs node).
Qed.

End HandlerGroups.







(* ================================================================== *)
(** * Error rate in the logs *)







(* ================================================================== *)
(** * The window filter *)

Lemma in_window_iff tw t :
  in_window tw t = true <-> within (tw_start tw) (tw_end tw) t.
Proof.
  unfold in_window, within.
  rewrite andb_true_iff, !Z.leb_le. tauto.
Qed.

Lemma retained_iff tw line :
  retained tw line = true
  <-> exists t, line_time line = Some t
                /\ within (tw_start tw) (tw_end tw) t.
Proof.
  unfold retained. destruct (line_time line) as [t|].
  - rewrite in_window_iff. split; [eauto|]. now intros (t' & [= <-] & H).
  - split; [discriminate | now intros (t & [=] & _)].
Qed.

Lemma line_raises_eq tw focus line :
  line_raises tw focus line = retained tw line && parse_raises focus line.
Proof.
  unfold line_raises, retained. now destruct (line_time line).
Qed.

(** The loop over the lines is the body applied to the lines reached. *)
Lemma parse_lines_reached tw focus node lines : forall ld,
  parse_lines tw focus node lines ld
  = fold_left (parse_line tw focus node) (reached tw focus lines) ld.
Proof.
  induction lines as [|line rest IH]; intros ld; simpl; auto.
  rewrite line_raises_eq.
  destruct (retained tw line && parse_raises focus line); simpl; auto.
Qed.

Lemma reached_all tw focus lines :
  (forall line, In line lines -> retained tw line = true ->
                converts focus line) ->
  reached tw focus lines = lines.
Proof.
  unfold converts. induction lines as [|line rest IH]; intros H; simpl; auto.
  f_equal. destruct (retained tw line) eqn:E; simpl.
  - rewrite (H line (or_introl eq_refl) E). apply IH.
    intros l Hl. apply H. now right.
  - apply IH. intros l Hl. apply H. now right.
Qed.

Lemma reached_prefix tw focus lines :
  exists rest, lines = reached tw focus lines ++ rest.
Proof.
  induction lines as [|line l [rest IH]]; simpl.
  - now exists [].
  - destruct (_ && _).
    + now exists l.
    + exists rest. simpl. now f_equal.
Qed.

Lemma reached_spec tw focus lines :
  exists rest,
    lines = reached tw focus lines ++ rest
    /\ Forall (fun line => retained tw line && parse_raises focus line
                           = false)
              (removelast (reached tw focus lines))
    /\ (rest <> [] ->
        exists init line,
          reached tw focus lines = init ++ [line]
          /\ retained tw line = true /\ parse_raises focus line = true).
Proof.
  induction lines as [|line l (rest & IH1 & IH2 & IH3)].
  - exists []. simpl. repeat split; auto. now intros [].
  - cbn [reached].
    destruct (retained tw line && parse_raises focus line) eqn:E.
    + exists l. split; [reflexivity|]. split; [constructor|].
      intros _. exists [], line. apply andb_prop in E. now destruct E.
    + exists rest. split; [simpl; now f_equal|]. split.
      * destruct (reached tw focus l) as [|x r] eqn:Er; [constructor|].
        change (removelast (line :: x :: r))
          with (line :: removelast (x :: r)).
        now constructor.
      * intros Hr. destruct (IH3 Hr) as (init & last_line & -> & H).
        now exists (line :: init), last_line.
Qed.

Lemma reached_lines_all w tw focus files :
  (forall f line, In f files -> In line (fst (read_lines w f)) ->
                  retained tw line = true -> converts focus line) ->
  reached_lines w tw focus files
  = flat_map (fun f => fst (read_lines w f)) files.
Proof.
  unfold reached_lines. intros H. induction files as [|f files IH]; simpl; auto.
  f_equal.
  - unfold reached_in. apply reached_all. intros line. apply H. now left.
  - apply IH. intros g line Hg. apply H. now right.
Qed.

Lemma reached_in_read w tw focus f line :
  In line (reached_in w tw focus f) -> In line (fst (read_lines w f)).
Proof.
  unfold reached_in. intros H.
  destruct (reached_prefix tw focus (fst (read_lines w f))) as [rest E].
  rewrite E. apply in_or_app. now left.
Qed.

Lemma parse_line_closed tw focus node ld line :
  events (parse_line tw focus node ld line)
  = events ld ++ events_of_line tw focus node line
  /\ errors (parse_line tw focus node ld line)
     = errors ld ++ errors_of_line tw focus node line
  /\ total_entries (parse_line tw focus node ld line)
     = total_entries ld + (if retained tw line then 1 else 0)
  /\ nodes (parse_line tw focus node ld line) = nodes ld.
Proof.
  unfold parse_line, events_of_line, errors_of_line, retained.
  destruct (line_time line) as [t|];
    [|now rewrite !app_nil_r, Nat.add_0_r].
  destruct (in_window tw t); simpl;
    [auto | now rewrite !app_nil_r, Nat.add_0_r].
Qed.

Lemma parse_lines_closed tw focus node lines : forall ld,
  let ld' := fold_left (parse_line tw focus node) lines ld in
  events ld' = events ld ++ flat_map (events_of_line tw focus node) lines
  /\ errors ld' = errors ld ++ flat_map (errors_of_line tw focus node) lines
  /\ total_entries ld'
     = total_entries ld + List.length (filter (retained tw) lines)
  /\ nodes ld' = nodes ld.
Proof.
  induction lines as [|l lines IH]; intros ld; simpl.
  - now rewrite !app_nil_r, Nat.add_0_r.
  - destruct (IH (parse_line tw focus node ld l)) as (He & Hr & Ht & Hn).
    destruct (parse_line_closed tw focus node ld l) as (He' & Hr' & Ht' & Hn').
    rewrite He, Hr, Ht, Hn, He', Hr', Ht', Hn', <- !app_assoc.
    repeat split; auto. destruct (retained tw l); simpl; lia.
Qed.

Lemma parse_file_lines_closed w tw focus ld f :
  let ld' := parse_file_lines w tw focus ld f in
  events ld'
  = events ld ++ flat_map (events_of_line tw focus (_extract_node_name f))
                          (reached_in w tw focus f)
  /\ errors ld'
     = errors ld ++ flat_map (errors_of_line tw focus (_extract_node_name f))
                             (reached_in w tw focus f)
  /\ total_entries ld'
     = total_entries ld
       + List.length (filter (retained tw) (reached_in w tw focus f))
  /\ nodes ld' = set_add (_extract_node_name f) (nodes ld).
Proof.
  unfold parse_file_lines. rewrite parse_lines_reached.
  apply (parse_lines_closed tw focus (_extract_node_name f)
           (reached_in w tw focus f) (add_node (_extract_node_name f) ld)).
Qed.

Lemma parse_all_closed w tw focus files : forall ld,
  let ld' := fold_left (parse_file_lines w tw focus) files ld in
  events ld' = events ld ++ per_file w tw focus (events_of_line tw focus) files
  /\ errors ld'
     = errors ld ++ per_file w tw focus (errors_of_line tw focus) files
  /\ total_entries ld'
     = total_entries ld
       + List.length (filter (retained tw) (reached_lines w tw focus files)).
Proof.
  unfold per_file, reached_lines.
  induction files as [|f files IH]; intros ld; simpl.
  - now rewrite !app_nil_r, Nat.add_0_r.
  - destruct (IH (parse_file_lines w tw focus ld f)) as (He & Hr & Ht).
    destruct (parse_file_lines_closed w tw focus ld f) as (He' & Hr' & Ht' & _).
    rewrite He, Hr, Ht, He', Hr', Ht', <- !app_assoc, filter_app, length_app.
    repeat split; auto. lia.
Qed.

(** The loop over the files in closed form: it never raises, and opens
    the files in the order given. *)
Lemma parse_files_run w tw focus files : forall ld tr,
  parse_files w tw focus files ld tr
  = (inr (fold_left (parse_file_lines w tw focus) files ld),
     tr ++ map Open files).
Proof.
  induction files as [|f files IH]; intros ld tr; simpl.
  - unfold ret. now rewrite app_nil_r.
  - unfold bind, parse_file, emit, ret. simpl.
    rewrite IH. now rewrite <- app_assoc.
Qed.

Lemma parse_log_files_run w files tw focus tr :
  _parse_log_files w files tw focus tr
  = (inr (let ld := fold_left (parse_file_lines w tw focus) files
                      (LogData 0 [] [] []) in
          {| total_entries := total_entries ld; events := events ld;
             errors := errors ld; nodes := list_of_set w (nodes ld) |}),
     tr ++ map Open files).
Proof.
  unfold _parse_log_files, bind. now rewrite parse_files_run.
Qed.

(** The result of [_parse_log_files] in closed form. *)
Lemma parse_log_files_closed
  (w : World) (files : list string) (tw : time_window)
  (focus_areas : option (list string)) (tr : trace) :
  exists ld,
    _parse_log_files w files tw focus_areas tr
    = (inr ld, tr ++ map Open files)
    /\ events ld
       = per_file w tw focus_areas (events_of_line tw focus_areas) files
    /\ errors ld
       = per_file w tw focus_areas (errors_of_line tw focus_areas) files
    /\ total_entries ld
       = List.length (filter (retained tw)
                             (reached_lines w tw focus_areas files)).
Proof.
  eexists. split; [apply parse_log_files_run|].
  destruct (parse_all_closed w tw focus_areas files (LogData 0 [] [] []))
    as (He & Hr & Ht).
  cbn [events errors total_entries]. auto.
Qed.

(** An event of the closed form comes from a retained line that the
    parser reaches. *)
Lemma in_per_file_events w tw focus files e :
  In e (per_file w tw focus (events_of_line tw focus) files)
  <-> exists f line k,
        In f files /\ In line (reached_in w tw focus f)
        /\ line_time line = Some (e_timestamp e)
        /\ within (tw_start tw) (tw_end tw) (e_timestamp e)
        /\ In k (new_events (parse_effect_of focus line))
        /\ e = Event k (e_timestamp e) (_extract_node_name f)
                 (PyStr.strip line).
Proof.
  unfold per_file. rewrite in_flat_map. split.
  - intros (f & Hf & Hl). apply in_flat_map in Hl.
    destruct Hl as (line & Hline & Hl). unfold events_of_line in Hl.
    destruct (line_time line) as [t|] eqn:Et; [|destruct Hl].
    destruct (in_window tw t) eqn:Ew; [|destruct Hl].
    apply in_map_iff in Hl. destruct Hl as (k & <- & Hk).
    exists f, line, k. simpl. apply in_window_iff in Ew. auto 10.
  - intros (f & line & k & Hf & Hline & Et & Hw & Hk & He).
    exists f. split; auto. apply in_flat_map. exists line. split; auto.
    unfold events_of_line. rewrite Et.
    apply in_window_iff in Hw. rewrite Hw. rewrite He.
    apply in_map_iff. now exists k.
Qed.

Lemma in_per_file_errors w tw focus files e :
  In e (per_file w tw focus (errors_of_line tw focus) files)
  <-> exists f line k,
        In f files /\ In line (reached_in w tw focus f)
        /\ line_time line = Some (err_timestamp e)
        /\ within (tw_start tw) (tw_end tw) (err_timestamp e)
        /\ In k (new_errors (parse_effect_of focus line))
        /\ e = ErrorRecord (err_timestamp e) (_extract_node_name f) k
                 (PyStr.strip line).
Proof.
  unfold per_file. rewrite in_flat_map. split.
  - intros (f & Hf & Hl). apply in_flat_map in Hl.
    destruct Hl as (line & Hline & Hl). unfold errors_of_line in Hl.
    destruct (line_time line) as [t|] eqn:Et; [|destruct Hl].
    destruct (in_window tw t) eqn:Ew; [|destruct Hl].
    apply in_map_iff in Hl. destruct Hl as (k & <- & Hk).
    exists f, line, k. simpl. apply in_window_iff in Ew. auto 10.
  - intros (f & line & k & Hf & Hline & Et & Hw & Hk & He).
    exists f. split; auto. apply in_flat_map. exists line. split; auto.
    unfold errors_of_line. rewrite Et.
    apply in_window_iff in Hw. rewrite Hw. rewrite He.
    apply in_map_iff. now exists k.
Qed.

Lemma per_file_retained w tw focus files :
  Forall (fun e => within (tw_start tw) (tw_end tw) (e_timestamp e))
         (per_file w tw focus (events_of_line tw focus) files)
  /\ Forall (fun e => within (tw_start tw) (tw_end tw) (err_timestamp e))
            (per_file w tw focus (errors_of_line tw focus) files).
Proof.
  split; apply Forall_forall; intros e He.
  - apply in_per_file_events in He. now destruct He as (? & ? & ? & ? & ? & ? & ? & _).
  - apply in_per_file_errors in He. now destruct He as (? & ? & ? & ? & ? & ? & ? & _).
Qed.

Lemma combine_snoc {A B : Type} (l : list A) (l' : list B) a b :
  List.length l = List.length l' ->
  combine (l ++ [a]) (l' ++ [b]) = combine l l' ++ [(a, b)].
Proof.
  revert l'. induction l as [|x l IH]; intros [|y l'] H; simpl in *;
    try discriminate; auto.
  f_equal. apply IH. lia.
Qed.

Lemma filter_points_spec w start_time end_time ts :
  forall vs kept_t kept_v out_t out_v,
    filter_points w ts vs start_time end_time kept_t kept_v
    = Some (out_t, out_v) ->
    List.length kept_t = List.length kept_v ->
    List.length out_t = List.length out_v
    /\ combine out_t out_v
       = combine kept_t kept_v ++ points_within w ts vs start_time end_time.
Proof.
  unfold points_within.
  induction ts as [|t ts IH]; intros [|v vs] kt kv ot ov H Hlen; simpl in *;
    try (inversion H; subst; split; [auto | now rewrite app_nil_r]).
  destruct (fromtimestamp w (t / 1000)) as [dt|]; [|discriminate].
  destruct ((start_time <=? dt)%Z && (dt <=? end_time)%Z).
  - apply IH in H; [|rewrite !length_app; simpl; lia].
    destruct H as [H1 H2]. split; auto.
    rewrite H2, combine_snoc by assumption. now rewrite <- app_assoc.
  - now apply IH in H.
Qed.

Lemma points_within_bounds w ts vs start_time end_time p :
  In p (points_within w ts vs start_time end_time) ->
  within start_time end_time (fst p).
Proof.
  unfold points_within. intros H. apply in_flat_map in H.
  destruct H as ([ms v] & _ & H). simpl in H.
  destruct (fromtimestamp w (ms / 1000)) as [t|]; [|destruct H].
  destruct ((start_time <=? t)%Z && (t <=? end_time)%Z) eqn:E; [|destruct H].
  destruct H as [<-|[]]. simpl.
  apply andb_true_iff in E. unfold within. rewrite !Z.leb_le in E. lia.
Qed.

Lemma points_within_iff w ts vs start_time end_time t v :
  In (t, v) (points_within w ts vs start_time end_time)
  <-> exists ms, In (ms, v) (combine ts vs)
                 /\ fromtimestamp w (ms / 1000)%Q = Some t
                 /\ within start_time end_time t.
Proof.
  unfold points_within, within. rewrite in_flat_map. split.
  - intros ([ms v'] & Hin & H). simpl in H.
    destruct (fromtimestamp w (ms / 1000)) as [t'|] eqn:F; [|destruct H].
    destruct ((start_time <=? t')%Z && (t' <=? end_time)%Z) eqn:E;
      [|destruct H].
    destruct H as [H|[]]. inversion H; subst.
    apply andb_true_iff in E. rewrite !Z.leb_le in E.
    exists ms. repeat split; auto; lia.
  - intros (ms & Hin & F & Hs & He). exists (ms, v). split; auto.
    simpl. rewrite F.
    assert (E : (start_time <=? t)%Z && (t <=? end_time)%Z = true)
      by (apply andb_true_iff; rewrite !Z.leb_le; lia).
    rewrite E. now left.
Qed.

Lemma in_combine_fst {A B : Type} (l : list A) (l' : list B) x :
  List.length l = List.length l' ->
  In x l -> exists y, In (x, y) (combine l l').
Proof.
  revert l'. induction l as [|a l IH]; intros [|b l'] Hlen Hin; simpl in *;
    try tauto; try discriminate.
  destruct Hin as [->|Hin].
  - exists b. now left.
  - destruct (IH l' ltac:(lia) Hin) as [y Hy]. exists y. now right.
Qed.

(** The input of the claim C2 on which a line whose timestamp is the
    end of the window is not retained: it follows, in its file, a line
    of the window with a numeral of 4301 digits, on which [int] raises;
    the parser leaves the file there.  Of the three lines of the file,
    all in the window, two are counted, and no event of the third is
    returned. *)
Lemma window_filter_retention_counterexample :
  let tw := window Scenario.noon Scenario.one_pm in
  let file := "hbase_log/rs-ip-10-0-0-1.log" in
  fst (read_lines Scenario.world_long file)
  = [Scenario.line_a; Scenario.line_long; Scenario.line_b]
  /\ line_time Scenario.line_b = Some (tw_end tw)
  /\ List.length (filter (retained tw)
                         (fst (read_lines Scenario.world_long file))) = 3
  /\ line_events None Scenario.line_b = [compaction_start; table_create]
  /\ exists ld tr,
       _parse_log_files Scenario.world_long [file] tw None [] = (inr ld, tr)
       /\ total_entries ld = 2
       /\ Forall (fun e => e_timestamp e <> tw_end tw) (events ld).
Proof.
  intros tw file. repeat split; try (vm_compute; reflexivity).
  eexists _, _. split; [vm_compute; reflexivity|].
  split; [reflexivity|].
  repeat constructor; vm_compute; discriminate.
Qed.

(** C2, amended. What the window filter retains lies in the window,
    both bounds included.  The log parser opens every file and returns
    events and error records inside the window only; it counts exactly
    the lines it reaches whose timestamp [t] satisfies
    [start <= t <= end], a line at [start] or at [end] among them, and
    the events and error records that the parse of such a line makes
    are in what it returns; a line with a timestamp outside the window
    contributes nothing.  The lines it reaches in a file are those
    read, up to the first line of the window whose parse raises: all of
    them when no such parse raises.  The metric filter keeps exactly
    the points whose time is inside the window. *)
Theorem window_filter_inclusive :
  (forall w files tw focus tr,
     exists ld,
       _parse_log_files w files tw focus tr = (inr ld, tr ++ map Open files)
       /\ retained_within tw ld
       /\ total_entries ld
          = List.length (filter (retained tw) (reached_lines w tw focus files))
       /\ (forall f line t,
             In f files -> In line (reached_in w tw focus f) ->
             line_time line = Some t ->
             within (tw_start tw) (tw_end tw) t ->
             (forall k, In k (new_events (parse_effect_of focus line)) ->
                In (Event k t (_extract_node_name f) (PyStr.strip line))
                   (events ld))
             /\ (forall k, In k (new_errors (parse_effect_of focus line)) ->
                   In (ErrorRecord t (_extract_node_name f) k
                         (PyStr.strip line))
                      (errors ld)))
       /\ (forall line t,
             line_time line = Some t ->
             (t < tw_start tw)%Z \/ (tw_end tw < t)%Z ->
             Forall (fun e => e_line e = PyStr.strip line ->
                              e_timestamp e <> t) (events ld)
             /\ Forall (fun e => err_line e = PyStr.strip line ->
                                 err_timestamp e <> t) (errors ld)))
  /\ (forall tw line,
        retained tw line = true
        <-> exists t, line_time line = Some t
                      /\ (tw_start tw <= t <= tw_end tw)%Z)
  /\ (forall w tw focus f,
        (forall line, In line (fst (read_lines w f)) ->
                      retained tw line = true -> converts focus line) ->
        reached_in w tw focus f = fst (read_lines w f))
  /\ (forall w ts vs start_time end_time d,
        _filter_metrics_by_time w ts vs start_time end_time = Some d ->
        Forall (within start_time end_time) (timestamps d)
        /\ combine (timestamps d) (values d)
           = points_within w ts vs start_time end_time
        /\ (forall t v,
              In (t, v) (combine (timestamps d) (values d))
              <-> exists ms, In (ms, v) (combine ts vs)
                             /\ fromtimestamp w (ms / 1000)%Q = Some t
                             /\ within start_time end_time t)).
Proof.
  split; [|split; [|split]].
  - intros w files tw focus tr.
    destruct (parse_log_files_closed w files tw focus tr)
      as (ld & Hrun & He & Hr & Ht).
    destruct (per_file_retained w tw focus files) as [Hwe Hwr].
    exists ld. split; [exact Hrun|].
    split; [split; [now rewrite He | now rewrite Hr]|].
    split; [exact Ht|]. split.
    + intros f line t Hf Hline Et Hw. split; intros k Hk.
      * rewrite He. apply in_per_file_events. exists f, line, k. simpl. auto 10.
      * rewrite Hr. apply in_per_file_errors. exists f, line, k. simpl. auto 10.
    + intros line t Et Hout. split; apply Forall_forall; intros e Hin _ Heq.
      * rewrite He in Hin. rewrite Forall_forall in Hwe.
        specialize (Hwe e Hin). rewrite Heq in Hwe. unfold within in Hwe. lia.
      * rewrite Hr in Hin. rewrite Forall_forall in Hwr.
        specialize (Hwr e Hin). rewrite Heq in Hwr. unfold within in Hwr. lia.
  - intros tw line. apply retained_iff.
  - intros w tw focus f H. unfold reached_in. now apply reached_all.
  - intros w ts vs s e d H. unfold _filter_metrics_by_time in H.
    destruct (filter_points w ts vs s e [] []) as [[ot ov]|] eqn:E;
      [|discriminate].
    inversion H; subst; clear H. simpl.
    apply filter_points_spec in E; [|reflexivity]. destruct E as [Hlen Hc].
    simpl in Hc. split; [|split; auto].
    + apply Forall_forall. intros t Hin.
      destruct (in_combine_fst ot ov t Hlen Hin) as [y Hy].
      rewrite Hc in Hy. now apply points_within_bounds in Hy.
    + intros t v. rewrite Hc. apply points_within_iff.
Qed.

Lemma window_filter_inclusive_witness :
  let tw := window Scenario.noon Scenario.one_pm in
  let files := ["hbase_log/rs-ip-10-0-0-1.log";
                "hbase_log/rs-ip-10-0-0-2.log"] in
  line_time Scenario.line_a = Some (tw_start tw)
  /\ line_time Scenario.line_b = Some (tw_end tw)
  /\ exists ld,
       _parse_log_files Scenario.world_12 files tw None []
       = (inr ld, map Open files)
       /\ total_entries ld = 2
       /\ In (Event (handler_usage 59) Scenario.noon "ip-10-0-0-1"
                (PyStr.strip Scenario.line_a)) (events ld)
       /\ In (Event table_create Scenario.one_pm "ip-10-0-0-2"
                (PyStr.strip Scenario.line_b)) (events ld).
Proof.
  intros tw files.
  assert (Ha : line_time Scenario.line_a = Some Scenario.noon)
    by (vm_compute; reflexivity).
  assert (Hb : line_time Scenario.line_b = Some Scenario.one_pm)
    by (vm_compute; reflexivity).
  split; [exact Ha|]. split; [exact Hb|].
  destruct window_filter_inclusive as (Hlog & _).
  destruct (Hlog Scenario.world_12 files tw None [])
    as (ld & Hrun & _ & Ht & Hin & _).
  exists ld. split; [exact Hrun|]. split; [rewrite Ht; vm_compute; reflexivity|].
  split.
  - apply (Hin "hbase_log/rs-ip-10-0-0-1.log" Scenario.line_a Scenario.noon).
    + now left.
    + vm_compute. now left.
    + exact Ha.
    + subst tw; unfold within; simpl;
        unfold Scenario.noon, Scenario.one_pm; lia.
    + vm_compute. now left.
  - apply (Hin "hbase_log/rs-ip-10-0-0-2.log" Scenario.line_b Scenario.one_pm).
    + right. now left.
    + vm_compute. now left.
    + exact Hb.
    + subst tw; unfold within; simpl;
        unfold Scenario.noon, Scenario.one_pm; lia.
    + vm_compute. auto.
Defined.

(* ================================================================== *)
(** * The time window resolver and the invalid-timestamp error *)

Lemma given_some s : s <> EmptyString -> given (Some s) = Some s.
Proof. destruct s; [congruence | reflexivity]. Qed.

(** The call of the claim C3 that walks the directory before it raises:
    [start_time] does not parse, and the record of effects at the error
    holds the existence test and the walk of [hbase_log]. *)
Lemma invalid_timestamp_before_io_counterexample :
  strptime "yesterday" = None
  /\ run (analyze_hbase_logs Scenario.world_12 "hbase_log"
            (Some "yesterday") None None None)
     = (inl ValueError, [Exists "hbase_log"; Walk "hbase_log"]).
Proof. split; vm_compute; reflexivity. Qed.

(** A bad [end_time] without a [start_time] is not looked at: the call
    returns, on the default window. *)
Example end_time_alone_is_ignored :
  exists r tr,
    run (analyze_hbase_logs Scenario.world_12 "hbase_log"
           None (Some "yesterday") None None) = (inr r, tr)
    /\ tw_end (analysis_window r) = Scenario.noon.
Proof. eexists _, _. split; vm_compute; reflexivity. Qed.

(** C3, amended. A call whose [start_time] is given and does not parse,
    or whose [start_time] parses and whose given [end_time] does not,
    raises the invalid-timestamp error after the log directory has been
    tested for existence and, if present, walked, and before any file is
    opened or the clock is read. *)
Theorem invalid_timestamp_raised_before_files_open
  (w : World) (log_dir s : string) (end_time : option string)
  (focus_areas target_nodes : option (list string)) :
  s <> EmptyString ->
  strptime s = None
  \/ (exists e, given end_time = Some e /\ strptime e = None) ->
  run (analyze_hbase_logs w log_dir (Some s) end_time focus_areas target_nodes)
  = (inl ValueError,
     Exists log_dir :: (if path_exists w log_dir then [Walk log_dir] else [])).
Proof.
  intros Hs Hbad.
  unfold run, analyze_hbase_logs, _discover_log_files, os_path_exists,
    _parse_time_window, bind, emit, ret.
  rewrite (given_some s Hs). simpl.
  assert (Hwin : forall tr,
    (match given end_time with
     | Some e =>
         bind (or_raise ValueError (strptime s))
           (fun start_dt =>
              bind (or_raise ValueError (strptime e))
                (fun end_dt => ret (window start_dt end_dt)))
     | None =>
         bind (or_raise ValueError (strptime s))
           (fun start_dt =>
              bind (or_raise OverflowError (add start_dt (hours 1)))
                (fun end_dt => ret (window start_dt end_dt)))
     end) tr = (inl ValueError, tr)).
  { intros tr. destruct Hbad as [Hbad | (e & He & Hbad)].
    - rewrite Hbad. now destruct (given end_time).
    - rewrite He, Hbad. unfold bind. now destruct (strptime s). }
  unfold bind, ret in Hwin.
  destruct (path_exists w log_dir); simpl; now rewrite Hwin.
Qed.

Lemma invalid_timestamp_raised_before_files_open_witness :
  run (analyze_hbase_logs Scenario.world_12 "hbase_log"
         (Some "2025-09-12 12:00:00") (Some "13 o'clock") None None)
  = (inl ValueError, [Exists "hbase_log"; Walk "hbase_log"]).
Proof.
  apply (invalid_timestamp_raised_before_files_open Scenario.world_12
           "hbase_log" "2025-09-12 12:00:00" (Some "13 o'clock") None None).
  - discriminate.
  - right. exists "13 o'clock". split; vm_compute; reflexivity.
Defined.

(** The call of the claim C4 whose window ends before it starts: both
    bounds are given and are used as they are. *)
Lemma window_start_le_end_counterexample :
  run (_parse_time_window Scenario.world_12
         (Some "2025-09-12 13:00:00") (Some "2025-09-12 12:00:00"))
  = (inr (window Scenario.one_pm Scenario.noon), [])
  /\ (tw_end (window Scenario.one_pm Scenario.noon)
      < tw_start (window Scenario.one_pm Scenario.noon))%Z.
Proof. split; vm_compute; reflexivity. Qed.

Lemma add_some t delta t' : add t delta = Some t' -> t' = (t + delta)%Z.
Proof.
  unfold add. destruct (in_range (t + delta)); [|discriminate].
  now intros [= <-].
Qed.

(** Inversion of successful runs. *)
Lemma bind_inr {A B : Type} (m : IO A) (f : A -> IO B) tr b tr' :
  bind m f tr = (inr b, tr') ->
  exists a tr1, m tr = (inr a, tr1) /\ f a tr1 = (inr b, tr').
Proof.
  unfold bind. destruct (m tr) as [[e|a] tr1]; [discriminate|].
  intros H. now exists a, tr1.
Qed.

Lemma ret_inr {A : Type} (a b : A) tr tr' :
  ret a tr = (inr b, tr') -> a = b /\ tr' = tr.
Proof. unfold ret. intros H. inversion H. auto. Qed.

Lemma or_raise_inr {A : Type} (e : exn) (o : option A) a tr tr' :
  or_raise e o tr = (inr a, tr') -> o = Some a /\ tr' = tr.
Proof.
  destruct o; simpl; unfold ret, raise; intros H; inversion H; auto.
Qed.

Lemma emit_inr ev u tr tr' :
  emit ev tr = (inr u, tr') -> tr' = tr ++ [ev].
Proof. unfold emit. intros H. now inversion H. Qed.

Ltac io_inv :=
  repeat match goal with
    | H : bind _ _ _ = (inr _, _) |- _ =>
        apply bind_inr in H; destruct H as (? & ? & ? & H)
    | H : ret _ _ = (inr _, _) |- _ =>
        apply ret_inr in H; destruct H as [? ?]
    | H : or_raise _ _ _ = (inr _, _) |- _ =>
        apply or_raise_inr in H; destruct H as [? ?]
    | H : emit _ _ = (inr _, _) |- _ => apply emit_inr in H
    | H : raise _ _ = (inr _, _) |- _ => discriminate H
    end.

(** C4, amended. When the resolver returns: with only [start_time]
    given the window is [start, start + 1 hour]; with no [start_time]
    it is [now - 1 hour, now]; in both cases [start <= end].  With both
    bounds given they are used as parsed, so that [start <= end] holds
    exactly when the given start is not after the given end. *)
Theorem time_window_start_le_end
  (w : World) (start_time end_time : option string) (tr tr' : trace)
  (tw : time_window) :
  _parse_time_window w start_time end_time tr = (inr tw, tr') ->
  match given start_time, given end_time with
  | Some s, Some e =>
      strptime s = Some (tw_start tw) /\ strptime e = Some (tw_end tw)
  | Some s, None =>
      strptime s = Some (tw_start tw)
      /\ tw_end tw = (tw_start tw + hours 1)%Z
      /\ (tw_start tw <= tw_end tw)%Z
  | None, _ =>
      tw_end tw = now w
      /\ tw_start tw = (tw_end tw - hours 1)%Z
      /\ (tw_start tw <= tw_end tw)%Z
  end.
Proof.
  unfold _parse_time_window. intros H.
  destruct (given start_time) as [s|]; [destruct (given end_time) as [e|]|];
    io_inv; subst; simpl.
  - auto.
  - match goal with E : add _ _ = Some _ |- _ => apply add_some in E end.
    subst. unfold hours, US_PER_HOUR, US_PER_SECOND. repeat split; auto; lia.
  - match goal with E : add _ _ = Some _ |- _ => apply add_some in E end.
    subst. unfold hours, US_PER_HOUR, US_PER_SECOND. repeat split; lia.
Qed.

Lemma time_window_start_le_end_witness :
  exists tw,
    run (_parse_time_window Scenario.world_12
           (Some "2025-09-12 12:00:00") None) = (inr tw, [])
    /\ tw_end tw = (tw_start tw + hours 1)%Z
    /\ (tw_start tw <= tw_end tw)%Z.
Proof.
  exists (window Scenario.noon Scenario.one_pm).
  assert (H : run (_parse_time_window Scenario.world_12
                     (Some "2025-09-12 12:00:00") None)
              = (inr (window Scenario.noon Scenario.one_pm), []))
    by (vm_compute; reflexivity).
  split; [exact H|].
  exact (proj2 (time_window_start_le_end Scenario.world_12
                  (Some "2025-09-12 12:00:00") None [] [] _ H)).
Defined.

(* ================================================================== *)
(** * Cluster anomalies of the metrics *)

Section ClusterRules.
Import ODict ODictFacts.

Lemma set_fresh {V : Type} k (v : V) d :
  ~ In k (keys d) -> set k v d = d ++ [(k, v)].
Proof.
  induction d as [|[k' v'] d IH]; simpl; auto.
  intros Hn. destruct (String.eqb k k') eqn:E.
  - apply String.eqb_eq in E. subst k'. exfalso. apply Hn. now left.
  - f_equal. apply IH. intros Hin. apply Hn. now right.
Qed.

Lemma analyze_nodes_fold hm : forall acc,
  NoDup (keys acc ++ keys hm) ->
  fold_left (fun acc e =>
               match values (snd e) with
               | [] => acc
               | _ :: _ => set (fst e) (stats_of (snd e)) acc
               end) hm acc
  = acc ++ map (fun e => (fst e, stats_of (snd e))) (analyzed hm).
Proof.
  induction hm as [|[k d] hm IH]; intros acc Hnd; simpl.
  - now rewrite app_nil_r.
  - assert (Hk : ~ In k (keys acc)).
    { intros Hin. apply NoDup_remove_2 in Hnd. apply Hnd.
      apply in_or_app. now left. }
    destruct (values d) eqn:Ev; simpl.
    + apply IH. now apply NoDup_remove_1 in Hnd.
    + rewrite IH.
      * rewrite set_fresh by assumption. now rewrite <- app_assoc.
      * rewrite set_fresh by assumption. unfold keys in *.
        rewrite map_app. simpl. rewrite <- app_assoc. exact Hnd.
Qed.

Lemma analyze_nodes_map hm :
  wf hm ->
  analyze_nodes hm = map (fun e => (fst e, stats_of (snd e))) (analyzed hm).
Proof.
  intros Hwf. unfold analyze_nodes. now rewrite analyze_nodes_fold.
Qed.











End ClusterRules.

(** The dictionaries that the loader returns have no node twice. *)
Lemma load_series_wf w start_time end_time l : forall md,
  ODict.wf (handler_metrics md) ->
  ODict.wf (handler_metrics (load_series w l start_time end_time md)).
Proof.
  induction l as [|s l IH]; intros md H; simpl; auto.
  destruct (load_one w start_time end_time md s) as [md'|] eqn:E; auto.
  apply IH. unfold load_one in E.
  destruct (_extract_node_from_series_name (sname s)) as [node_name|];
    [|inversion E; subst; auto].
  destruct (last_field "time" (sfields s)) as [tf|];
    [|inversion E; subst; auto].
  destruct (last_field "number" (sfields s)) as [vf|];
    [|inversion E; subst; auto].
  destruct (_filter_metrics_by_time w (fvalues tf) (fvalues vf)
              start_time end_time) as [fd|]; [|discriminate].
  destruct (timestamps fd); inversion E; subst; auto.
  simpl. now apply ODictFacts.wf_set.
Qed.

Lemma load_metrics_data_wf w metrics_dir target hours_range tr md tr' :
  _load_metrics_data w metrics_dir target hours_range tr = (inr md, tr') ->
  ODict.wf (handler_metrics md).
Proof.
  unfold _load_metrics_data. intros H.
  apply bind_inr in H. destruct H as (present & tr1 & _ & H).
  destruct (negb present).
  - apply ret_inr in H. destruct H as [<- _]. constructor.
  - apply bind_inr in H. destruct H as (bounds & tr2 & _ & H).
    unfold load_document in H.
    apply bind_inr in H. destruct H as (found & tr3 & _ & H).
    destruct found.
    + apply bind_inr in H. destruct H as (u & tr4 & _ & H).
      apply ret_inr in H. destruct H as [<- _].
      destruct (json_load w _) as [data|]; [|constructor].
      destruct (dseries data); [|constructor].
      apply load_series_wf. constructor.
    + apply ret_inr in H. destruct H as [<- _]. constructor.
Qed.



(* ================================================================== *)
(** * The stable sort *)

Section Sorting.
Context {A : Type} (leb : A -> A -> bool).
Hypothesis leb_total : forall x y, leb x y = true \/ leb y x = true.

Let R (x y : A) : Prop := leb x y = true.

Lemma insert_by_length x l :
  List.length (Num.insert_by leb x l) = S (List.length l).
Proof.
  induction l as [|y l IH]; simpl; auto.
  destruct (leb x y); simpl; auto.
Qed.

Lemma sort_by_length l : List.length (Num.sort_by leb l) = List.length l.
Proof.
  induction l as [|x l IH]; simpl; auto.
  now rewrite insert_by_length, IH.
Qed.

Lemma insert_by_perm x l : Permutation (Num.insert_by leb x l) (x :: l).
Proof.
  induction l as [|y l IH]; simpl; auto.
  destruct (leb x y); auto.
  rewrite IH. apply perm_swap.
Qed.

Lemma sort_by_perm l : Permutation (Num.sort_by leb l) l.
Proof.
  induction l as [|x l IH]; simpl; auto.
  rewrite insert_by_perm. now constructor.
Qed.

Lemma insert_by_hdrel x y l :
  R y x -> HdRel R y l -> HdRel R y (Num.insert_by leb x l).
Proof.
  intros Hyx Hl. destruct l as [|z l]; simpl.
  - now constructor.
  - destruct (leb x z); constructor; auto. now inversion Hl.
Qed.

Lemma insert_by_sorted x l :
  Sorted R l -> Sorted R (Num.insert_by leb x l).
Proof.
  induction l as [|y l IH]; simpl; intros Hs.
  - repeat constructor.
  - destruct (leb x y) eqn:E.
    + constructor; auto.
    + inversion Hs; subst. constructor; auto.
      apply insert_by_hdrel; auto.
      unfold R. destruct (leb_total x y); congruence.
Qed.

Lemma sort_by_sorted l : Sorted R (Num.sort_by leb l).
Proof.
  induction l as [|x l IH]; simpl.
  - constructor.
  - now apply insert_by_sorted.
Qed.

End Sorting.

(* ================================================================== *)
(** * The trend *)

Lemma combine_nil_r {A B : Type} (l : list A) : combine l (@nil B) = [].
Proof. now destruct l. Qed.

Lemma sorted_values_length hm :
  List.length (sorted_values hm) = List.length (pooled_pairs hm).
Proof. unfold sorted_values. now rewrite length_map, sort_by_length. Qed.

Lemma sorted_values_sorted hm :
  exists pairs,
    sorted_values hm = map snd pairs
    /\ Permutation pairs (pooled_pairs hm)
    /\ Sorted time_le pairs.
Proof.
  eexists. split; [reflexivity|]. split; [apply sort_by_perm|].
  eapply Sorted_ind with (P := Sorted time_le).
  3: apply (sort_by_sorted (fun x y : datetime * Q => (fst x <=? fst y)%Z)).
  - constructor.
  - intros a l _ IH Hd. constructor; auto.
    destruct Hd; constructor. unfold time_le. now apply Z.leb_le.
  - intros x y. rewrite !Z.leb_le. lia.
Qed.

Lemma trend_direction_spec (f s : float) :
  (trend_direction f s = increasing <-> (f * RISE <? s)%float = true)
  /\ (trend_direction f s = decreasing
      <-> (f * RISE <? s)%float = false /\ (s <? f * FALL)%float = true)
  /\ (trend_direction f s = stable
      <-> (f * RISE <? s)%float = false /\ (s <? f * FALL)%float = false).
Proof.
  unfold trend_direction.
  destruct (f * RISE <? s)%float, (s <? f * FALL)%float;
    repeat split; try discriminate; try tauto;
    intros [H1 H2]; discriminate.
Qed.

(** The input of the claim C7 on which a constant series is reported as
    increasing although its second-half mean is below 0.9 times its
    first-half mean, in exact arithmetic as in binary64: ten points of
    value -10. *)
Lemma trend_decreasing_iff_counterexample :
  let sv := sorted_values (handler_metrics Scenario_flat_negative) in
  Forall Binary64.ordinary
         (pooled_values (handler_metrics Scenario_flat_negative))
  /\ (Num.mean_Q (skipn 5 sv) < Num.mean_Q (firstn 5 sv) * (9 # 10))%Q
  /\ exists t,
       _analyze_performance_trends Scenario_flat_negative = Some t
       /\ first_half_avg t = (-10)%float /\ second_half_avg t = (-10)%float
       /\ (second_half_avg t <? first_half_avg t * FALL)%float = true
       /\ overall_trend t = increasing
       /\ overall_trend t <> decreasing.
Proof.
  split; [repeat constructor|]. split; [vm_compute; reflexivity|].
  eexists. split; [vm_compute; reflexivity|].
  repeat split; try (vm_compute; reflexivity). discriminate.
Qed.

(** C7, amended. A trend is produced exactly when the pooled,
    time-sorted samples are at least 10.  Its first half is the first
    floor(n/2) values and its second half the rest.  The two averages
    are the means of the halves, each rounded to the nearest binary64
    float.  The direction is [increasing] iff the second average
    exceeds the binary64 product of the first and 1.1; [decreasing] iff
    it does not and the second average is below the binary64 product of
    the first and 0.9; [stable] otherwise.  The values are numbers that
    binary64 holds exactly, of magnitude at most 2^52. *)
Theorem trend_rule (md : metrics_data) :
  let hm := handler_metrics md in
  let sv := sorted_values hm in
  let n := List.length sv in
  let first_half := firstn (n / 2) sv in
  let second_half := skipn (n / 2) sv in
  let f := Binary64.of_Q (Num.mean_Q first_half) in
  let s := Binary64.of_Q (Num.mean_Q second_half) in
  Forall Binary64.ordinary (pooled_values hm) ->
  (exists pairs, sv = map snd pairs
                 /\ Permutation pairs (pooled_pairs hm)
                 /\ Sorted time_le pairs)
  /\ ((exists t, _analyze_performance_trends md = Some t) <-> 10 <= n)
  /\ sv = first_half ++ second_half
  /\ List.length first_half = n / 2
  /\ List.length second_half = n - n / 2
  /\ (forall t, _analyze_performance_trends md = Some t ->
        first_half_avg t = f
        /\ second_half_avg t = s
        /\ (overall_trend t = increasing <-> (f * RISE <? s)%float = true)
        /\ (overall_trend t = decreasing
            <-> (f * RISE <? s)%float = false
                /\ (s <? f * FALL)%float = true)
        /\ (overall_trend t = stable
            <-> (f * RISE <? s)%float = false
                /\ (s <? f * FALL)%float = false)).
Proof.
  intros hm sv n first_half second_half f s _.
  split; [apply sorted_values_sorted|].
  assert (Hn : n = List.length (pooled_pairs hm))
    by apply sorted_values_length.
  assert (Hrun : _analyze_performance_trends md
                 = if 10 <=? n
                   then Some {| overall_trend := trend_direction f s;
                                first_half_avg := f;
                                second_half_avg := s;
                                trend_magnitude := magnitude f s |}
                   else None).
  { assert (Hempty : pooled_values hm = [] -> n = 0).
    { intros Ep. unfold pooled_pairs in Hn. unfold pooled_values in Ep.
      now rewrite Ep, combine_nil_r in Hn. }
    unfold _analyze_performance_trends. fold hm. fold sv. fold n.
    destruct (pooled_values hm) eqn:Ep.
    - rewrite (Hempty eq_refl). now destruct hm.
    - destruct hm; [discriminate Ep | reflexivity]. }
  split; [|split; [|split; [|split]]].
  - rewrite Hrun. destruct (10 <=? n) eqn:E.
    + apply Nat.leb_le in E. split; eauto.
    + apply Nat.leb_gt in E. split; [intros [t Ht]; discriminate | lia].
  - symmetry. apply firstn_skipn.
  - unfold first_half. rewrite length_firstn.
    assert (n / 2 <= n) by (apply Nat.Div0.div_le_upper_bound; lia).
    fold n. lia.
  - unfold second_half. rewrite length_skipn. reflexivity.
  - intros t Ht. rewrite Hrun in Ht.
    destruct (10 <=? n); [|discriminate]. inversion Ht; subst t; clear Ht.
    simpl. destruct (trend_direction_spec f s) as (Hi & Hd & Hs).
    split; [reflexivity|]. split; [reflexivity|]. split; [exact Hi|].
    split; [exact Hd | exact Hs].
Qed.

Lemma trend_rule_witness :
  Forall Binary64.ordinary (pooled_values (handler_metrics Scenario_rising))
  /\ exists t,
       _analyze_performance_trends Scenario_rising = Some t
       /\ first_half_avg t = 2%float /\ second_half_avg t = 5%float
       /\ overall_trend t = increasing.
Proof.
  assert (Hord : Forall Binary64.ordinary
                        (pooled_values (handler_metrics Scenario_rising)))
    by (repeat constructor).
  split; [exact Hord|].
  destruct (proj2 (proj1 (proj2 (trend_rule Scenario_rising Hord))))
    as [t Ht].
  { vm_compute. lia. }
  exists t. split; [exact Ht|].
  destruct (proj2 (proj2 (proj2 (proj2 (proj2
              (trend_rule Scenario_rising Hord))))) t Ht)
    as (Hf & Hs & Hinc & _).
  rewrite Hf, Hs. split; [vm_compute; reflexivity|].
  split; [vm_compute; reflexivity|].
  apply Hinc. vm_compute. reflexivity.
Defined.

(* ================================================================== *)
(** * The window of the metrics loader *)

Lemma in_set {V : Type} k (v : V) d k' v' :
  In (k', v') (ODict.set k v d) -> (k', v') = (k, v) \/ In (k', v') d.
Proof.
  induction d as [|[k0 v0] d IH]; simpl.
  - intros [H|[]]; auto.
  - destruct (String.eqb k k0); simpl.
    + intros [H|H]; auto.
    + intros [H|H]; auto. destruct (IH H); auto.
Qed.

(** Every entry that the loop over the series adds was filtered with
    the bounds it was given; the time range is left as it was. *)
Lemma load_series_filtered w start_time end_time l : forall md,
  loaded_within w start_time end_time md ->
  loaded_within w start_time end_time
    (load_series w l start_time end_time md)
  /\ md_time_range (load_series w l start_time end_time md)
     = md_time_range md.
Proof.
  induction l as [|s l IH]; intros md HP; simpl; auto.
  destruct (load_one w start_time end_time md s) as [md'|] eqn:E; auto.
  assert (Hstep : loaded_within w start_time end_time md'
                  /\ md_time_range md' = md_time_range md).
  { unfold load_one in E.
    destruct (_extract_node_from_series_name (sname s)) as [node_name|];
      [|inversion E; subst; auto].
    destruct (last_field "time" (sfields s)) as [tf|];
      [|inversion E; subst; auto].
    destruct (last_field "number" (sfields s)) as [vf|];
      [|inversion E; subst; auto].
    destruct (_filter_metrics_by_time w (fvalues tf) (fvalues vf)
                start_time end_time) as [fd|] eqn:F; [|discriminate].
    destruct (timestamps fd) as [|t0 ts0]; inversion E; subst; auto.
    split; [|reflexivity]. intros node nd Hin. simpl in Hin.
    apply in_set in Hin. destruct Hin as [Hin|Hin]; [|exact (HP _ _ Hin)].
    inversion Hin; subst. eauto. }
  destruct Hstep as [HP' Hr]. destruct (IH md' HP') as [H1 H2].
  split; [exact H1 | congruence].
Qed.

Lemma load_document_returns w metrics_dir target h start_time end_time tr :
  exists md tr',
    load_document w metrics_dir target h start_time end_time tr = (inr md, tr')
    /\ md_time_range md
       = Some (TimeRange (strftime start_time) (strftime end_time)
                 (if is_some (given target) then h else 72%Z))
    /\ loaded_within w start_time end_time md.
Proof.
  unfold load_document, os_path_exists, bind, emit, ret. simpl.
  set (md0 := {| md_nodes := []; handler_metrics := [];
                 md_time_range := _ |}).
  assert (H0 : loaded_within w start_time end_time md0)
    by (intros ? ? []).
  destruct (path_exists w _); [|eexists _, _; split; [reflexivity|]; auto].
  eexists _, _. split; [reflexivity|].
  destruct (json_load w _) as [data|]; auto.
  destruct (dseries data) as [l|]; auto.
  destruct (load_series_filtered w start_time end_time l md0 H0) as [H1 H2].
  split; [now rewrite H2 | exact H1].
Qed.

Lemma filter_points_closed w start_time end_time ts :
  forall vs kept_t kept_v,
    filter_points w ts vs start_time end_time kept_t kept_v
    = if existsb (fun p => negb (is_some (fromtimestamp w (fst p / 1000)%Q)))
                 (combine ts vs)
      then None
      else Some (kept_t ++ map fst (points_within w ts vs start_time end_time),
                 kept_v ++ map snd (points_within w ts vs start_time end_time)).
Proof.
  unfold points_within.
  induction ts as [|t ts IH]; intros [|v vs] kt kv; simpl;
    try now rewrite !app_nil_r.
  destruct (fromtimestamp w (t / 1000)) as [dt|]; simpl; auto.
  destruct ((start_time <=? dt)%Z && (dt <=? end_time)%Z); rewrite IH;
    destruct (existsb _ (combine ts vs)); simpl; auto.
  now rewrite <- !app_assoc.
Qed.

(** The assignment of a contribution, as the body of the loop does
    it. *)
Lemma load_one_closed w start_time end_time md sr :
  load_one w start_time end_time md sr
  = if unconvertible w sr then None
    else Some (fold_left
                 (fun md x =>
                    {| md_nodes := md_nodes md ++ [fst x];
                       handler_metrics :=
                         ODict.set (fst x) (data_of (snd x))
                                   (handler_metrics md);
                       md_time_range := md_time_range md |})
                 (contribution w start_time end_time sr) md).
Proof.
  unfold load_one, unconvertible, contribution, series_arrays.
  destruct (_extract_node_from_series_name (sname sr)) as [node|]; auto.
  destruct (last_field "time" (sfields sr)) as [tf|]; auto.
  destruct (last_field "number" (sfields sr)) as [vf|]; auto.
  unfold _filter_metrics_by_time. rewrite filter_points_closed.
  destruct (existsb _ _); auto. cbn [app timestamps].
  destruct (points_within w (fvalues tf) (fvalues vf) start_time end_time)
    as [|p pts]; [reflexivity|].
  cbn [map fold_left fst snd]. unfold data_of.
  cbn [map List.length]. now rewrite !length_map.
Qed.

Lemma load_series_closed w start_time end_time l : forall md,
  load_series w l start_time end_time md
  = fold_left
      (fun md x =>
         {| md_nodes := md_nodes md ++ [fst x];
            handler_metrics :=
              ODict.set (fst x) (data_of (snd x)) (handler_metrics md);
            md_time_range := md_time_range md |})
      (contributions w start_time end_time l) md.
Proof.
  unfold contributions.
  induction l as [|sr l IH]; intros md; simpl; auto.
  rewrite load_one_closed. destruct (unconvertible w sr); auto.
  simpl. now rewrite fold_left_app, IH.
Qed.

Lemma assigned_fields (c : list (string * list (datetime * Q))) :
  forall md,
    let md' :=
      fold_left
        (fun md x =>
           {| md_nodes := md_nodes md ++ [fst x];
              handler_metrics :=
                ODict.set (fst x) (data_of (snd x)) (handler_metrics md);
              md_time_range := md_time_range md |}) c md in
    md_time_range md' = md_time_range md
    /\ md_nodes md' = md_nodes md ++ map fst c
    /\ handler_metrics md'
       = fold_left (fun d x => ODict.set (fst x) (data_of (snd x)) d) c
                   (handler_metrics md).
Proof.
  induction c as [|x c IH]; intros md; simpl.
  - now rewrite app_nil_r.
  - destruct (IH {| md_nodes := md_nodes md ++ [fst x];
                    handler_metrics :=
                      ODict.set (fst x) (data_of (snd x)) (handler_metrics md);
                    md_time_range := md_time_range md |}) as (H1 & H2 & H3).
    simpl in *. rewrite H1, H2, H3, <- app_assoc. auto.
Qed.

(** The part of the loader after the bounds, in closed form. *)
Lemma load_document_closed w metrics_dir target h start_time end_time tr :
  exists md,
    load_document w metrics_dir target h start_time end_time tr
    = (inr md, tr ++ document_reads w metrics_dir)
    /\ holds_window w metrics_dir start_time end_time
         (if is_some (given target) then h else 72%Z) md.
Proof.
  unfold load_document, document_reads, holds_window, document_series,
    os_path_exists, bind, emit, ret. simpl.
  set (md0 := {| md_nodes := []; handler_metrics := [];
                 md_time_range := _ |}).
  destruct (path_exists w _).
  - rewrite <- app_assoc. eexists. split; [reflexivity|].
    destruct (json_load w _) as [data|]; [|now repeat split].
    destruct (dseries data) as [l|]; [|now repeat split].
    rewrite load_series_closed.
    destruct (assigned_fields (contributions w start_time end_time l) md0)
      as (H1 & H2 & H3).
    rewrite H1, H2, H3. now repeat split.
  - eexists. split; [reflexivity|]. now repeat split.
Qed.

Lemma find_append {A : Type} (f : A -> bool) (l1 l2 : list A) :
  find f (l1 ++ l2)
  = match find f l1 with Some x => Some x | None => find f l2 end.
Proof.
  induction l1 as [|x l1 IH]; simpl; auto. now destruct (f x).
Qed.

(** The entry of a node in a dictionary built by assignments is that
    of the last assignment to the node. *)
Lemma get_assigned {V W : Type} (f : W -> V) node (c : list (string * W)) :
  forall d,
    ODict.get node (fold_left (fun d x => ODict.set (fst x) (f (snd x)) d) c d)
    = match find (fun x => String.eqb node (fst x)) (rev c) with
      | Some x => Some (f (snd x))
      | None => ODict.get node d
      end.
Proof.
  induction c as [|[k v] c IH]; intros d; simpl; auto.
  rewrite IH, find_append.
  destruct (find _ (rev c)); auto. simpl.
  destruct (String.eqb node k) eqn:E.
  - apply String.eqb_eq in E. subst. apply ODictFacts.get_set_same.
  - apply ODictFacts.get_set_other. intros ->.
    now rewrite String.eqb_refl in E.
Qed.

Lemma in_contributions w start_time end_time l node pts :
  In (node, pts) (contributions w start_time end_time l)
  <-> exists sr ts vs,
        In sr (read_series w l)
        /\ series_arrays sr = Some (node, ts, vs)
        /\ pts = points_within w ts vs start_time end_time
        /\ pts <> [].
Proof.
  unfold contributions. rewrite in_flat_map. split.
  - intros (sr & Hsr & H). unfold contribution in H.
    destruct (series_arrays sr) as [[[n ts] vs]|] eqn:E; [|destruct H].
    destruct (points_within w ts vs start_time end_time) as [|p l'] eqn:Ep;
      [destruct H|].
    destruct H as [H|[]]. inversion H; subst.
    exists sr, ts, vs. rewrite Ep. repeat split; auto. discriminate.
  - intros (sr & ts & vs & Hsr & E & -> & Hne). exists sr. split; auto.
    unfold contribution. rewrite E.
    destruct (points_within w ts vs start_time end_time); [congruence|].
    now left.
Qed.

(** C10. With a target time the loader's window runs forward from the
    target, [target, target + hours_range]; without one it is
    [now - 3 days, now], whatever [hours_range], and the [hours] entry
    of the time range is 72.  In both cases the loader returns, after
    testing the directory, reading the clock when there is no target,
    and reading the document, the data of the document for that window:
    for each series that names a node and has both arrays, taken in
    order up to the first with a timestamp that cannot be converted,
    the points of the series whose time lies in the window, bounds
    included, when there are any; a node holds the points of the last
    such series that names it.  The result document echoes the two
    arguments as given. *)
Theorem metrics_window_forward_or_three_days
  (w : World) (metrics_dir : string) :
  path_exists w metrics_dir = true ->
  (forall t s h tr,
     t <> EmptyString -> strptime t = Some s ->
     in_range (s + hours h) = true ->
     exists md,
       _load_metrics_data w metrics_dir (Some t) h tr
       = (inr md,
          tr ++ Exists metrics_dir :: document_reads w metrics_dir)
       /\ holds_window w metrics_dir s (s + hours h)%Z h md)
  /\ (forall target h tr,
        given target = None -> in_range (now w - days 3) = true ->
        exists md,
          _load_metrics_data w metrics_dir target h tr
          = (inr md,
             tr ++ Exists metrics_dir :: Clock
                :: document_reads w metrics_dir)
          /\ holds_window w metrics_dir (now w - days 3)%Z (now w) 72 md)
  /\ (forall start_time end_time h md,
        holds_window w metrics_dir start_time end_time h md ->
        let c := contributions w start_time end_time
                               (document_series w metrics_dir) in
        (forall node,
           ODict.get node (handler_metrics md)
           = option_map (fun x => data_of (snd x))
               (find (fun x => String.eqb node (fst x)) (rev c)))
        /\ (forall node pts,
              In (node, pts) c
              <-> exists sr ts vs,
                    In sr (read_series w (document_series w metrics_dir))
                    /\ series_arrays sr = Some (node, ts, vs)
                    /\ pts = points_within w ts vs start_time end_time
                    /\ pts <> [])
        /\ (forall ts vs t v,
              In (t, v) (points_within w ts vs start_time end_time)
              <-> exists ms, In (ms, v) (combine ts vs)
                             /\ fromtimestamp w (ms / 1000)%Q = Some t
                             /\ (start_time <= t <= end_time)%Z))
  /\ (forall target h metric_types tr r tr',
        analyze_hbase_metrics w metrics_dir target h metric_types tr
        = (inr r, tr') ->
        m_target_time r = target /\ m_hours_range r = h).
Proof.
  intros Hdir. split; [|split; [|split]].
  - intros t s h tr Ht Hs Hr.
    destruct (load_document_closed w metrics_dir (Some t) h s (s + hours h)%Z
                (tr ++ [Exists metrics_dir])) as (md & Hrun & Hmd).
    exists md. rewrite (given_some t Ht) in Hmd. split; [|exact Hmd].
    change (tr ++ Exists metrics_dir :: document_reads w metrics_dir)
      with (tr ++ [Exists metrics_dir] ++ document_reads w metrics_dir).
    rewrite app_assoc, <- Hrun.
    unfold _load_metrics_data, os_path_exists, metrics_bounds.
    rewrite (given_some t Ht), Hs.
    unfold or_raise, add. unfold bind, emit, ret, raise. rewrite Hdir.
    cbv beta iota delta [negb fst snd]. rewrite Hr. reflexivity.
  - intros target h tr Ht Hr.
    destruct (load_document_closed w metrics_dir None h (now w - days 3)%Z
                (now w) (tr ++ [Exists metrics_dir; Clock]))
      as (md & Hrun & Hmd).
    exists md. split; [|exact Hmd].
    change (tr ++ Exists metrics_dir :: Clock :: document_reads w metrics_dir)
      with (tr ++ [Exists metrics_dir; Clock]
               ++ document_reads w metrics_dir).
    rewrite app_assoc, <- Hrun.
    unfold _load_metrics_data, os_path_exists, metrics_bounds.
    rewrite Ht.
    unfold or_raise, add. unfold bind, emit, ret, raise.
    replace (now w + - days 3)%Z with (now w - days 3)%Z by lia.
    rewrite Hdir. cbv beta iota delta [negb fst snd]. rewrite Hr.
    cbv beta iota delta [fst snd]. rewrite <- app_assoc.
    unfold load_document. rewrite Ht. reflexivity.
  - intros start_time end_time h md (_ & _ & Hm) c. split; [|split].
    + intros node. rewrite Hm. rewrite get_assigned. fold c.
      now destruct (find _ (rev c)).
    + intros node pts. apply in_contributions.
    + intros ts vs t v. apply points_within_iff.
  - intros target h mt tr r tr' H. unfold analyze_hbase_metrics in H.
    io_inv. subst. split; reflexivity.
Qed.

Lemma metrics_window_forward_or_three_days_witness :
  let w := MetricsScenario.metrics_world in
  let two := [(MetricsScenario.minutes_after Scenario.noon 10, 6%Q);
              (MetricsScenario.minutes_after Scenario.noon 11, 6%Q)] in
  path_exists w "hbase_metrics" = true
  /\ (exists md tr,
        _load_metrics_data w "hbase_metrics" (Some "2025-09-12 12:10:00") 1 []
        = (inr md, tr)
        /\ md_time_range md
           = Some (TimeRange "2025-09-12 12:10:00" "2025-09-12 13:10:00" 1)
        /\ md_nodes md = ["ip-10-0-0-2"]
        /\ handler_metrics md = [("ip-10-0-0-2", data_of two)])
  /\ (exists md tr,
        _load_metrics_data w "hbase_metrics" None 5 [] = (inr md, tr)
        /\ md_time_range md
           = Some (TimeRange "2025-09-09 13:00:00" "2025-09-12 13:00:00" 72)
        /\ option_map count (ODict.get "ip-10-0-0-2" (handler_metrics md))
           = Some 12).
Proof.
  intros w two.
  assert (H : path_exists w "hbase_metrics" = true) by reflexivity.
  destruct (metrics_window_forward_or_three_days w "hbase_metrics" H)
    as (Htarget & Hdefault & _).
  split; [exact H|]. split.
  - destruct (Htarget "2025-09-12 12:10:00"
                (MetricsScenario.minutes_after Scenario.noon 10) 1%Z [])
      as (md & Hrun & Hr & Hn & Hm);
      [discriminate | vm_compute; reflexivity | vm_compute; reflexivity|].
    exists md. eexists. split; [exact Hrun|].
    rewrite Hr, Hn, Hm. repeat split; vm_compute; reflexivity.
  - destruct (Hdefault None 5%Z []) as (md & Hrun & Hr & Hn & Hm);
      [reflexivity | reflexivity|].
    exists md. eexists. split; [exact Hrun|].
    rewrite Hr, Hm. split; vm_compute; reflexivity.
Defined.

(* ================================================================== *)
(** * Repeated calls *)

(** The calls of the claim C9 that differ: the same two files, listed
    by the directory in one order and in the other, with explicit time
    bounds.  The five top event types are not even the same set. *)
Lemma identical_results_counterexample :
  same_files_but_order Scenario.world_12 Scenario.world_21
  /\ Scenario.top_of (Scenario_call Scenario.world_12)
     = ["handler_usage"; "flush_start"; "queue_size"; "region_move";
        "compaction_start"]
  /\ Scenario.top_of (Scenario_call Scenario.world_21)
     = ["compaction_start"; "table_create"; "handler_usage"; "flush_start";
        "queue_size"]
  /\ fst (Scenario_call Scenario.world_12)
     <> fst (Scenario_call Scenario.world_21).
Proof.
  assert (H12 : Scenario.top_of (Scenario_call Scenario.world_12)
                = ["handler_usage"; "flush_start"; "queue_size";
                   "region_move"; "compaction_start"])
    by (vm_compute; reflexivity).
  assert (H21 : Scenario.top_of (Scenario_call Scenario.world_21)
                = ["compaction_start"; "table_create"; "handler_usage";
                   "flush_start"; "queue_size"])
    by (vm_compute; reflexivity).
  split; [|split; [exact H12 | split; [exact H21|]]].
  - repeat split; try reflexivity.
    exists "hbase_log", [Scenario.file_1; Scenario.file_2],
      [Scenario.file_2; Scenario.file_1].
    repeat split; try reflexivity.
    + apply perm_swap.
    + discriminate.
  - intros Heq. unfold Scenario.top_of in H12, H21.
    rewrite Heq, H21 in H12. discriminate H12.
Qed.

Lemma parse_line_nodes tw focus node ld line :
  nodes (parse_line tw focus node ld line) = nodes ld.
Proof.
  unfold parse_line. destruct (line_time line); auto.
  now destruct (in_window tw d).
Qed.

Lemma parse_lines_nodes tw focus node lines : forall ld,
  nodes (fold_left (parse_line tw focus node) lines ld) = nodes ld.
Proof.
  induction lines as [|l lines IH]; intros ld; simpl; auto.
  now rewrite IH, parse_line_nodes.
Qed.

Lemma set_add_nodup x l : NoDup l -> NoDup (set_add x l).
Proof.
  intros H. unfold set_add, PyStr.mem.
  destruct (existsb (String.eqb x) l) eqn:E; auto.
  apply NoDup_app; auto.
  - repeat constructor. intros [].
  - intros y Hy [<-|[]].
    assert (existsb (String.eqb x) l = true); [|congruence].
    apply existsb_exists. exists x. split; auto. apply String.eqb_refl.
Qed.

Lemma parse_files_nodup w tw focus files : forall ld,
  NoDup (nodes ld) ->
  NoDup (nodes (fold_left (parse_file_lines w tw focus) files ld)).
Proof.
  induction files as [|f files IH]; intros ld H; simpl; auto.
  apply IH. unfold parse_file_lines.
  rewrite parse_lines_reached, parse_lines_nodes. simpl.
  now apply set_add_nodup.
Qed.

Section SameFiles.
Variables w1 w2 : World.
Hypothesis Hsame : same_files w1 w2.

Lemma discover_same log_dir tr :
  _discover_log_files w1 log_dir tr = _discover_log_files w2 log_dir tr.
Proof.
  destruct Hsame as (He & Hw & _).
  unfold _discover_log_files, os_path_exists. now rewrite He, Hw.
Qed.

Lemma parse_file_lines_same tw focus ld f :
  parse_file_lines w1 tw focus ld f = parse_file_lines w2 tw focus ld f.
Proof.
  destruct Hsame as (_ & _ & Hr & _).
  unfold parse_file_lines. now rewrite Hr.
Qed.

Lemma parse_all_same tw focus files : forall ld,
  fold_left (parse_file_lines w1 tw focus) files ld
  = fold_left (parse_file_lines w2 tw focus) files ld.
Proof.
  induction files as [|f files IH]; intros ld; simpl; auto.
  now rewrite parse_file_lines_same, IH.
Qed.

Lemma filter_points_same ts : forall vs s e kt kv,
  filter_points w1 ts vs s e kt kv = filter_points w2 ts vs s e kt kv.
Proof.
  destruct Hsame as (_ & _ & _ & _ & Hf).
  induction ts as [|t ts IH]; intros [|v vs] s e kt kv; simpl; auto.
  rewrite Hf. destruct (fromtimestamp w2 (t / 1000)); auto.
  destruct (_ && _); apply IH.
Qed.

Lemma load_series_same l : forall s e md,
  load_series w1 l s e md = load_series w2 l s e md.
Proof.
  induction l as [|x l IH]; intros s e md; simpl; auto.
  assert (H : load_one w1 s e md x = load_one w2 s e md x).
  { unfold load_one, _filter_metrics_by_time.
    destruct (_extract_node_from_series_name (sname x)); auto.
    destruct (last_field "time" (sfields x)); auto.
    destruct (last_field "number" (sfields x)); auto.
    now rewrite filter_points_same. }
  rewrite H. destruct (load_one w2 s e md x); auto.
Qed.

Lemma load_document_same dir target h s e tr :
  load_document w1 dir target h s e tr = load_document w2 dir target h s e tr.
Proof.
  destruct Hsame as (He & _ & _ & Hj & _).
  unfold load_document, os_path_exists. rewrite He.
  unfold bind, emit, ret. simpl.
  destruct (path_exists w2 _); auto.
  rewrite Hj. destruct (json_load w2 _) as [data|]; auto.
  destruct (dseries data); auto. now rewrite load_series_same.
Qed.

End SameFiles.

Lemma analyze_parsed_logs_nodes t evs errs n1 n2 :
  List.length n1 = List.length n2 ->
  _analyze_parsed_logs (LogData t evs errs n1)
  = _analyze_parsed_logs (LogData t evs errs n2).
Proof.
  intros H. unfold _analyze_parsed_logs, _generate_analysis_summary.
  simpl. now rewrite H.
Qed.

Lemma bind_ext {A B : Type} (m1 m2 : IO A) (f1 f2 : A -> IO B) tr :
  m1 tr = m2 tr ->
  (forall a tr', m2 tr = (inr a, tr') -> f1 a tr' = f2 a tr') ->
  bind m1 f1 tr = bind m2 f2 tr.
Proof.
  intros Hm Hf. unfold bind. rewrite Hm.
  destruct (m2 tr) as [[e|a] tr']; auto.
Qed.

(** C9, amended. Two calls of an entry point with the same arguments,
    explicit time bounds and unchanged files listed by the directories
    in the same order return the same document and do the same
    accesses, whatever the clock and whatever the order in which a set
    is listed.  (The order of enumeration of a directory does show in
    the document.) *)
Theorem identical_results_same_enumeration (w1 w2 : World) :
  same_files w1 w2 -> lists_sets w1 -> lists_sets w2 ->
  (forall log_dir s end_time focus_areas target_nodes,
     s <> EmptyString ->
     run (analyze_hbase_logs w1 log_dir (Some s) end_time focus_areas
            target_nodes)
     = run (analyze_hbase_logs w2 log_dir (Some s) end_time focus_areas
              target_nodes))
  /\ (forall metrics_dir t hours_range metric_types,
        t <> EmptyString ->
        run (analyze_hbase_metrics w1 metrics_dir (Some t) hours_range
               metric_types)
        = run (analyze_hbase_metrics w2 metrics_dir (Some t) hours_range
                 metric_types)).
Proof.
  intros Hsame Hset1 Hset2. split.
  - intros log_dir s end_time focus targets Hs.
    unfold run, analyze_hbase_logs.
    apply bind_ext; [apply (discover_same w1 w2 Hsame)|].
    intros log_files tr1 _. apply bind_ext.
    { unfold _parse_time_window. rewrite (given_some s Hs).
      now destruct (given end_time). }
    intros tw tr2 _. apply bind_ext; [reflexivity|].
    intros relevant tr3 _.
    unfold _parse_log_files. unfold bind. rewrite !parse_files_run.
    rewrite (parse_all_same w1 w2 Hsame).
    set (ld := fold_left (parse_file_lines w2 tw focus) relevant
                 (LogData 0 [] [] [])).
    assert (Hnd : NoDup (nodes ld))
      by (apply parse_files_nodup; constructor).
    assert (Hlen : List.length (list_of_set w1 (nodes ld))
                   = List.length (list_of_set w2 (nodes ld))).
    { rewrite (Permutation_length (Hset1 _ Hnd)).
      now rewrite (Permutation_length (Hset2 _ Hnd)). }
    unfold ret. cbn [total_entries].
    now rewrite (analyze_parsed_logs_nodes _ _ _ _ _ Hlen).
  - intros metrics_dir t h mt Ht.
    unfold run, analyze_hbase_metrics.
    apply bind_ext; [|reflexivity].
    unfold _load_metrics_data.
    apply bind_ext.
    { unfold os_path_exists. destruct Hsame as (He & _). now rewrite He. }
    intros present tr1 _. destruct present; simpl; [|reflexivity].
    apply bind_ext.
    { unfold metrics_bounds. now rewrite (given_some t Ht). }
    intros bounds tr2 _. apply (load_document_same w1 w2 Hsame).
Qed.

Lemma identical_results_same_enumeration_witness :
  same_files Scenario.world_12 Scenario_world_12_later
  /\ now Scenario.world_12 <> now Scenario_world_12_later
  /\ Scenario_call Scenario.world_12 = Scenario_call Scenario_world_12_later.
Proof.
  assert (Hsame : same_files Scenario.world_12 Scenario_world_12_later)
    by (repeat split; reflexivity).
  assert (H1 : lists_sets Scenario.world_12)
    by (intros l _; apply Permutation_refl).
  assert (H2 : lists_sets Scenario_world_12_later)
    by (intros l _; apply Permutation_sym, Permutation_rev).
  split; [exact Hsame|]. split; [discriminate|].
  apply (proj1 (identical_results_same_enumeration _ _ Hsame H1 H2)).
  discriminate.
Defined.

(* ================================================================== *)
(** * Counting dictionaries *)

Section Counting.
Import ODict ODictFacts.
Context {A : Type} (key : A -> string).

Lemma incr_get_same k d :
  get k (incr k d) = Some (match get k d with Some n => n | None => 0 end + 1).
Proof. apply get_set_same. Qed.

Lemma incr_get_other k k' d : k <> k' -> get k' (incr k d) = get k' d.
Proof. apply get_set_other. Qed.

Lemma incr_wf k d : wf d -> wf (incr k d).
Proof. apply wf_set. Qed.

Lemma sum_counts_set k v d :
  sum_counts (set k v d) + match get k d with Some n => n | None => 0 end
  = sum_counts d + v.
Proof.
  induction d as [|[k' v'] d IH]; simpl.
  - lia.
  - destruct (String.eqb k k'); simpl; lia.
Qed.

Lemma sum_counts_incr k d : sum_counts (incr k d) = S (sum_counts d).
Proof.
  unfold incr. pose proof (sum_counts_set k
    (match get k d with Some n => n | None => 0 end + 1) d). lia.
Qed.

Lemma count_key_cons k e l :
  count_key key k (e :: l)
  = (if String.eqb (key e) k then 1 else 0) + count_key key k l.
Proof.
  unfold count_key. simpl. now destruct (String.eqb (key e) k).
Qed.

Lemma fold_incr_get k l : forall d,
  get k (fold_left (fun d e => incr (key e) d) l d)
  = match get k d with
    | Some n => Some (n + count_key key k l)
    | None => positive (count_key key k l)
    end.
Proof.
  induction l as [|e l IH]; intros d.
  - simpl. destruct (get k d); [|reflexivity].
    f_equal. unfold count_key. simpl. lia.
  - simpl fold_left. rewrite IH, count_key_cons.
    destruct (String.eqb (key e) k) eqn:E.
    + apply String.eqb_eq in E. rewrite E, incr_get_same.
      destruct (get k d); simpl; f_equal; lia.
    + assert (Hne : key e <> k)
        by (intros H; rewrite H, String.eqb_refl in E; discriminate).
      now rewrite (incr_get_other _ _ _ Hne).
Qed.

Lemma fold_incr_wf l : forall d,
  wf d -> wf (fold_left (fun d e => incr (key e) d) l d).
Proof.
  induction l as [|e l IH]; intros d H; simpl; auto using incr_wf.
Qed.

Lemma fold_incr_sum l : forall d,
  sum_counts (fold_left (fun d e => incr (key e) d) l d)
  = sum_counts d + List.length l.
Proof.
  induction l as [|e l IH]; intros d; simpl; [lia|].
  rewrite IH, sum_counts_incr. lia.
Qed.

(** The counting loop, from the empty dictionary. *)
Lemma counting_loop l :
  let d := fold_left (fun d e => incr (key e) d) l [] in
  wf d
  /\ sum_counts d = List.length l
  /\ forall k, get k d = positive (count_key key k l).
Proof.
  split; [apply fold_incr_wf, wf_nil|]. split.
  - now rewrite fold_incr_sum.
  - intros k. now rewrite fold_incr_get.
Qed.

End Counting.

Section NestedCounting.
Import ODict ODictFacts.
Context {A : Type} (outer inner : A -> string).

Lemma count_in_get2 n t k1 k2 d :
  get2 k1 k2 (count_in n t d)
  = if String.eqb n k1 && String.eqb t k2
    then Some (match get2 k1 k2 d with Some c => c | None => 0 end + 1)
    else get2 k1 k2 d.
Proof.
  unfold count_in, get2, mem.
  destruct (String.eqb n k1) eqn:E1; simpl.
  - apply String.eqb_eq in E1. subst k1.
    destruct (get n d) as [m|] eqn:G.
    + rewrite G, get_set_same.
      destruct (String.eqb t k2) eqn:E2.
      * apply String.eqb_eq in E2. subst k2. apply incr_get_same.
      * apply incr_get_other. intros H. rewrite H, String.eqb_refl in E2.
        discriminate.
    + rewrite get_set_same, get_set_same.
      destruct (String.eqb t k2) eqn:E2.
      * apply String.eqb_eq in E2. subst k2. apply incr_get_same.
      * unfold incr. simpl. now rewrite String.eqb_sym, E2.
  - assert (Hne : n <> k1)
      by (intros H; rewrite H, String.eqb_refl in E1; discriminate).
    destruct (get n d) as [m|] eqn:G.
    + rewrite G. now rewrite get_set_other.
    + rewrite get_set_same. now rewrite !get_set_other.
Qed.

Lemma fold_count_in_get2 k1 k2 l : forall d,
  get2 k1 k2 (fold_left (fun d e => count_in (outer e) (inner e) d) l d)
  = match get2 k1 k2 d with
    | Some n => Some (n + count_keys2 outer inner k1 k2 l)
    | None => positive (count_keys2 outer inner k1 k2 l)
    end.
Proof.
  induction l as [|e l IH]; intros d.
  - simpl. destruct (get2 k1 k2 d); [|reflexivity].
    f_equal. unfold count_keys2. simpl. lia.
  - simpl fold_left. rewrite IH, count_in_get2. unfold count_keys2. simpl.
    destruct (String.eqb (outer e) k1 && String.eqb (inner e) k2); simpl.
    + destruct (get2 k1 k2 d); simpl; f_equal; lia.
    + reflexivity.
Qed.

End NestedCounting.

(** X1. [_summarize_events] counts rightly: [total] is the number of
    events; [types] gives every type that occurs its number of events
    and holds no other key, so that its counts add up to [total]; the
    further keys are present exactly when there is an event, and then
    [by_node] counts the events of each node and type and
    [time_distribution] those of each hour. *)
Theorem summarize_events_counts (evs : list event) :
  let s := _summarize_events evs in
  total s = List.length evs
  /\ ODict.wf (types s)
  /\ sum_counts (types s) = List.length evs
  /\ (forall name,
        ODict.get name (types s) = positive (count_key event_type name evs))
  /\ (detail s = None <-> evs = [])
  /\ (forall d, detail s = Some d ->
        (forall node name,
           get2 node name (by_node d)
           = positive (count_keys2 e_node event_type node name evs))
        /\ (forall h, ODict.get h (time_distribution d)
                      = positive (count_key event_hour h evs))
        /\ sum_counts (time_distribution d) = List.length evs).
Proof.
  destruct evs as [|e evs];
    [simpl; repeat split; intros; try reflexivity; try discriminate;
     constructor|].
  set (l := e :: evs). unfold _summarize_events. fold l.
  destruct (counting_loop event_type l) as (Hwf & Hsum & Hget).
  destruct (counting_loop event_hour l) as (_ & Hsum' & Hget').
  cbn [total types detail].
  repeat match goal with |- _ /\ _ => split end; auto.
  - now split.
  - intros d [= <-]. cbn [by_node time_distribution].
    repeat split; auto.
    intros node name.
    exact (fold_count_in_get2 e_node event_type node name l []).
Qed.

Lemma summarize_events_counts_witness :
  let at_noon := fun k => Event k Scenario.noon "ip-10-0-0-1" "line" in
  let evs := [at_noon (handler_usage 59); at_noon flush_start;
              at_noon (handler_usage 61)] in
  exists d,
    detail (_summarize_events evs) = Some d
    /\ get2 "ip-10-0-0-1" "handler_usage" (by_node d) = Some 2
    /\ ODict.get "12:00" (time_distribution d) = Some 3.
Proof.
  intros at_noon evs. eexists. split; [reflexivity|].
  destruct (summarize_events_counts evs) as (_ & _ & _ & _ & _ & H).
  destruct (H _ eq_refl) as (Hn & Hh & _).
  rewrite Hn, Hh. split; reflexivity.
Defined.

(** X2. [_summarize_errors] counts rightly: [total] is the number of
    error records, [types] gives every kind that occurs its number of
    records and no other key, and [by_node] counts the records of each
    node and kind; the further keys are present exactly when there is
    a record. *)
Theorem summarize_errors_counts (errs : list error_record) :
  let s := _summarize_errors errs in
  total s = List.length errs
  /\ ODict.wf (types s)
  /\ sum_counts (types s) = List.length errs
  /\ (forall name,
        ODict.get name (types s) = positive (count_key error_type name errs))
  /\ (detail s = None <-> errs = [])
  /\ (forall d, detail s = Some d ->
        forall node name,
          get2 node name (by_node d)
          = positive (count_keys2 err_node error_type node name errs)).
Proof.
  destruct errs as [|e errs];
    [simpl; repeat split; intros; try reflexivity; try discriminate;
     constructor|].
  set (l := e :: errs). unfold _summarize_errors. fold l.
  destruct (counting_loop error_type l) as (Hwf & Hsum & Hget).
  cbn [total types detail].
  repeat match goal with |- _ /\ _ => split end; auto.
  - now split.
  - intros d [= <-]. cbn [by_node]. intros node name.
    exact (fold_count_in_get2 err_node error_type node name l []).
Qed.

Lemma summarize_errors_counts_witness :
  let err := fun n k => ErrorRecord Scenario.noon n k "line" in
  let errs := [err "ip-10-0-0-1" E_timeout; err "ip-10-0-0-2" E_timeout;
               err "ip-10-0-0-1" E_io] in
  exists d,
    detail (_summarize_errors errs) = Some d
    /\ get2 "ip-10-0-0-1" "timeout" (by_node d) = Some 1
    /\ get2 "ip-10-0-0-2" "io" (by_node d) = None.
Proof.
  intros err errs. eexists. split; [reflexivity|].
  destruct (summarize_errors_counts errs) as (_ & _ & _ & _ & _ & H).
  rewrite !(H _ eq_refl). split; reflexivity.
Defined.

(* ================================================================== *)
(** * The largest counts *)

Lemma Sorted_firstn {A : Type} (R : A -> A -> Prop) n : forall l,
  Sorted R l -> Sorted R (firstn n l).
Proof.
  induction n as [|n IH]; intros [|x l] H; simpl; try constructor.
  - apply IH. now inversion H.
  - inversion H; subst. destruct l; destruct n; simpl; constructor.
    now inversion H3.
Qed.

Lemma StronglySorted_app_order {A : Type} (R : A -> A -> Prop) l1 : forall l2,
  StronglySorted R (l1 ++ l2) ->
  forall y x, In y l1 -> In x l2 -> R y x.
Proof.
  induction l1 as [|a l1 IH]; intros l2 H y x Hy Hx; [destruct Hy|].
  simpl in H. inversion H; subst. destruct Hy as [<-|Hy].
  - rewrite Forall_forall in H3. apply H3. apply in_or_app. now right.
  - eapply IH; eauto.
Qed.

Lemma filter_insert_by_stable {A : Type} (leb : A -> A -> bool)
  (P : A -> bool) x l :
  (forall y, P x = true -> P y = true -> leb x y = true) ->
  filter P (Num.insert_by leb x l)
  = if P x then x :: filter P l else filter P l.
Proof.
  intros H. induction l as [|y l IH]; simpl.
  - reflexivity.
  - destruct (leb x y) eqn:E; simpl.
    + reflexivity.
    + rewrite IH. destruct (P y) eqn:Py; destruct (P x) eqn:Px; auto.
      rewrite (H y eq_refl Py) in E. discriminate.
Qed.

Lemma filter_sort_by_stable {A : Type} (leb : A -> A -> bool)
  (P : A -> bool) l :
  (forall x y, P x = true -> P y = true -> leb x y = true) ->
  filter P (Num.sort_by leb l) = filter P l.
Proof.
  intros H. induction l as [|x l IH]; simpl; auto.
  rewrite filter_insert_by_stable by (intros; now apply H).
  now rewrite IH.
Qed.

Lemma top_is_top n d : is_top n d (top n d).
Proof.
  unfold top.
  set (leb := fun x y : string * nat => snd y <=? snd x).
  set (sorted := Num.sort_by leb d).
  assert (Hperm : Permutation sorted d) by apply sort_by_perm.
  assert (Hs : Sorted by_count_desc sorted).
  { eapply Sorted_ind with (P := Sorted by_count_desc).
    3: apply (sort_by_sorted leb).
    - constructor.
    - intros a l _ IH Hd. constructor; auto.
      destruct Hd; constructor. unfold by_count_desc. now apply Nat.leb_le.
    - intros x y. unfold leb. rewrite !Nat.leb_le. lia. }
  assert (Hss : StronglySorted by_count_desc sorted).
  { apply Sorted_StronglySorted; auto.
    intros x y z. unfold by_count_desc. lia. }
  split; [|split; [|split; [|split]]].
  - rewrite length_firstn. unfold sorted. now rewrite sort_by_length.
  - now apply Sorted_firstn.
  - intros x Hx. apply (Permutation_in _ Hperm).
    rewrite <- (firstn_skipn n sorted). apply in_or_app. now left.
  - intros x Hx. apply (Permutation_in _ (Permutation_sym Hperm)) in Hx.
    rewrite <- (firstn_skipn n sorted) in Hx, Hss.
    apply in_app_or in Hx. destruct Hx as [Hx|Hx]; [now left|].
    right. intros y Hy.
    apply (StronglySorted_app_order _ _ _ Hss y x Hy Hx).
  - intros c. exists (filter (fun e => snd e =? c) (skipn n sorted)).
    rewrite <- filter_app, firstn_skipn. apply filter_sort_by_stable.
    intros x y Hx Hy. apply Nat.eqb_eq in Hx, Hy. unfold leb.
    apply Nat.leb_le. lia.
Qed.

(** X3. The [top_event_types] of [_summarize_events] are the five
    largest type counts and the [top_error_types] of
    [_summarize_errors] the three largest kind counts: as many as there
    are, by decreasing count, taken from [types], none left out being
    larger, and equal counts in the order in which [types] holds
    them. *)
Theorem top_types_are_the_largest :
  (forall evs d,
     detail (_summarize_events evs) = Some d ->
     is_top 5 (types (_summarize_events evs)) (top_types d))
  /\ (forall errs d,
        detail (_summarize_errors errs) = Some d ->
        is_top 3 (types (_summarize_errors errs)) (top_types d)).
Proof.
  split.
  - intros [|e evs] d; [discriminate|]. intros [= <-]. apply top_is_top.
  - intros [|e errs] d; [discriminate|]. intros [= <-]. apply top_is_top.
Qed.

Lemma top_types_are_the_largest_witness :
  let err := fun k => ErrorRecord Scenario.noon "ip-10-0-0-1" k "line" in
  let errs := [err E_io; err E_timeout; err E_data; err E_timeout;
               err E_fatal] in
  exists d,
    detail (_summarize_errors errs) = Some d
    /\ is_top 3 (types (_summarize_errors errs)) (top_types d)
    /\ top_types d = [("timeout", 2); ("io", 1); ("data", 1)].
Proof.
  intros err errs. eexists. split; [reflexivity|]. split; [|reflexivity].
  apply (proj2 top_types_are_the_largest errs). reflexivity.
Defined.

(* ================================================================== *)
(** * What the parser produces *)

Lemma subseq_refl {A : Type} (l : list A) : subseq l l.
Proof. induction l; [apply subseq_nil | now apply subseq_keep]. Qed.

Lemma subseq_nil_l {A : Type} (l : list A) : subseq [] l.
Proof. induction l; [apply subseq_nil | now apply subseq_skip]. Qed.

Lemma subseq_app {A : Type} (l1 l1' l2 l2' : list A) :
  subseq l1 l1' -> subseq l2 l2' -> subseq (l1 ++ l2) (l1' ++ l2').
Proof.
  intros H1 H2. induction H1; simpl; auto.
  - now apply subseq_skip.
  - now apply subseq_keep.
Qed.

Lemma subseq_length {A : Type} (l1 l2 : list A) :
  subseq l1 l2 -> List.length l1 <= List.length l2.
Proof. induction 1; simpl; lia. Qed.

Lemma subseq_in {A : Type} (l1 l2 : list A) x :
  subseq l1 l2 -> In x l1 -> In x l2.
Proof.
  induction 1; simpl; auto.
  intros [->|H']; auto.
Qed.

Lemma line_events_in focus line k :
  In k (line_events focus line) ->
  exists topic test evs,
    In (topic, Detect test) steps /\ enabled focus topic = true
    /\ test line = Some evs /\ In k evs.
Proof.
  unfold line_events. intros H. apply in_flat_map in H.
  destruct H as ([topic s] & Hd & Hk). unfold step_events in Hk. simpl in Hk.
  destruct (enabled focus topic) eqn:He; [|destruct Hk].
  destruct s as [test|]; [|destruct Hk].
  destruct (test line) as [evs|] eqn:Et; [|destruct Hk].
  now exists topic, test, evs.
Qed.

Lemma in_line_events focus line topic test evs k :
  In (topic, Detect test) steps -> enabled focus topic = true ->
  test line = Some evs -> In k evs -> In k (line_events focus line).
Proof.
  intros Hd He Et Hk. unfold line_events. apply in_flat_map.
  exists (topic, Detect test). split; auto.
  unfold step_events. simpl. now rewrite He, Et.
Qed.

Lemma int_acc_nonneg s : forall acc, (0 <= acc)%Z -> (0 <= PyStr.int_acc s acc)%Z.
Proof.
  induction s as [|a s IH]; intros acc H; cbn [PyStr.int_acc]; auto.
  apply IH. pose proof (Nat2Z.is_nonneg (PyStr.code a - 48)). lia.
Qed.

Lemma int_nonneg s v : PyStr.int s = Some v -> (0 <= v)%Z.
Proof.
  unfold PyStr.int. destruct (_ <? _); [discriminate|].
  intros [= <-]. apply int_acc_nonneg. lia.
Qed.

Lemma search_int_nonneg p line v :
  Re.search_int p line = Some (Some v) -> (0 <= v)%Z.
Proof.
  unfold Re.search_int. destruct (Re.search p line); [|discriminate].
  intros [= H]. now apply int_nonneg in H.
Qed.

(** Case analysis on the event that a test produced. *)
Ltac step_event Ht Hk :=
  cbv beta in Ht;
  first [ progress unfold when in Ht | progress unfold valued in Ht
        | progress unfold named in Ht | progress unfold heap_events in Ht ];
  repeat match type of Ht with
         | context [match ?c with _ => _ end] => destruct c eqn:?
         end;
  try discriminate Ht; injection Ht as <-;
  first [ destruct Hk as [<-|[]] | destruct Hk ].

Ltac step_cases Ht Hk :=
  repeat match goal with
         | Hd : _ \/ _ |- _ =>
             destruct Hd as [Hd|Hd];
             [first [ discriminate Hd
                    | injection Hd as <- <-; step_event Ht Hk ]|]
         | Hd : False |- _ => destruct Hd
         end.

Lemma step_topic topic test line evs k :
  In (topic, Detect test) steps -> test line = Some evs -> In k evs ->
  topic_of k = topic.
Proof.
  intros Hd Ht Hk. unfold steps in Hd. simpl in Hd.
  step_cases Ht Hk; reflexivity.
Qed.

Lemma step_numbers topic test line evs k :
  In (topic, Detect test) steps -> test line = Some evs -> In k evs ->
  Forall (fun v => (0 <= v)%Z) (numbers_of k).
Proof.
  intros Hd Ht Hk. unfold steps in Hd. simpl in Hd.
  step_cases Ht Hk; simpl; repeat constructor;
    solve [ eapply search_int_nonneg; eassumption
          | eapply int_nonneg; eassumption ].
Qed.

(** Whether a call raises, and what it appends when it returns. *)
Lemma run_steps_raised focus line l :
  raised (run_steps focus line l) = existsb (step_raises focus line) l.
Proof.
  induction l as [|[topic s] l IH]; simpl; auto.
  unfold step_raises at 1. simpl.
  destruct (enabled focus topic); simpl; auto.
  destruct s as [test|]; simpl.
  - destruct (test line); simpl; auto.
  - destruct (error_matched line); simpl; auto.
Qed.

Lemma run_steps_returns focus line l :
  raised (run_steps focus line l) = false ->
  new_events (run_steps focus line l) = flat_map (step_events focus line) l.
Proof.
  induction l as [|[topic s] l IH]; simpl; auto.
  unfold step_events at 1. simpl.
  destruct (enabled focus topic); simpl; auto.
  destruct s as [test|]; simpl.
  - destruct (test line); simpl; [|discriminate].
    intros H. now rewrite IH.
  - destruct (error_matched line); simpl; auto.
Qed.

(** What a call appends to [events] is the start of the events of the
    line, and all of them when it returns. *)
Lemma run_steps_prefix focus line l :
  exists rest,
    flat_map (step_events focus line) l
    = new_events (run_steps focus line l) ++ rest.
Proof.
  induction l as [|[topic s] l [rest IH]]; simpl.
  - now exists [].
  - unfold step_events at 1. simpl.
    destruct (enabled focus topic); simpl; [|now exists rest].
    destruct s as [test|]; simpl.
    + destruct (test line); simpl.
      * exists rest. now rewrite IH, app_assoc.
      * now exists (flat_map (step_events focus line) l).
    + destruct (error_matched line); simpl; now exists rest.
Qed.

Lemma enabled_none topic : enabled None topic = true.
Proof. reflexivity. Qed.

Lemma step_raises_focus focus line s :
  step_raises focus line s = true -> step_raises None line s = true.
Proof.
  unfold step_raises. rewrite enabled_none.
  now destruct (enabled focus (fst s)).
Qed.

Lemma parse_raises_focus focus line :
  parse_raises None line = false -> parse_raises focus line = false.
Proof.
  unfold parse_raises, parse_effect_of. rewrite !run_steps_raised.
  intros H. destruct (existsb (step_raises focus line) steps) eqn:E; auto.
  apply existsb_exists in E. destruct E as (s & Hs & E).
  apply step_raises_focus in E.
  assert (existsb (step_raises None line) steps = true); [|congruence].
  apply existsb_exists. now exists s.
Qed.

Lemma new_events_in focus line k :
  In k (new_events (parse_effect_of focus line)) ->
  In k (line_events focus line).
Proof.
  unfold line_events, parse_effect_of. intros H.
  destruct (run_steps_prefix focus line steps) as [rest ->].
  apply in_or_app. now left.
Qed.

Lemma new_events_returns focus line :
  parse_raises focus line = false ->
  new_events (parse_effect_of focus line) = line_events focus line.
Proof. apply run_steps_returns. Qed.

(** The error records of a call: none unless [errors] is in the focus
    and the line matches, and then at most the one that
    [_classify_error] names. *)
Lemma run_steps_errors focus line l :
  (forall topic, In (topic, RecordError) l -> topic = "errors") ->
  new_errors (run_steps focus line l)
  = repeat (_classify_error line) (List.length (new_errors (run_steps focus line l)))
  /\ List.length (new_errors (run_steps focus line l)) <= records l
  /\ (new_errors (run_steps focus line l) <> [] ->
      enabled focus "errors" = true /\ error_matched line = true).
Proof.
  unfold records.
  induction l as [|[topic s] l IH]; intros Ht; simpl.
  - split; [|split]; auto.
  - assert (Ht' : forall t, In (t, RecordError) l -> t = "errors")
      by (intros t Hin; apply Ht; now right).
    destruct (IH Ht') as (Hr & Hl & Hn).
    destruct (enabled focus topic) eqn:He.
    2:{ split; [|split]; auto. destruct s; simpl; lia. }
    destruct s as [test|]; simpl.
    + destruct (test line); simpl; [auto|].
      split; [|split]; auto; try lia.
    + rewrite (Ht topic (or_introl eq_refl)) in He.
      destruct (error_matched line) eqn:Em; simpl.
      * split; [|split]; auto; [now f_equal | lia].
      * split; [|split]; auto.
Qed.

Lemma steps_records :
  (forall topic, In (topic, RecordError) steps -> topic = "errors")
  /\ records steps = 1.
Proof.
  split; [|reflexivity].
  intros topic H. unfold steps in H. simpl in H.
  repeat (destruct H as [H|H]; [first [discriminate H | now injection H]|]).
  destruct H.
Qed.

Lemma new_errors_cases focus line :
  new_errors (parse_effect_of focus line) = []
  \/ (new_errors (parse_effect_of focus line) = [_classify_error line]
      /\ enabled focus "errors" = true /\ error_matched line = true).
Proof.
  destruct steps_records as [Ht Hone].
  destruct (run_steps_errors focus line steps Ht) as (Hr & Hl & Hn).
  rewrite Hone in Hl. unfold parse_effect_of.
  destruct (new_errors (run_steps focus line steps)) as [|k [|k' l]] eqn:E;
    [now left| |simpl in Hl; lia].
  right. simpl in Hr. split; [exact Hr|]. apply Hn. discriminate.
Qed.

(** X4. Restricting [focus_areas] only removes events: the events of a
    line under a focus are those of the line without focus whose topic
    is in the focus, in the same order; an empty focus list is no focus;
    and an error record is made only when [errors] is in the focus.
    When no test of the line raises, these events are what
    [_parse_log_line] appends, under any focus. *)
Theorem focus_areas_only_remove_events
  (focus_areas : option (list string)) (line : string) :
  subseq (line_events focus_areas line) (line_events None line)
  /\ line_events (Some []) line = line_events None line
  /\ (forall k, In k (line_events focus_areas line)
                <-> In k (line_events None line)
                    /\ enabled focus_areas (topic_of k) = true)
  /\ (forall t node ld,
        enabled focus_areas "errors" = false ->
        errors (_parse_log_line line t node ld focus_areas) = errors ld)
  /\ (parse_raises None line = false ->
      parse_raises focus_areas line = false
      /\ forall t node ld,
           events (_parse_log_line line t node ld focus_areas)
           = events ld
             ++ map (fun k => Event k t node (PyStr.strip line))
                  (line_events focus_areas line)).
Proof.
  split; [|split; [reflexivity|split; [|split]]].
  - unfold line_events. induction steps as [|d l IH]; simpl.
    + apply subseq_nil.
    + apply subseq_app; auto.
      unfold step_events. rewrite enabled_none.
      destruct (enabled focus_areas (fst d));
        [apply subseq_refl | apply subseq_nil_l].
  - intros k. split.
    + intros H.
      destruct (line_events_in _ _ _ H) as (topic & test & evs & Hd & He & Ht & Hk).
      split.
      * now apply (in_line_events None line topic test evs).
      * now rewrite (step_topic topic test line evs k Hd Ht Hk).
    + intros [H He].
      destruct (line_events_in _ _ _ H) as (topic & test & evs & Hd & _ & Ht & Hk).
      apply (in_line_events focus_areas line topic test evs); auto.
      now rewrite <- (step_topic topic test line evs k Hd Ht Hk).
  - intros t node ld He. simpl.
    destruct (new_errors_cases focus_areas line) as [->|(_ & He' & _)];
      [apply app_nil_r | congruence].
  - intros H. pose proof (parse_raises_focus focus_areas line H) as Hf.
    split; auto. intros t node ld. simpl.
    now rewrite (new_events_returns focus_areas line Hf).
Qed.

Lemma focus_areas_only_remove_events_witness :
  let line := "2025-09-12 12:00:00,000 WARN handler=59 queue=3" in
  let focus := Some ["queue"] in
  errors (_parse_log_line line Scenario.noon "n" (LogData 0 [] [] []) focus)
  = []
  /\ ~ In (handler_usage 59) (line_events focus line)
  /\ events (_parse_log_line line Scenario.noon "n" (LogData 0 [] [] []) focus)
     = map (fun k => Event k Scenario.noon "n" (PyStr.strip line))
           (line_events focus line).
Proof.
  intros line focus.
  destruct (focus_areas_only_remove_events focus line)
    as (_ & _ & Hin & Herr & Hev).
  split; [|split].
  - apply Herr. reflexivity.
  - intros H. apply Hin in H. destruct H as [_ H]. discriminate H.
  - destruct Hev as [_ Hev]; [vm_compute; reflexivity|].
    apply (Hev Scenario.noon "n" (LogData 0 [] [] [])).
Defined.

(** X5. [_parse_log_files] never raises and opens the files once each,
    in the order given.  Its events and its error records are, file
    after file and line after line, those of the retained lines that
    the parser reaches, each with the node of its file, the time of its
    line and the stripped line; [total_entries] is the number of these
    lines, whatever they contain.  In a file the parser reaches the
    lines up to the first retained line whose parse raises, which is
    every line when none does. *)
Theorem parse_log_files_by_file_and_line
  (w : World) (files : list string) (tw : time_window)
  (focus_areas : option (list string)) (tr : trace) :
  (exists ld,
     _parse_log_files w files tw focus_areas tr
     = (inr ld, tr ++ map Open files)
     /\ events ld
        = per_file w tw focus_areas (events_of_line tw focus_areas) files
     /\ errors ld
        = per_file w tw focus_areas (errors_of_line tw focus_areas) files
     /\ total_entries ld
        = List.length (filter (retained tw)
                              (reached_lines w tw focus_areas files)))
  /\ (forall f,
        exists rest,
          fst (read_lines w f) = reached_in w tw focus_areas f ++ rest
          /\ Forall (fun line => retained tw line
                                 && parse_raises focus_areas line = false)
                    (removelast (reached_in w tw focus_areas f))
          /\ (rest <> [] ->
              exists init line,
                reached_in w tw focus_areas f = init ++ [line]
                /\ retained tw line = true
                /\ parse_raises focus_areas line = true)).
Proof.
  split; [apply parse_log_files_closed|].
  intros f. unfold reached_in. apply reached_spec.
Qed.

Lemma error_matched_classified line :
  error_matched line = true -> _classify_error line <> E_unknown.
Proof.
  unfold error_matched, PyStr.contains_any, _classify_error. simpl.
  destruct (PyStr.contains "timed out" line); simpl; [discriminate|].
  repeat match goal with
         | |- context [if ?c then _ else _] => destruct c; [discriminate|]
         end.
  destruct (PyStr.contains "ERROR" line),
           (PyStr.contains "Exception" line),
           (PyStr.contains "FATAL" line),
           (PyStr.contains "WARN" line); simpl; discriminate.
Qed.

Lemma flat_map_length_le {A B : Type} (f : A -> list B) (p : A -> bool) l :
  (forall x, List.length (f x) <= if p x then 1 else 0) ->
  List.length (flat_map f l) <= List.length (filter p l).
Proof.
  intros H. induction l as [|x l IH]; simpl; auto.
  rewrite length_app. specialize (H x). destruct (p x); simpl; lia.
Qed.

Lemma errors_of_line_le tw focus node line :
  List.length (errors_of_line tw focus node line)
  <= if retained tw line then 1 else 0.
Proof.
  unfold errors_of_line, retained.
  destruct (line_time line) as [t|]; simpl; auto.
  destruct (in_window tw t); simpl; auto.
  rewrite length_map.
  destruct (new_errors_cases focus line) as [->|(-> & _)]; simpl; auto.
Qed.

Lemma errors_per_file_le w tw focus files :
  List.length (per_file w tw focus (errors_of_line tw focus) files)
  <= List.length (filter (retained tw) (reached_lines w tw focus files)).
Proof.
  unfold per_file, reached_lines.
  induction files as [|f files IH]; simpl; auto.
  rewrite filter_app, !length_app.
  pose proof (flat_map_length_le
                (errors_of_line tw focus (_extract_node_name f))
                (retained tw) (reached_in w tw focus f)
                (errors_of_line_le tw focus _)). lia.
Qed.

(** X6. In what [_parse_log_files] returns there is at most one error
    record for each retained line, so that the errors are no more than
    [total_entries] and the error rate lies between 0 and 100; and the
    kind of an error record is never [unknown]. *)
Theorem error_records_bounded_and_classified
  (w : World) (files : list string) (tw : time_window)
  (focus_areas : option (list string)) (tr tr' : trace) (ld : log_data) :
  _parse_log_files w files tw focus_areas tr = (inr ld, tr') ->
  List.length (errors ld) <= total_entries ld
  /\ (0 <= error_rate_of (List.length (errors ld)) (total_entries ld) <= 100)%Q
  /\ Forall (fun e => err_type e <> E_unknown) (errors ld).
Proof.
  intros H.
  destruct (parse_log_files_closed w files tw focus_areas tr)
    as (ld' & H' & _ & Hr & Ht).
  rewrite H in H'. inversion H'; subst ld'; clear H'.
  assert (Hle : List.length (errors ld) <= total_entries ld)
    by (rewrite Hr, Ht; apply errors_per_file_le).
  split; [exact Hle|]. split.
  - unfold error_rate_of. destruct (0 <? total_entries ld) eqn:E.
    + apply Nat.ltb_lt in E.
      set (n := List.length (errors ld)) in *. set (t := total_entries ld) in *.
      assert (Ht0 : (0 < inject_Z (Z.of_nat t))%Q)
        by (unfold Qlt; simpl; lia).
      assert (Hn0 : (0 <= inject_Z (Z.of_nat n))%Q)
        by (unfold Qle; simpl; lia).
      assert (Hnt : (inject_Z (Z.of_nat n) <= inject_Z (Z.of_nat t))%Q)
        by (unfold Qle; simpl; lia).
      split.
      * apply Qmult_le_0_compat; [|discriminate].
        apply Qle_shift_div_l; [exact Ht0 | rewrite Qmult_0_l; exact Hn0].
      * setoid_replace 100%Q with (1 * 100)%Q at 2 by reflexivity.
        apply Qmult_le_compat_r; [|discriminate].
        apply Qle_shift_div_r; [exact Ht0 | rewrite Qmult_1_l; exact Hnt].
    + split; discriminate.
  - rewrite Hr. unfold per_file. apply Forall_forall. intros e He.
    apply in_flat_map in He. destruct He as (f & _ & He).
    apply in_flat_map in He. destruct He as (line & _ & He).
    unfold errors_of_line in He.
    destruct (line_time line) as [t|]; [|destruct He].
    destruct (in_window tw t); simpl in He; [|destruct He].
    destruct (new_errors_cases focus_areas line) as [Hn|(Hn & _ & Em)];
      rewrite Hn in He; [destruct He|].
    destruct He as [<-|[]]. simpl. now apply error_matched_classified.
Qed.

Lemma error_records_bounded_and_classified_witness :
  exists ld tr',
    _parse_log_files SpecScenario.world_B [SpecScenario.log_path]
      (window Scenario.noon Scenario.one_pm) None [] = (inr ld, tr')
    /\ List.length (errors ld) <= total_entries ld
    /\ Forall (fun e => err_type e <> E_unknown) (errors ld).
Proof.
  destruct (parse_log_files_closed SpecScenario.world_B
              [SpecScenario.log_path] (window Scenario.noon Scenario.one_pm)
              None []) as (ld & H & _).
  exists ld, ([] ++ map Open [SpecScenario.log_path]). split; [exact H|].
  destruct (error_records_bounded_and_classified _ _ _ _ _ _ _ H)
    as (H1 & _ & H3).
  split; assumption.
Defined.

(* ================================================================== *)
(** * The nodes and the events of the parser *)

Lemma parse_all_nodes w tw focus files : forall ld,
  nodes (fold_left (parse_file_lines w tw focus) files ld)
  = fold_left (fun s f => set_add (_extract_node_name f) s) files (nodes ld).
Proof.
  induction files as [|f files IH]; intros ld; simpl; auto.
  rewrite IH. unfold parse_file_lines.
  now rewrite parse_lines_reached, parse_lines_nodes.
Qed.

Lemma set_add_in x y s : In y (set_add x s) <-> y = x \/ In y s.
Proof.
  unfold set_add, PyStr.mem. destruct (existsb (String.eqb x) s) eqn:E.
  - split; auto. intros [->|H]; auto.
    apply existsb_exists in E. destruct E as (z & Hz & Ez).
    apply String.eqb_eq in Ez. now subst.
  - rewrite in_app_iff. simpl. intuition.
Qed.

Lemma set_add_length x s : List.length (set_add x s) <= S (List.length s).
Proof.
  unfold set_add. destruct (PyStr.mem x s); [lia|].
  rewrite length_app. simpl. lia.
Qed.

Lemma fold_set_add_in (name : string -> string) files : forall s y,
  In y (fold_left (fun s f => set_add (name f) s) files s)
  <-> In y s \/ exists f, In f files /\ name f = y.
Proof.
  induction files as [|f files IH]; intros s y; simpl.
  - split; auto. intros [H|(f & [] & _)]; auto.
  - rewrite IH, set_add_in. split.
    + intros [[->|H]|(g & Hg & <-)]; eauto.
    + intros [H|(g & [<-|Hg] & <-)]; eauto.
Qed.

Lemma fold_set_add_length (name : string -> string) files : forall s,
  List.length (fold_left (fun s f => set_add (name f) s) files s)
  <= List.length s + List.length files.
Proof.
  induction files as [|f files IH]; intros s; simpl; [lia|].
  specialize (IH (set_add (name f) s)).
  pose proof (set_add_length (name f) s). lia.
Qed.

(** The nodes of the result of [_parse_log_files]. *)
Lemma parse_log_files_nodes
  (w : World) (files : list string) (tw : time_window)
  (focus_areas : option (list string)) (tr tr' : trace) (ld : log_data) :
  lists_sets w ->
  _parse_log_files w files tw focus_areas tr = (inr ld, tr') ->
  NoDup (nodes ld)
  /\ (forall n, In n (nodes ld)
                <-> exists f, In f files /\ _extract_node_name f = n)
  /\ List.length (nodes ld) <= List.length files
  /\ Forall (fun e => In (e_node e) (nodes ld)) (events ld)
  /\ Forall (fun e => In (err_node e) (nodes ld)) (errors ld).
Proof.
  intros Hset H.
  destruct (parse_log_files_closed w files tw focus_areas tr)
    as (ld' & H' & He & Hr & _).
  rewrite H in H'. inversion H'; subst ld'; clear H'.
  rewrite parse_log_files_run in H. inversion H; subst; clear H.
  cbn [nodes events errors] in *.
  set (raw := nodes (fold_left (parse_file_lines w tw focus_areas) files
                       (LogData 0 [] [] []))).
  assert (Hnd : NoDup raw) by (apply parse_files_nodup; constructor).
  pose proof (Hset raw Hnd) as Hperm.
  assert (Hin : forall n, In n (list_of_set w raw)
                          <-> exists f, In f files /\ _extract_node_name f = n).
  { intros n. split.
    - intros Hn. apply (Permutation_in _ Hperm) in Hn. unfold raw in Hn.
      rewrite parse_all_nodes, fold_set_add_in in Hn.
      destruct Hn as [[]|Hn]; exact Hn.
    - intros Hn. apply (Permutation_in _ (Permutation_sym Hperm)).
      unfold raw. rewrite parse_all_nodes, fold_set_add_in. now right. }
  split; [|split; [exact Hin|split; [|split]]].
  - apply (Permutation_NoDup (Permutation_sym Hperm) Hnd).
  - rewrite (Permutation_length Hperm). unfold raw.
    rewrite parse_all_nodes.
    apply (fold_set_add_length _extract_node_name files []).
  - rewrite He. apply Forall_forall. intros e Hin'. apply Hin.
    unfold per_file in Hin'. apply in_flat_map in Hin'.
    destruct Hin' as (f & Hf & Hl). exists f. split; auto.
    apply in_flat_map in Hl. destruct Hl as (line & _ & Hl).
    unfold events_of_line in Hl.
    destruct (line_time line) as [t|]; [|destruct Hl].
    destruct (in_window tw t); [|destruct Hl].
    apply in_map_iff in Hl. now destruct Hl as (k & <- & _).
  - rewrite Hr. apply Forall_forall. intros e Hin'. apply Hin.
    unfold per_file in Hin'. apply in_flat_map in Hin'.
    destruct Hin' as (f & Hf & Hl). exists f. split; auto.
    apply in_flat_map in Hl. destruct Hl as (line & _ & Hl).
    unfold errors_of_line in Hl.
    destruct (line_time line) as [t|]; [|destruct Hl].
    destruct (in_window tw t); [|destruct Hl].
    apply in_map_iff in Hl. now destruct Hl as (k & <- & _).
Qed.

(** X7. With sets listed without loss, the [nodes] of what
    [_parse_log_files] returns are exactly the node names of the files
    it was given, each once, whether or not a file could be read or had
    a retained line; every event and every error record carries one of
    them. *)
Theorem parsed_nodes_are_the_file_nodes
  (w : World) (files : list string) (tw : time_window)
  (focus_areas : option (list string)) (tr tr' : trace) (ld : log_data) :
  lists_sets w ->
  _parse_log_files w files tw focus_areas tr = (inr ld, tr') ->
  NoDup (nodes ld)
  /\ (forall n, In n (nodes ld)
                <-> exists f, In f files /\ _extract_node_name f = n)
  /\ List.length (nodes ld) <= List.length files
  /\ Forall (fun e => In (e_node e) (nodes ld)) (events ld)
  /\ Forall (fun e => In (err_node e) (nodes ld)) (errors ld).
Proof. apply parse_log_files_nodes. Qed.

Lemma parsed_nodes_are_the_file_nodes_witness :
  exists ld tr',
    _parse_log_files Scenario.world_12
      ["hbase_log/rs-ip-10-0-0-1.log"; "hbase_log/rs-ip-10-0-0-2.log";
       "hbase_log/missing-ip-10-0-0-1.log"]
      (window Scenario.noon Scenario.one_pm) None [] = (inr ld, tr')
    /\ NoDup (nodes ld) /\ List.length (nodes ld) <= 3
    /\ In "ip-10-0-0-2" (nodes ld).
Proof.
  assert (Hset : lists_sets Scenario.world_12)
    by (intros l _; apply Permutation_refl).
  pose proof (parse_log_files_run Scenario.world_12
                ["hbase_log/rs-ip-10-0-0-1.log"; "hbase_log/rs-ip-10-0-0-2.log";
                 "hbase_log/missing-ip-10-0-0-1.log"]
                (window Scenario.noon Scenario.one_pm) None []) as Hrun.
  eexists _, _. split; [exact Hrun|].
  destruct (parsed_nodes_are_the_file_nodes _ _ _ _ _ _ _ Hset Hrun)
    as (Hnd & Hin & Hlen & _).
  split; [exact Hnd|]. split; [exact Hlen|].
  apply Hin. exists "hbase_log/rs-ip-10-0-0-2.log".
  split; [simpl; auto | vm_compute; reflexivity].
Defined.

(** X8. Every event that [_parse_log_files] returns is backed by a line:
    a retained line of one of the files, whose stripped text, time and
    file node the event carries, and for which the detectors of a topic
    in the focus produce the event; the numbers it carries are not
    negative. *)
Theorem events_are_backed_by_lines
  (w : World) (files : list string) (tw : time_window)
  (focus_areas : option (list string)) (tr tr' : trace) (ld : log_data) :
  _parse_log_files w files tw focus_areas tr = (inr ld, tr') ->
  Forall (fun e =>
            (exists f line,
               In f files /\ In line (fst (read_lines w f))
               /\ line_time line = Some (e_timestamp e)
               /\ within (tw_start tw) (tw_end tw) (e_timestamp e)
               /\ e_node e = _extract_node_name f
               /\ e_line e = PyStr.strip line
               /\ In (e_kind e) (line_events None line))
            /\ enabled focus_areas (topic_of (e_kind e)) = true
            /\ Forall (fun v => (0 <= v)%Z) (numbers_of (e_kind e)))
         (events ld).
Proof.
  intros H.
  destruct (parse_log_files_closed w files tw focus_areas tr)
    as (ld' & H' & He & _).
  rewrite H in H'. inversion H'; subst ld'; clear H'.
  rewrite He. apply Forall_forall. intros e Hin.
  unfold per_file in Hin. apply in_flat_map in Hin.
  destruct Hin as (f & Hf & Hl).
  apply in_flat_map in Hl. destruct Hl as (line & Hline & Hl).
  unfold events_of_line in Hl.
  destruct (line_time line) as [t|] eqn:Et; [|destruct Hl].
  destruct (in_window tw t) eqn:Ew; [|destruct Hl].
  apply in_map_iff in Hl. destruct Hl as (k & <- & Hk). simpl.
  apply new_events_in in Hk.
  destruct (line_events_in _ _ _ Hk) as (topic & test & evs & Hd & Hen & Ht & Hkd).
  apply reached_in_read in Hline.
  split; [|split].
  - exists f, line. repeat split; auto;
      try (apply in_window_iff in Ew; apply Ew).
    now apply (in_line_events None line topic test evs).
  - now rewrite (step_topic topic test line evs k Hd Ht Hkd).
  - apply (step_numbers topic test line evs k Hd Ht Hkd).
Qed.

Lemma events_are_backed_by_lines_witness :
  exists ld tr',
    _parse_log_files SpecScenario.world_A [SpecScenario.log_path]
      (window Scenario.noon Scenario.one_pm) None [] = (inr ld, tr')
    /\ List.length (events ld) = 2
    /\ Forall (fun e => Forall (fun v => (0 <= v)%Z) (numbers_of (e_kind e)))
              (events ld).
Proof.
  pose proof (parse_log_files_run SpecScenario.world_A [SpecScenario.log_path]
                (window Scenario.noon Scenario.one_pm) None []) as Hrun.
  eexists _, _. split; [exact Hrun|].
  split; [vm_compute; reflexivity|].
  pose proof (events_are_backed_by_lines _ _ _ _ _ _ _ Hrun) as H.
  eapply Forall_impl; [|exact H]. intros e He. apply He.
Defined.

(* ================================================================== *)
(** * The selection of files *)

Lemma extract_target_dates_run tw tr :
  (date (tw_end tw) < MAX_ORDINAL)%Z ->
  _extract_target_dates tw tr
  = (inr (map (fun i => strftime_date (date (tw_start tw) + Z.of_nat i)%Z)
              (seq 0 (Z.to_nat (date (tw_end tw) - date (tw_start tw) + 1)))),
     tr).
Proof.
  intros H. unfold _extract_target_dates.
  destruct (date (tw_end tw) =? MAX_ORDINAL)%Z eqn:E.
  - apply Z.eqb_eq in E. lia.
  - now rewrite andb_false_r.
Qed.

Lemma in_target_dates tw d :
  In d (map (fun i => strftime_date (date (tw_start tw) + Z.of_nat i)%Z)
            (seq 0 (Z.to_nat (date (tw_end tw) - date (tw_start tw) + 1))))
  <-> exists day, day_in_window tw day /\ d = strftime_date day.
Proof.
  rewrite in_map_iff. unfold day_in_window. split.
  - intros (i & <- & Hi). apply in_seq in Hi.
    exists (date (tw_start tw) + Z.of_nat i)%Z. split; auto. lia.
  - intros (day & Hday & ->).
    exists (Z.to_nat (day - date (tw_start tw))). split.
    + f_equal. lia.
    + apply in_seq. lia.
Qed.

Lemma date_monotone (t u : datetime) : (t <= u)%Z -> (date t <= date u)%Z.
Proof.
  intros H. unfold date.
  assert (t / US_PER_DAY <= u / US_PER_DAY)%Z
    by (apply Z.div_le_mono; [reflexivity | exact H]).
  lia.
Qed.

(** X9. For a window that does not end on the last day of the calendar,
    [_extract_target_dates] returns, without any effect, the dates of
    the days from that of the start to that of the end, one for each
    day: none when the end day is before the start day, and among them
    the date of every instant of the window. *)
Theorem target_dates_cover_the_window (tw : time_window) (tr : trace) :
  (date (tw_end tw) < MAX_ORDINAL)%Z ->
  exists dates,
    _extract_target_dates tw tr = (inr dates, tr)
    /\ List.length dates
       = Z.to_nat (date (tw_end tw) - date (tw_start tw) + 1)
    /\ (forall d, In d dates
                  <-> exists day, day_in_window tw day
                                  /\ d = strftime_date day)
    /\ ((date (tw_end tw) < date (tw_start tw))%Z -> dates = [])
    /\ (forall t, within (tw_start tw) (tw_end tw) t ->
                  In (strftime_date (date t)) dates).
Proof.
  intros H. eexists. split; [apply extract_target_dates_run; exact H|].
  split; [|split; [|split]].
  - now rewrite length_map, length_seq.
  - apply in_target_dates.
  - intros Hlt.
    replace (Z.to_nat _) with 0 by lia. reflexivity.
  - intros t [H1 H2]. apply in_target_dates. exists (date t).
    split; auto. split; apply date_monotone; assumption.
Qed.

Lemma target_dates_cover_the_window_witness :
  exists dates,
    _extract_target_dates (window Scenario.noon Scenario.one_pm) []
    = (inr dates, [])
    /\ List.length dates = 1
    /\ In (strftime_date (date Scenario.noon)) dates.
Proof.
  assert (H : (date (tw_end (window Scenario.noon Scenario.one_pm))
               < MAX_ORDINAL)%Z) by (vm_compute; reflexivity).
  destruct (target_dates_cover_the_window
              (window Scenario.noon Scenario.one_pm) [] H)
    as (dates & Hrun & Hlen & _ & _ & Hin).
  exists dates. split; [exact Hrun|]. split.
  - rewrite Hlen. vm_compute. reflexivity.
  - apply Hin. unfold within. simpl.
    unfold Scenario.noon, Scenario.one_pm. lia.
Defined.

Lemma subseq_filter {A : Type} (p : A -> bool) (l : list A) :
  subseq (filter p l) l.
Proof.
  induction l as [|x l IH]; simpl; [apply subseq_nil|].
  destruct (p x); [apply subseq_keep | apply subseq_skip]; exact IH.
Qed.

Lemma subseq_trans {A : Type} (l1 l2 l3 : list A) :
  subseq l1 l2 -> subseq l2 l3 -> subseq l1 l3.
Proof.
  intros H12 H23. revert l1 H12.
  induction H23 as [|x l2 l3 H IH|x l2 l3 H IH]; intros l1 H12.
  - exact H12.
  - apply subseq_skip. now apply IH.
  - inversion H12; subst.
    + apply subseq_skip. now apply IH.
    + apply subseq_keep. now apply IH.
Qed.

Lemma mem_in x l : PyStr.mem x l = true <-> In x l.
Proof.
  unfold PyStr.mem. rewrite existsb_exists. split.
  - intros (y & Hy & E). apply String.eqb_eq in E. now subst.
  - intros H. exists x. split; auto. apply String.eqb_refl.
Qed.

Lemma is_file_relevant_iff tw f :
  _is_file_relevant_for_dates f
    (map (fun i => strftime_date (date (tw_start tw) + Z.of_nat i)%Z)
         (seq 0 (Z.to_nat (date (tw_end tw) - date (tw_start tw) + 1))))
  = true
  <-> names_day_of tw (PyStr.basename f)
      \/ undated_log (PyStr.basename f) = true.
Proof.
  unfold _is_file_relevant_for_dates, names_day_of, undated_log.
  set (dates := map _ _).
  assert (Hex : existsb (fun d => PyStr.contains d (PyStr.basename f)) dates
                = true
                <-> exists day, day_in_window tw day
                     /\ PyStr.contains (strftime_date day) (PyStr.basename f)
                        = true).
  { rewrite existsb_exists. split.
    - intros (d & Hd & Hc). apply in_target_dates in Hd.
      destruct Hd as (day & Hday & ->). eauto.
    - intros (day & Hday & Hc). exists (strftime_date day). split; auto.
      apply in_target_dates. eauto. }
  destruct (existsb _ dates) eqn:E.
  - split; auto. intros _. left. now apply Hex.
  - destruct (PyStr.endswith ".log" (PyStr.basename f)
              && negb (Re.matches Pat.DATE (PyStr.basename f))) eqn:El.
    + split; auto.
    + assert (Hno : ~ exists day, day_in_window tw day
                     /\ PyStr.contains (strftime_date day) (PyStr.basename f)
                        = true)
        by (intros Hd; apply Hex in Hd; discriminate).
      destruct (PyStr.endswith ".out" (PyStr.basename f));
        (split; [discriminate | intros [Hd|Hd]; [now elim Hno | discriminate]]).
Qed.

(** X10. [_filter_relevant_files] only leaves files out: what it returns
    is the given list with some files removed, the order kept.  For a
    window that does not end on the last day of the calendar, a file is
    kept exactly when its name carries the date of a day of the window
    or is that of a current log ([.log], no date in it), and, when a
    non-empty list of nodes is given, its node is in the list.  A name
    in [.out] without such a date is never kept. *)
Theorem filter_relevant_files_selects (log_files : list string)
  (tw : time_window) (target_nodes : option (list string)) (tr : trace) :
  (date (tw_end tw) < MAX_ORDINAL)%Z ->
  exists selected,
    _filter_relevant_files log_files tw target_nodes tr = (inr selected, tr)
    /\ subseq selected log_files
    /\ forall f, In f selected
                 <-> In f log_files
                     /\ (names_day_of tw (PyStr.basename f)
                         \/ undated_log (PyStr.basename f) = true)
                     /\ passes_node_filter target_nodes f.
Proof.
  intros H. unfold _filter_relevant_files, bind.
  rewrite (extract_target_dates_run tw tr H). unfold ret.
  eexists. split; [reflexivity|].
  set (dates := map _ _).
  set (dated := filter (fun f => _is_file_relevant_for_dates f dates)
                       log_files).
  assert (Hd : forall f, In f dated
                         <-> In f log_files
                             /\ (names_day_of tw (PyStr.basename f)
                                 \/ undated_log (PyStr.basename f) = true)).
  { intros f. unfold dated, dates.
    rewrite filter_In, (is_file_relevant_iff tw f). reflexivity. }
  destruct target_nodes as [[|n ns]|]; unfold passes_node_filter.
  - split; [apply subseq_filter|]. intros f. rewrite Hd. tauto.
  - split.
    + eapply subseq_trans; apply subseq_filter.
    + intros f. rewrite filter_In, Hd, mem_in. tauto.
  - split; [apply subseq_filter|]. intros f. rewrite Hd. tauto.
Qed.

Lemma filter_relevant_files_selects_witness :
  exists selected,
    _filter_relevant_files
      ["hbase_log/rs-ip-10-0-0-1.log"; "hbase_log/rs-ip-10-0-0-2.out";
       "hbase_log/rs-ip-10-0-0-2.log.2025-09-12-12.gz"]
      (window Scenario.noon Scenario.one_pm) (Some ["ip-10-0-0-2"]) []
    = (inr selected, [])
    /\ subseq selected
         ["hbase_log/rs-ip-10-0-0-1.log"; "hbase_log/rs-ip-10-0-0-2.out";
          "hbase_log/rs-ip-10-0-0-2.log.2025-09-12-12.gz"]
    /\ selected = ["hbase_log/rs-ip-10-0-0-2.log.2025-09-12-12.gz"].
Proof.
  assert (H : (date (tw_end (window Scenario.noon Scenario.one_pm))
               < MAX_ORDINAL)%Z) by (vm_compute; reflexivity).
  destruct (filter_relevant_files_selects
              ["hbase_log/rs-ip-10-0-0-1.log"; "hbase_log/rs-ip-10-0-0-2.out";
               "hbase_log/rs-ip-10-0-0-2.log.2025-09-12-12.gz"]
              (window Scenario.noon Scenario.one_pm)
              (Some ["ip-10-0-0-2"]) [] H)
    as (selected & Hrun & Hsub & _).
  exists selected. split; [exact Hrun|]. split; [exact Hsub|].
  assert (E : _filter_relevant_files
      ["hbase_log/rs-ip-10-0-0-1.log"; "hbase_log/rs-ip-10-0-0-2.out";
       "hbase_log/rs-ip-10-0-0-2.log.2025-09-12-12.gz"]
      (window Scenario.noon Scenario.one_pm) (Some ["ip-10-0-0-2"]) []
      = (inr ["hbase_log/rs-ip-10-0-0-2.log.2025-09-12-12.gz"], []))
    by (vm_compute; reflexivity).
  rewrite E in Hrun. now inversion Hrun.
Defined.

(* ================================================================== *)
(** * The log analysis from end to end *)

Lemma discover_run w log_dir tr :
  _discover_log_files w log_dir tr
  = if path_exists w log_dir
    then (inr (flat_map
                 (fun d => map (PyStr.path_join (fst d))
                               (filter is_log_name (snd d)))
                 (walk w log_dir)),
          tr ++ [Exists log_dir; Walk log_dir])
    else (inr [], tr ++ [Exists log_dir]).
Proof.
  unfold _discover_log_files, os_path_exists, bind, emit, ret.
  destruct (path_exists w log_dir); simpl; [|reflexivity].
  now rewrite <- app_assoc.
Qed.

Lemma discover_discovered w log_dir f :
  In f (flat_map (fun d => map (PyStr.path_join (fst d))
                               (filter is_log_name (snd d)))
                 (walk w log_dir))
  -> discovered w log_dir f.
Proof.
  intros H. apply in_flat_map in H. destruct H as ([root names] & Hd & Hf).
  apply in_map_iff in Hf. destruct Hf as (name & <- & Hn).
  apply filter_In in Hn. destruct Hn as [Hn Hl].
  now exists root, names, name.
Qed.

(** [_parse_time_window] does not depend on what happened before it,
    and reads at most the clock. *)
Lemma parse_time_window_frame w s e tr :
  _parse_time_window w s e tr
  = (fst (run (_parse_time_window w s e)),
     tr ++ snd (run (_parse_time_window w s e)))
  /\ (snd (run (_parse_time_window w s e)) = []
      \/ snd (run (_parse_time_window w s e)) = [Clock]).
Proof.
  unfold run, _parse_time_window.
  destruct (given s) as [s'|].
  - destruct (given e) as [e'|].
    + unfold bind, or_raise, ret, raise.
      destruct (strptime s'); [destruct (strptime e')|]; simpl;
        rewrite app_nil_r; auto.
    + unfold bind, or_raise, ret, raise.
      destruct (strptime s') as [t|]; [destruct (add t (hours 1))|]; simpl;
        rewrite app_nil_r; auto.
  - unfold bind, or_raise, emit, ret, raise.
    destruct (add (now w) (- hours 1)%Z); simpl; auto.
Qed.

Lemma filter_relevant_files_inr files tw target_nodes tr sel tr' :
  _filter_relevant_files files tw target_nodes tr = (inr sel, tr') ->
  tr' = tr /\ subseq sel files.
Proof.
  unfold _filter_relevant_files, _extract_target_dates, bind, ret, raise.
  destruct (_ && _); [discriminate|].
  intros H. inversion H; subst; clear H. split; auto.
  destruct target_nodes as [[|n ns]|];
    try apply subseq_filter.
  eapply subseq_trans; apply subseq_filter.
Qed.

Lemma Forall_subseq {A : Type} (P : A -> Prop) (l1 l2 : list A) :
  subseq l1 l2 -> Forall P l2 -> Forall P l1.
Proof.
  intros H. induction H; intros HF; auto.
  - inversion HF; auto.
  - inversion HF; subst. constructor; auto.
Qed.

(** X11. When the call of [analyze_hbase_logs] returns a document, the
    files it opened are those it selected, in order and after every
    other effect; each of them was listed by the walk of the log
    directory under the name of a log; [files_processed] is their
    number, whether or not they could be read; and [total_entries] is
    the number of the lines that carry a timestamp of the window among
    those the parser reaches in these files: in each file, the lines up
    to the first of them whose parse raises, and so every line read
    when no such parse raises. *)
Theorem analysis_opens_the_selected_files (w : World) (log_dir : string)
  (start_time end_time : option string)
  (focus_areas target_nodes : option (list string))
  (r : log_result) (tr : trace) :
  run (analyze_hbase_logs w log_dir start_time end_time focus_areas
         target_nodes) = (inr r, tr) ->
  exists before files,
    tr = before ++ map Open files
    /\ existsb opens_file before = false
    /\ files_processed r = List.length files
    /\ Forall (discovered w log_dir) files
    /\ r_total_entries r
       = List.length (filter (retained (analysis_window r))
                             (reached_lines w (analysis_window r)
                                focus_areas files))
    /\ ((forall f line,
           In f files -> In line (fst (read_lines w f)) ->
           retained (analysis_window r) line = true ->
           converts focus_areas line) ->
        r_total_entries r
        = List.length
            (filter (retained (analysis_window r))
                    (flat_map (fun f => fst (read_lines w f)) files))).
Proof.
  unfold run, analyze_hbase_logs. intros H.
  apply bind_inr in H. destruct H as (found & tr1 & Hfound & H).
  apply bind_inr in H. destruct H as (tw & tr2 & Htw & H).
  apply bind_inr in H. destruct H as (files & tr3 & Hsel & H).
  apply bind_inr in H. destruct H as (ld & tr4 & Hld & H).
  apply ret_inr in H. destruct H as [<- <-].
  apply filter_relevant_files_inr in Hsel. destruct Hsel as [-> Hsub].
  destruct (parse_log_files_closed w files tw focus_areas tr2)
    as (ld' & Hld' & _ & _ & Htotal).
  rewrite Hld in Hld'. inversion Hld'; subst; clear Hld'.
  exists tr2, files. cbn [files_processed r_total_entries analysis_window].
  split; [reflexivity|].
  split; [|split; [reflexivity|split; [|split; [exact Htotal|]]]].
  3:{ intros Hconv. rewrite Htotal. do 2 f_equal.
      now apply reached_lines_all. }
  - destruct (parse_time_window_frame w start_time end_time tr1)
      as [Hframe Hclock].
    rewrite Htw in Hframe.
    assert (Htr2 : tr2 = tr1 ++ snd (run (_parse_time_window w start_time
                                             end_time)))
      by (now inversion Hframe).
    rewrite Htr2. rewrite discover_run in Hfound.
    destruct (path_exists w log_dir); inversion Hfound; subst tr1;
      destruct Hclock as [E | E]; rewrite E; reflexivity.
  - apply (Forall_subseq _ _ _ Hsub). apply Forall_forall. intros f Hf.
    rewrite discover_run in Hfound.
    destruct (path_exists w log_dir); inversion Hfound; subst.
    + now apply discover_discovered.
    + destruct Hf.
Qed.

Lemma analysis_opens_the_selected_files_witness :
  exists r tr before files,
    run (analyze_hbase_logs Scenario.world_12 "hbase_log"
           (Some "2025-09-12 12:00:00") (Some "2025-09-12 13:00:00")
           None None) = (inr r, tr)
    /\ tr = before ++ map Open files
    /\ files_processed r = List.length files
    /\ files_processed r = 2.
Proof.
  destruct (run (analyze_hbase_logs Scenario.world_12 "hbase_log"
                   (Some "2025-09-12 12:00:00") (Some "2025-09-12 13:00:00")
                   None None)) as [[e|r] tr] eqn:E;
    [vm_compute in E; discriminate|].
  destruct (analysis_opens_the_selected_files _ _ _ _ _ _ _ _ E)
    as (before & files & Htr & _ & Hn & _).
  exists r, tr, before, files. split; [reflexivity|].
  split; [exact Htr|]. split; [exact Hn|].
  vm_compute in E. inversion E. reflexivity.
Defined.

Lemma filter_relevant_files_nil tw target_nodes tr :
  (date (tw_end tw) < MAX_ORDINAL)%Z ->
  _filter_relevant_files [] tw target_nodes tr = (inr [], tr).
Proof.
  intros H. unfold _filter_relevant_files, bind.
  rewrite (extract_target_dates_run tw tr H). unfold ret.
  now destruct target_nodes as [[|n ns]|].
Qed.

(** X12. With no log directory, and a window that can be formed and does
    not end on the last day of the calendar, [analyze_hbase_logs]
    returns a document for that window with no file, no entry, no
    event, no error, no anomaly and no performance issue; it has only
    tested the directory and, without a start time, read the clock: it
    walks nothing and opens nothing. *)
Theorem missing_log_directory_gives_empty_document (w : World)
  (log_dir : string) (start_time end_time : option string)
  (focus_areas target_nodes : option (list string))
  (tw : time_window) (clock : trace) :
  path_exists w log_dir = false ->
  run (_parse_time_window w start_time end_time) = (inr tw, clock) ->
  (date (tw_end tw) < MAX_ORDINAL)%Z ->
  exists r,
    run (analyze_hbase_logs w log_dir start_time end_time focus_areas
           target_nodes) = (inr r, Exists log_dir :: clock)
    /\ (clock = [] \/ clock = [Clock])
    /\ analysis_window r = tw
    /\ files_processed r = 0
    /\ r_total_entries r = 0
    /\ r_events_summary r = TypeSummary 0 [] None
    /\ r_error_summary r = TypeSummary 0 [] None
    /\ r_anomalies r = []
    /\ r_performance_issues r = [].
Proof.
  intros Hdir Htw Hend.
  destruct (parse_time_window_frame w start_time end_time [Exists log_dir])
    as [Hframe Hclock].
  rewrite Htw in Hframe, Hclock. cbn [fst snd] in Hframe, Hclock.
  pose proof (filter_relevant_files_nil tw target_nodes
                (Exists log_dir :: clock) Hend) as Hsel.
  unfold run, analyze_hbase_logs, bind.
  rewrite discover_run, Hdir. cbn [app].
  rewrite Hframe. cbn [app]. rewrite Hsel.
  rewrite parse_log_files_run. cbn [map fold_left]. rewrite app_nil_r.
  eexists. split; [reflexivity|].
  split; [exact Hclock|]. repeat split; reflexivity.
Qed.

Lemma missing_log_directory_gives_empty_document_witness :
  exists r,
    run (analyze_hbase_logs SpecScenario.world_D "hbase_log" None None
           (Some ["wal"]) None)
    = (inr r, [Exists "hbase_log"; Clock])
    /\ files_processed r = 0 /\ r_anomalies r = [].
Proof.
  assert (Htw : run (_parse_time_window SpecScenario.world_D None None)
                = (inr (window (Scenario.one_pm - hours 1)%Z Scenario.one_pm),
                   [Clock])) by (vm_compute; reflexivity).
  assert (Hend : (date (tw_end (window (Scenario.one_pm - hours 1)%Z
                                       Scenario.one_pm)) < MAX_ORDINAL)%Z)
    by (vm_compute; reflexivity).
  destruct (missing_log_directory_gives_empty_document SpecScenario.world_D
              "hbase_log" None None (Some ["wal"]) None _ _
              eq_refl Htw Hend)
    as (r & Hrun & _ & _ & Hn & _ & _ & _ & Ha & _).
  exists r. split; [exact Hrun|]. split; assumption.
Defined.

(* ================================================================== *)
(** * What the metrics loader keeps *)

Lemma filter_metrics_parallel w ts vs s e d :
  _filter_metrics_by_time w ts vs s e = Some d ->
  List.length (timestamps d) = List.length (values d)
  /\ count d = List.length (values d).
Proof.
  unfold _filter_metrics_by_time.
  destruct (filter_points w ts vs s e [] []) as [[ot ov]|] eqn:E;
    [|discriminate].
  intros H. inversion H; subst; clear H. simpl.
  apply filter_points_spec in E; [|reflexivity]. now destruct E.
Qed.

Lemma in_keys_set {V : Type} k (v : V) d k' :
  In k' (ODict.keys (ODict.set k v d)) <-> k' = k \/ In k' (ODict.keys d).
Proof.
  induction d as [|[k0 v0] d IH]; simpl.
  - intuition.
  - destruct (String.eqb k k0) eqn:E; simpl.
    + apply String.eqb_eq in E. subst k0. intuition.
    + rewrite IH. intuition.
Qed.

(** One series keeps the loader's invariant, and a node it adds is the
    one it names. *)
Lemma load_one_well_loaded w s e md sr md' (P : string -> Prop) :
  load_one w s e md sr = Some md' ->
  (forall node, _extract_node_from_series_name (sname sr) = Some node ->
                P node) ->
  well_loaded md /\ Forall P (md_nodes md) ->
  well_loaded md' /\ Forall P (md_nodes md').
Proof.
  unfold load_one. intros E HP Hmd.
  destruct (_extract_node_from_series_name (sname sr)) as [node_name|];
    [|inversion E; subst; auto].
  destruct (last_field "time" (sfields sr)) as [tf|];
    [|inversion E; subst; auto].
  destruct (last_field "number" (sfields sr)) as [vf|];
    [|inversion E; subst; auto].
  destruct (_filter_metrics_by_time w (fvalues tf) (fvalues vf) s e)
    as [fd|] eqn:F; [|discriminate].
  destruct (timestamps fd) as [|t0 ts0] eqn:Et; inversion E; subst; auto.
  destruct Hmd as [(Hwf & Hpar & Hnodes) HF]. unfold well_loaded. simpl.
  split; [split; [|split]|].
  - now apply ODictFacts.wf_set.
  - intros node d Hin. apply in_set in Hin. destruct Hin as [Hin|Hin].
    + inversion Hin; subst. destruct (filter_metrics_parallel _ _ _ _ _ _ F).
      split; [|split]; auto. rewrite Et. discriminate.
    + eapply Hpar; eauto.
  - intros node. rewrite in_app_iff, in_keys_set, Hnodes. simpl. intuition.
  - apply Forall_app. split; auto.
Qed.

Lemma load_series_well_loaded w s e (P : string -> Prop) l : forall md,
  (forall sr node, In sr l ->
     _extract_node_from_series_name (sname sr) = Some node -> P node) ->
  well_loaded md /\ Forall P (md_nodes md) ->
  well_loaded (load_series w l s e md)
  /\ Forall P (md_nodes (load_series w l s e md)).
Proof.
  induction l as [|sr l IH]; intros md HP Hmd; simpl; auto.
  destruct (load_one w s e md sr) as [md'|] eqn:E; auto.
  apply IH.
  - intros sr' node Hin. apply HP. now right.
  - eapply load_one_well_loaded; eauto. intros node. apply HP. now left.
Qed.

Lemma well_loaded_empty (r : option time_range) :
  well_loaded (MetricsData [] [] r).
Proof.
  split; [constructor|]. split; [intros ? ? []|]. intros node. reflexivity.
Qed.

Lemma load_metrics_data_well_loaded w metrics_dir target hours_range tr md tr' :
  _load_metrics_data w metrics_dir target hours_range tr = (inr md, tr') ->
  well_loaded md
  /\ Forall (named_by_series w (PyStr.path_join metrics_dir "download.json"))
            (md_nodes md).
Proof.
  unfold _load_metrics_data. intros H.
  apply bind_inr in H. destruct H as (present & tr1 & _ & H).
  destruct (negb present).
  - apply ret_inr in H. destruct H as [<- _].
    split; [apply well_loaded_empty | constructor].
  - apply bind_inr in H. destruct H as (bounds & tr2 & _ & H).
    unfold load_document in H.
    apply bind_inr in H. destruct H as (found & tr3 & _ & H).
    destruct found.
    + apply bind_inr in H. destruct H as (u & tr4 & _ & H).
      apply ret_inr in H. destruct H as [<- _].
      destruct (json_load w _) as [data|] eqn:Ej;
        [|split; [apply well_loaded_empty | constructor]].
      destruct (dseries data) as [l|] eqn:Es;
        [|split; [apply well_loaded_empty | constructor]].
      apply load_series_well_loaded.
      * intros sr node Hin Hn. now exists data, l, sr.
      * split; [apply well_loaded_empty | constructor].
    + apply ret_inr in H. destruct H as [<- _].
      split; [apply well_loaded_empty | constructor].
Qed.

(** X13. What [_load_metrics_data] returns holds one entry for a node;
    every entry has at least one point, as many timestamps as values,
    and [count] that many; [nodes] lists exactly the nodes that have an
    entry; and each of them is named by a series of [download.json]. *)
Theorem loaded_metrics_are_well_formed (w : World) (metrics_dir : string)
  (target_time : option string) (hours_range : Z) (tr tr' : trace)
  (md : metrics_data) :
  _load_metrics_data w metrics_dir target_time hours_range tr = (inr md, tr') ->
  ODict.wf (handler_metrics md)
  /\ (forall node d, In (node, d) (handler_metrics md) ->
        timestamps d <> []
        /\ List.length (timestamps d) = List.length (values d)
        /\ count d = List.length (values d))
  /\ (forall node, In node (md_nodes md)
                   <-> In node (ODict.keys (handler_metrics md)))
  /\ Forall (named_by_series w (PyStr.path_join metrics_dir "download.json"))
            (md_nodes md).
Proof.
  intros H. apply load_metrics_data_well_loaded in H.
  destruct H as [(Hwf & Hpar & Hnodes) Hnamed]. repeat split; auto;
    try (now apply (Hpar node d)); now apply Hnodes.
Qed.

Lemma loaded_metrics_are_well_formed_witness :
  exists md tr',
    _load_metrics_data MetricsScenario.metrics_world "hbase_metrics"
      (Some "2025-09-12 12:00:00") 1 [] = (inr md, tr')
    /\ md_nodes md = ["ip-10-0-0-2"]
    /\ ODict.wf (handler_metrics md).
Proof.
  destruct (_load_metrics_data MetricsScenario.metrics_world "hbase_metrics"
              (Some "2025-09-12 12:00:00") 1 []) as [[e|md] tr'] eqn:E;
    [vm_compute in E; discriminate|].
  exists md, tr'. split; [reflexivity|]. split.
  - vm_compute in E. inversion E. reflexivity.
  - apply (loaded_metrics_are_well_formed _ _ _ _ _ _ _ E).
Defined.

(** X14. With no metrics directory [analyze_hbase_metrics] returns a
    document without data, whatever the target time, well formed or
    not: nothing is analysed, no anomaly, no bottleneck, no trend, the
    summary has no part, and the only effect is the test of the
    directory. *)
Theorem missing_metrics_directory_gives_empty_document (w : World)
  (metrics_dir : string) (target_time : option string) (hours_range : Z)
  (metric_types : option (list string)) :
  path_exists w metrics_dir = false ->
  run (analyze_hbase_metrics w metrics_dir target_time hours_range
         metric_types)
  = (inr {| m_target_time := target_time;
            m_hours_range := hours_range;
            metrics_summary := MetricsAnalysis [] None None;
            m_anomalies := [];
            performance_bottlenecks := [];
            trends := None;
            m_summary := [] |},
     [Exists metrics_dir]).
Proof.
  intros H.
  unfold run, analyze_hbase_metrics, _load_metrics_data, os_path_exists,
    bind, emit, ret.
  rewrite H. reflexivity.
Qed.

Lemma missing_metrics_directory_gives_empty_document_witness :
  exists r,
    run (analyze_hbase_metrics SpecScenario.world_D "hbase_metrics"
           (Some "not a time") 72 None)
    = (inr r, [Exists "hbase_metrics"])
    /\ m_anomalies r = [] /\ trends r = None.
Proof.
  eexists. split.
  - apply (missing_metrics_directory_gives_empty_document
             SpecScenario.world_D "hbase_metrics" (Some "not a time") 72%Z None).
    reflexivity.
  - split; reflexivity.
Defined.

(* ================================================================== *)
(** * Node statistics and node anomalies *)

Section Extremes.
Local Open Scope Q_scope.













End Extremes.
















(* ================================================================== *)
(** * Bottlenecks *)

Lemma severity_eqb_eq a b : severity_eqb a b = true <-> a = b.
Proof. destruct a, b; simpl; split; congruence. Qed.

Lemma filter_nonempty_iff {A : Type} (p : A -> bool) (l : list A) :
  filter p l <> [] <-> exists x, In x l /\ p x = true.
Proof.
  split.
  - destruct (filter p l) as [|x r] eqn:E; [congruence|]. intros _.
    exists x. apply filter_In. rewrite E. now left.
  - intros (x & Hx & Hp) E.
    assert (H : In x (filter p l)) by (apply filter_In; auto).
    rewrite E in H. destruct H.
Qed.

(** X17. [_identify_performance_bottlenecks] reports at most two
    bottlenecks: [handler_capacity], critical, exactly when an anomaly
    is critical, and after it [resource_pressure], high, exactly when an
    anomaly is high; each lists the nodes of its anomalies in their
    order, [cluster] for one without a node.  Anomalies of medium
    severity never count: without them the result is the same. *)
Theorem bottlenecks_follow_severity (a : metrics_analysis)
  (anoms : list metric_anomaly) :
  let of_severity s :=
    filter (fun x => severity_eqb (ma_severity x) s) anoms in
  _identify_performance_bottlenecks a anoms
  = (if existsb (fun x => severity_eqb (ma_severity x) critical) anoms
     then [Bottleneck "handler_capacity" critical
             (map component (of_severity critical))
             "severe_performance_degradation"]
     else [])
    ++ (if existsb (fun x => severity_eqb (ma_severity x) high) anoms
        then [Bottleneck "resource_pressure" high
                (map component (of_severity high)) "performance_degradation"]
        else [])
  /\ ((exists b, In b (_identify_performance_bottlenecks a anoms)
                 /\ b_type b = "handler_capacity")
      <-> exists x, In x anoms /\ ma_severity x = critical)
  /\ ((exists b, In b (_identify_performance_bottlenecks a anoms)
                 /\ b_type b = "resource_pressure")
      <-> exists x, In x anoms /\ ma_severity x = high)
  /\ List.length (_identify_performance_bottlenecks a anoms) <= 2
  /\ _identify_performance_bottlenecks a anoms
     = _identify_performance_bottlenecks a
         (filter (fun x => negb (severity_eqb (ma_severity x) medium)) anoms).
Proof.
  intros of_severity.
  assert (Hex : forall s,
             existsb (fun x => severity_eqb (ma_severity x) s) anoms
             = match of_severity s with [] => false | _ :: _ => true end).
  { intros s. unfold of_severity.
    induction anoms as [|x l IH]; simpl; auto.
    destruct (severity_eqb (ma_severity x) s); simpl; auto. }
  assert (Hclosed : _identify_performance_bottlenecks a anoms
    = (if existsb (fun x => severity_eqb (ma_severity x) critical) anoms
       then [Bottleneck "handler_capacity" critical
               (map component (of_severity critical))
               "severe_performance_degradation"]
       else [])
      ++ (if existsb (fun x => severity_eqb (ma_severity x) high) anoms
          then [Bottleneck "resource_pressure" high
                  (map component (of_severity high)) "performance_degradation"]
          else [])).
  { rewrite !Hex. unfold _identify_performance_bottlenecks. fold (of_severity critical).
    fold (of_severity high).
    destruct (of_severity critical), (of_severity high); reflexivity. }
  assert (Hsev : forall s,
             existsb (fun x => severity_eqb (ma_severity x) s) anoms = true
             <-> exists x, In x anoms /\ ma_severity x = s).
  { intros s. rewrite existsb_exists. split; intros (x & Hx & Hs); exists x;
      (split; [exact Hx | now apply severity_eqb_eq]). }
  split; [exact Hclosed|]. rewrite Hclosed.
  split; [|split; [|split]].
  - rewrite <- Hsev. split.
    + intros (b & Hb & Tb).
      destruct (existsb _ anoms); auto.
      destruct (existsb _ anoms); simpl in Hb; [|destruct Hb].
      destruct Hb as [<-|[]]. discriminate.
    + intros E. rewrite E. eexists. split; [now left|reflexivity].
  - rewrite <- Hsev. split.
    + intros (b & Hb & Tb).
      destruct (existsb (fun x => severity_eqb (ma_severity x) high) anoms);
        auto.
      rewrite app_nil_r in Hb.
      destruct (existsb _ anoms); simpl in Hb; [|destruct Hb].
      destruct Hb as [<-|[]]. discriminate.
    + intros E. rewrite E. eexists.
      split; [apply in_or_app; right; now left | reflexivity].
  - destruct (existsb _ anoms), (existsb _ anoms); simpl; lia.
  - rewrite <- Hclosed. unfold _identify_performance_bottlenecks.
    assert (Hf : forall s, s <> medium ->
              filter (fun x => severity_eqb (ma_severity x) s)
                (filter (fun x => negb (severity_eqb (ma_severity x) medium))
                        anoms)
              = filter (fun x => severity_eqb (ma_severity x) s) anoms).
    { intros s Hs. clear - Hs. revert Hs.
      induction anoms as [|x l IH]; intros Hs; simpl; auto.
      destruct (severity_eqb (ma_severity x) medium) eqn:Em; simpl.
      - apply severity_eqb_eq in Em. rewrite Em.
        destruct s; try congruence; simpl; now apply IH.
      - destruct (severity_eqb (ma_severity x) s); now rewrite IH. }
    rewrite !Hf by discriminate. reflexivity.
Qed.

(* ================================================================== *)
(** * From loading to analysis *)

Lemma analyzed_all (hm : ODict.t node_data) :
  (forall node d, In (node, d) hm -> values d <> []) -> analyzed hm = hm.
Proof.
  unfold analyzed. induction hm as [|[k d] hm IH]; intros H; simpl; auto.
  destruct (values d) eqn:E.
  - exfalso. apply (H k d); [now left | exact E].
  - f_equal. apply IH. intros node d' Hin. apply (H node d'). now right.
Qed.

Lemma parallel_values d : parallel d -> values d <> [].
Proof.
  intros (Hne & Hlen & _) E. rewrite E in Hlen.
  destruct (timestamps d); [congruence | discriminate].
Qed.




(* ================================================================== *)
(** * WAL performance *)









(* ================================================================== *)
(** * The metrics document *)

Lemma analysis_of_loaded_data md mt :
  well_loaded md -> handler_metrics md <> [] ->
  node_analysis (_analyze_metrics_comprehensive md mt) <> []
  /\ exists c, cluster_summary (_analyze_metrics_comprehensive md mt) = Some c.
Proof.
  intros (Hwf & Hpar & _) Hne. unfold _analyze_metrics_comprehensive.
  destruct (handler_metrics md) as [|[k d] hm] eqn:E; [congruence|].
  rewrite <- E in *. cbn [node_analysis cluster_summary].
  assert (Hvals : forall node d, In (node, d) (handler_metrics md) ->
                                 values d <> [])
    by (intros node d' Hin; apply parallel_values; eauto).
  split.
  - rewrite (analyze_nodes_map _ Hwf), analyzed_all by assumption.
    rewrite E. discriminate.
  - assert (Hd : values d <> []) by (apply (Hvals k); rewrite E; now left).
    assert (Hpool : pooled_values (handler_metrics md) <> []).
    { rewrite E. unfold pooled_values. simpl.
      destruct (values d); [congruence | discriminate]. }
    destruct (pooled_values (handler_metrics md)); [congruence|].
    eexists. reflexivity.
Qed.

(** X21. In the document of [analyze_hbase_metrics] the summary has no
    part (it then reads as the text for missing data) exactly when no
    node was analysed; the document then has no anomaly, no bottleneck
    and no trend either. *)
Theorem metrics_summary_empty_iff_no_node (w : World) (metrics_dir : string)
  (target_time : option string) (hours_range : Z)
  (metric_types : option (list string)) (r : metrics_result) (tr : trace) :
  run (analyze_hbase_metrics w metrics_dir target_time hours_range
         metric_types) = (inr r, tr) ->
  (m_summary r = [] <-> node_analysis (metrics_summary r) = [])
  /\ (m_summary r = [] ->
      m_anomalies r = [] /\ performance_bottlenecks r = []
      /\ trends r = None).
Proof.
  unfold run, analyze_hbase_metrics. intros H.
  apply bind_inr in H. destruct H as (md & tr1 & Hload & H).
  apply ret_inr in H. destruct H as [<- _].
  cbn [m_summary metrics_summary m_anomalies performance_bottlenecks trends].
  apply load_metrics_data_well_loaded in Hload. destruct Hload as [Hwl _].
  destruct (handler_metrics md) as [|e hm] eqn:E.
  - assert (Ha : _analyze_metrics_comprehensive md metric_types
                 = MetricsAnalysis [] None None)
      by (unfold _analyze_metrics_comprehensive; now rewrite E).
    rewrite Ha.
    assert (Ht : _analyze_performance_trends md = None)
      by (unfold _analyze_performance_trends; now rewrite E).
    rewrite Ht. split; [split; reflexivity|]. intros _. repeat split.
  - destruct (analysis_of_loaded_data md metric_types Hwl) as [Hn [c Hc]];
      [rewrite E; discriminate|].
    assert (Hs : _generate_metrics_summary
                   (_analyze_metrics_comprehensive md metric_types)
                   (_detect_metrics_anomalies_comprehensive md
                      (_analyze_metrics_comprehensive md metric_types))
                 <> [])
      by (unfold _generate_metrics_summary; rewrite Hc; discriminate).
    split; [split; intros H; congruence|]. intros H. congruence.
Qed.

Lemma metrics_summary_empty_iff_no_node_witness :
  exists r tr,
    run (analyze_hbase_metrics MetricsScenario.metrics_world "hbase_metrics"
           (Some "2025-09-12 12:00:00") 1 None) = (inr r, tr)
    /\ m_summary r <> []
    /\ node_analysis (metrics_summary r) <> [].
Proof.
  destruct (run (analyze_hbase_metrics MetricsScenario.metrics_world
                   "hbase_metrics" (Some "2025-09-12 12:00:00") 1 None))
    as [[e|r] tr] eqn:E; [vm_compute in E; discriminate|].
  exists r, tr. split; [reflexivity|].
  destruct (metrics_summary_empty_iff_no_node _ _ _ _ _ _ _ E) as [Hiff _].
  assert (Hn : node_analysis (metrics_summary r) <> [])
    by (vm_compute in E; inversion E; discriminate).
  split; [|exact Hn]. intros Hs. apply Hn. now apply Hiff.
Defined.

(* ================================================================== *)
(** * Windows that end before they start *)

Lemma in_window_inverted tw t :
  (tw_end tw < tw_start tw)%Z -> in_window tw t = false.
Proof.
  intros H. destruct (in_window tw t) eqn:E; auto.
  apply in_window_iff in E. unfold within in E. lia.
Qed.

Lemma flat_map_all_nil {A B : Type} (f : A -> list B) (l : list A) :
  (forall x, f x = []) -> flat_map f l = [].
Proof.
  intros H. induction l as [|x l IH]; simpl; auto. now rewrite H, IH.
Qed.

Lemma retained_inverted tw (l : list string) :
  (tw_end tw < tw_start tw)%Z -> filter (retained tw) l = [].
Proof.
  intros H. induction l as [|line l IH]; simpl; auto.
  unfold retained at 1. destruct (line_time line); auto.
  now rewrite in_window_inverted.
Qed.

(** X22. A window whose end is before its start retains nothing: the
    parser still opens every file it is given and lists their nodes,
    but it counts no entry and returns no event and no error record. *)
Theorem inverted_window_retains_nothing (w : World) (files : list string)
  (tw : time_window) (focus_areas : option (list string)) (tr : trace) :
  (tw_end tw < tw_start tw)%Z ->
  exists ld,
    _parse_log_files w files tw focus_areas tr
    = (inr ld, tr ++ map Open files)
    /\ total_entries ld = 0 /\ events ld = [] /\ errors ld = [].
Proof.
  intros H.
  destruct (parse_log_files_closed w files tw focus_areas tr)
    as (ld & Hrun & He & Hr & Ht).
  exists ld. split; [exact Hrun|]. split; [|split].
  - rewrite Ht. now rewrite retained_inverted.
  - rewrite He. unfold per_file. apply flat_map_all_nil. intros f.
    apply flat_map_all_nil. intros line. unfold events_of_line.
    destruct (line_time line); auto. now rewrite in_window_inverted.
  - rewrite Hr. unfold per_file. apply flat_map_all_nil. intros f.
    apply flat_map_all_nil. intros line. unfold errors_of_line.
    destruct (line_time line); auto. now rewrite in_window_inverted.
Qed.

Lemma inverted_window_retains_nothing_witness :
  exists ld,
    _parse_log_files SpecScenario.world_A [SpecScenario.log_path]
      (window Scenario.one_pm Scenario.noon) None []
    = (inr ld, [Open SpecScenario.log_path])
    /\ total_entries ld = 0 /\ events ld = [] /\ errors ld = [].
Proof.
  apply (inverted_window_retains_nothing SpecScenario.world_A
           [SpecScenario.log_path] (window Scenario.one_pm Scenario.noon)
           None []).
  vm_compute. reflexivity.
Defined.

Lemma filter_metrics_within w ts vs s e d :
  _filter_metrics_by_time w ts vs s e = Some d ->
  Forall (within s e) (timestamps d).
Proof.
  unfold _filter_metrics_by_time.
  destruct (filter_points w ts vs s e [] []) as [[ot ov]|] eqn:E;
    [|discriminate].
  intros H. inversion H; subst; clear H. simpl.
  apply filter_points_spec in E; [|reflexivity]. destruct E as [Hlen Hc].
  simpl in Hc. apply Forall_forall. intros t Hin.
  destruct (in_combine_fst ot ov t Hlen Hin) as [y Hy].
  rewrite Hc in Hy. now apply points_within_bounds in Hy.
Qed.

(** X23. With a target time and a negative [hours_range] the window
    ends before it starts and the loader loads no node at all. *)
Theorem negative_hours_range_loads_nothing (w : World) (metrics_dir : string)
  (target : string) (start_time : datetime) (hours_range : Z)
  (tr tr' : trace) (md : metrics_data) :
  target <> EmptyString ->
  strptime target = Some start_time ->
  (hours_range < 0)%Z ->
  _load_metrics_data w metrics_dir (Some target) hours_range tr
  = (inr md, tr') ->
  md_nodes md = [] /\ handler_metrics md = [].
Proof.
  intros Hne Hparse Hneg Hload.
  pose proof (load_metrics_data_well_loaded _ _ _ _ _ _ _ Hload)
    as [(_ & Hpar & Hnodes) _].
  assert (Hlw : exists end_time,
             (end_time < start_time)%Z
             /\ loaded_within w start_time end_time md).
  { unfold _load_metrics_data in Hload.
    apply bind_inr in Hload. destruct Hload as (present & tr1 & _ & H).
    destruct (negb present).
    - apply ret_inr in H. destruct H as [<- _].
      exists (start_time - 1)%Z. split; [lia|]. intros ? ? [].
    - apply bind_inr in H. destruct H as (bounds & tr2 & Hb & H).
      unfold metrics_bounds in Hb. rewrite (given_some _ Hne) in Hb.
      apply bind_inr in Hb. destruct Hb as (s & tr3 & Hs & Hb).
      apply or_raise_inr in Hs. destruct Hs as [Hs ->].
      rewrite Hparse in Hs. inversion Hs; subst s; clear Hs.
      apply bind_inr in Hb. destruct Hb as (e & tr4 & He & Hb).
      apply or_raise_inr in He. destruct He as [He ->].
      apply add_some in He. apply ret_inr in Hb. destruct Hb as [<- ->].
      cbn [fst snd] in H.
      destruct (load_document_returns w metrics_dir (Some target) hours_range
                  start_time e tr1) as (md' & tr'' & Heq & _ & Hl).
      rewrite H in Heq. inversion Heq; subst md' tr''.
      exists e. split; [|exact Hl].
      subst e. unfold hours, US_PER_HOUR, US_PER_SECOND. lia. }
  destruct Hlw as (end_time & Hlt & Hlw).
  assert (Hm : handler_metrics md = []).
  { destruct (handler_metrics md) as [|[node d] hm] eqn:E; auto. exfalso.
    assert (Hin : In (node, d) (handler_metrics md))
      by (rewrite E; now left).
    destruct (Hlw node d Hin) as (ts & vs & Hf).
    apply filter_metrics_within in Hf.
    destruct (Hpar node d (or_introl eq_refl)) as (Hts & _).
    destruct (timestamps d) as [|t0 l]; [congruence|].
    inversion Hf; subst. unfold within in *. lia. }
  split; [|exact Hm].
  destruct (md_nodes md) as [|n l] eqn:E; auto. exfalso.
  assert (Hin : In n (n :: l)) by now left.
  apply Hnodes in Hin. rewrite Hm in Hin. destruct Hin.
Qed.

Lemma negative_hours_range_loads_nothing_witness :
  exists md tr',
    _load_metrics_data MetricsScenario.metrics_world "hbase_metrics"
      (Some "2025-09-12 12:30:00") (-1) [] = (inr md, tr')
    /\ md_nodes md = [] /\ handler_metrics md = [].
Proof.
  destruct (_load_metrics_data MetricsScenario.metrics_world "hbase_metrics"
              (Some "2025-09-12 12:30:00") (-1) []) as [[e|md] tr'] eqn:E;
    [vm_compute in E; discriminate|].
  exists md, tr'. split; [reflexivity|].
  apply (negative_hours_range_loads_nothing MetricsScenario.metrics_world
           "hbase_metrics" "2025-09-12 12:30:00"
           (Scenario.noon + 1800 * US_PER_SECOND)%Z (-1) [] tr' md).
  - discriminate.
  - vm_compute. reflexivity.
  - lia.
  - exact E.
Defined.

(* ================================================================== *)
(** * The log document *)

Lemma node_handler_values_event evs node :
  node_handler_values evs node <> [] ->
  exists e, In e evs /\ e_node e = node.
Proof.
  unfold node_handler_values. induction evs as [|e evs IH]; simpl.
  - congruence.
  - destruct (String.eqb (e_node e) node) eqn:E.
    + intros _. exists e. split; [now left|]. now apply String.eqb_eq.
    + simpl. intros H. destruct (IH H) as (e' & He' & Hn).
      exists e'. split; [now right | exact Hn].
Qed.

Lemma handler_anomalies_le (stats : ODict.t (list Z)) :
  List.length (flat_map handler_anomaly stats) <= List.length stats.
Proof.
  induction stats as [|[node vs] stats IH]; cbn [flat_map List.length]; auto.
  rewrite length_app.
  assert (List.length (handler_anomaly (node, vs)) <= 1).
  { unfold handler_anomaly. destruct vs; simpl; [lia|].
    destruct (58 <=? _)%Z; simpl; lia. }
  lia.
Qed.

Lemma error_rate_anomaly_le ld : List.length (error_rate_anomaly ld) <= 1.
Proof.
  unfold error_rate_anomaly. destruct (errors ld); simpl; [lia|].
  destruct (Num.Qltb 5 _); simpl; lia.
Qed.

Lemma summarize_errors_total errs :
  total (_summarize_errors errs) = List.length errs.
Proof. now destruct errs. Qed.

(** X24. The document of [analyze_hbase_logs] agrees with itself: the
    numbers of its summary are the entries counted, the anomalies and
    the performance issues listed and the errors summarized; the errors
    are no more than the entries; and, with sets listed without loss,
    the nodes are no more than the files processed and the anomalies no
    more than one for each node and one for the error rate. *)
Theorem log_document_is_consistent (w : World) (log_dir : string)
  (start_time end_time : option string)
  (focus_areas target_nodes : option (list string))
  (r : log_result) (tr : trace) :
  lists_sets w ->
  run (analyze_hbase_logs w log_dir start_time end_time focus_areas
         target_nodes) = (inr r, tr) ->
  d_entries (r_summary r) = r_total_entries r
  /\ d_anomalies (r_summary r) = List.length (r_anomalies r)
  /\ d_issues (r_summary r) = List.length (r_performance_issues r)
  /\ d_errors (r_summary r) = total (r_error_summary r)
  /\ d_errors (r_summary r) <= r_total_entries r
  /\ d_nodes (r_summary r) <= files_processed r
  /\ List.length (r_anomalies r) <= d_nodes (r_summary r) + 1.
Proof.
  unfold run, analyze_hbase_logs. intros Hset H.
  apply bind_inr in H. destruct H as (found & tr1 & _ & H).
  apply bind_inr in H. destruct H as (tw & tr2 & _ & H).
  apply bind_inr in H. destruct H as (files & tr3 & _ & H).
  apply bind_inr in H. destruct H as (ld & tr4 & Hld & H).
  apply ret_inr in H. destruct H as [<- _].
  cbn [r_summary r_total_entries r_anomalies r_performance_issues
       r_error_summary files_processed _analyze_parsed_logs summary
       anomalies performance_issues error_summary
       _generate_analysis_summary d_entries d_nodes d_anomalies d_issues
       d_errors].
  destruct (parse_log_files_nodes w files tw focus_areas tr3 tr4 ld Hset Hld)
    as (Hnd & _ & Hlen & Hev & _).
  destruct (parse_log_files_closed w files tw focus_areas tr3)
    as (ld' & Hld' & _ & Hr & Ht).
  rewrite Hld in Hld'. inversion Hld'; subst ld'; clear Hld'.
  split; [reflexivity|]. split; [reflexivity|]. split; [reflexivity|].
  split; [now rewrite summarize_errors_total|].
  split; [rewrite Hr, Ht; apply errors_per_file_le|].
  split; [exact Hlen|].
  rewrite length_app.
  pose proof (handler_anomalies_le (group_handlers (events ld))) as Ha.
  pose proof (error_rate_anomaly_le ld) as He.
  assert (Hk : List.length (group_handlers (events ld))
               <= List.length (nodes ld)).
  { rewrite <- (length_map fst (group_handlers (events ld))).
    apply NoDup_incl_length; [apply group_handlers_wf|].
    intros node Hin. apply in_map_iff in Hin.
    destruct Hin as ([node' vs] & <- & Hin). simpl.
    apply group_handlers_entries in Hin. destruct Hin as [Hne Hv].
    destruct (node_handler_values_event (events ld) node') as (e & He' & <-);
      [now rewrite Hv|].
    rewrite Forall_forall in Hev. now apply Hev. }
  lia.
Qed.

Lemma log_document_is_consistent_witness :
  exists r tr,
    run (analyze_hbase_logs SpecScenario.world_A "hbase_log"
           (Some "2025-09-12 12:00:00") (Some "2025-09-12 13:00:00")
           None None) = (inr r, tr)
    /\ d_anomalies (r_summary r) = List.length (r_anomalies r)
    /\ List.length (r_anomalies r) <= d_nodes (r_summary r) + 1
    /\ d_nodes (r_summary r) = 1.
Proof.
  destruct (run (analyze_hbase_logs SpecScenario.world_A "hbase_log"
                   (Some "2025-09-12 12:00:00") (Some "2025-09-12 13:00:00")
                   None None)) as [[e|r] tr] eqn:E;
    [vm_compute in E; discriminate|].
  assert (Hset : lists_sets SpecScenario.world_A)
    by (intros l _; apply Permutation_refl).
  destruct (log_document_is_consistent _ _ _ _ _ _ _ _ Hset E)
    as (_ & Ha & _ & _ & _ & _ & Hb).
  exists r, tr. split; [reflexivity|]. split; [exact Ha|].
  split; [exact Hb|]. vm_compute in E. inversion E. reflexivity.
Defined.

(* ================================================================== *)
(** * Paths and names *)

Section PathNames.

Lemma append_nil_r (s : string) : String.append s EmptyString = s.
Proof. induction s as [|a s IH]; simpl; [reflexivity | now rewrite IH]. Qed.

Lemma append_assoc (s t u : string) :
  String.append (String.append s t) u = String.append s (String.append t u).
Proof. induction s as [|a s IH]; simpl; [reflexivity | now rewrite IH]. Qed.

Lemma rev_acc_rev_acc s : forall acc t,
  PyStr.rev_acc (PyStr.rev_acc s acc) t = PyStr.rev_acc acc (String.append s t).
Proof.
  induction s as [|a s IH]; intros acc t; simpl; [reflexivity|].
  now rewrite IH.
Qed.

Lemma basename_acc_plain name : forall cur,
  plain_name name = true ->
  PyStr.basename_acc name cur = PyStr.rev (PyStr.rev_acc name cur).
Proof.
  induction name as [|a name IH]; intros cur H; simpl in *; [reflexivity|].
  apply andb_true_iff in H. destruct H as [Ha H].
  apply negb_true_iff in Ha. rewrite Ha. now apply IH.
Qed.

Lemma basename_plain name : plain_name name = true -> PyStr.basename name = name.
Proof.
  intros H. unfold PyStr.basename. rewrite basename_acc_plain by assumption.
  unfold PyStr.rev. rewrite rev_acc_rev_acc. simpl. apply append_nil_r.
Qed.

Lemma basename_acc_after_slash s name : forall cur,
  PyStr.basename_acc (String.append s (String "/" name)) cur
  = PyStr.basename_acc name EmptyString.
Proof.
  induction s as [|a s IH]; intros cur; simpl; [reflexivity|].
  destruct (Ascii.eqb a "/"); apply IH.
Qed.

Lemma drop_suffix n : forall s,
  exists r, s = String.append r (PyStr.drop n s).
Proof.
  induction n as [|n IH]; intros s.
  - now exists EmptyString.
  - destruct s as [|a s]; [now exists EmptyString|].
    destruct (IH s) as [r Hr]. exists (String a r). simpl. now f_equal.
Qed.

Lemma endswith_suffix suffix s :
  PyStr.endswith suffix s = true -> exists r, s = String.append r suffix.
Proof.
  unfold PyStr.endswith. intros H. apply andb_true_iff in H.
  destruct H as [_ H]. apply String.eqb_eq in H.
  destruct (drop_suffix (String.length s - String.length suffix) s) as [r Hr].
  exists r. now rewrite H in Hr.
Qed.

Lemma basename_path_join root name :
  plain_name name = true ->
  PyStr.basename (PyStr.path_join root name) = name.
Proof.
  intros H. unfold PyStr.path_join.
  destruct (String.eqb root EmptyString) eqn:E; simpl.
  - apply String.eqb_eq in E. subst root. simpl. now apply basename_plain.
  - destruct (PyStr.endswith "/" root) eqn:Es.
    + apply endswith_suffix in Es. destruct Es as [r ->].
      rewrite append_assoc. simpl. unfold PyStr.basename.
      rewrite basename_acc_after_slash. now apply basename_plain.
    + simpl. unfold PyStr.basename.
      rewrite basename_acc_after_slash. now apply basename_plain.
Qed.

End PathNames.

(** X25. A file found in a directory is judged by its name alone: for a
    name without separator, the path that [_discover_log_files] forms
    has that name as its base name, so its node and its relevance for
    the target dates are those of the name, whatever the directory. *)
Theorem discovered_files_are_judged_by_name (root name : string)
  (target_dates : list string) :
  plain_name name = true ->
  PyStr.basename (PyStr.path_join root name) = name
  /\ _extract_node_name (PyStr.path_join root name) = _extract_node_name name
  /\ _is_file_relevant_for_dates (PyStr.path_join root name) target_dates
     = _is_file_relevant_for_dates name target_dates.
Proof.
  intros H.
  pose proof (basename_path_join root name H) as Hj.
  pose proof (basename_plain name H) as Hn.
  split; [exact Hj|]. split.
  - unfold _extract_node_name. now rewrite Hj, Hn.
  - unfold _is_file_relevant_for_dates. now rewrite Hj, Hn.
Qed.

Lemma discovered_files_are_judged_by_name_witness :
  _extract_node_name
    (PyStr.path_join "hbase_log/2025/rs" "hbase-regionserver-ip-10-0-0-1.log")
  = "ip-10-0-0-1".
Proof.
  destruct (discovered_files_are_judged_by_name "hbase_log/2025/rs"
              "hbase-regionserver-ip-10-0-0-1.log" [] eq_refl)
    as (_ & H & _).
  rewrite H. vm_compute. reflexivity.
Defined.
